(** * Uniswap V3 action provider: a shallow embedding of the Python sources

    The development follows [coinbase_agentkit/action_providers/uniswap_v3]:
    - [utils.py]: unit conversion helpers, slippage, balance and approval calls;
    - [constants.py]: the address and decimals tables;
    - [uniswap_v3_action_provider.py]: the two handlers [create_liquidity] and
      [get_price].

    Python values are modelled as the interpreter has them: [int] is [Z],
    [str] is a string of 8-bit code points, [float] is IEEE-754 binary64
    ([spec_float] with precision 53 and maximal exponent 1024),
    [decimal.Decimal] is a sign, an integer coefficient and an exponent under
    the default context (28 digits, ROUND_HALF_EVEN, Emax 999999).  Raised
    exceptions are values of [exn]; a computation that can raise returns a
    [result]. *)

From Stdlib Require Import ZArith QArith Qround String Ascii List Bool Lia.
From Stdlib Require Import SpecFloat.
From stdpp Require Import base strings gmap.

Local Open Scope string_scope.
Local Open Scope list_scope.
Local Open Scope Z_scope.

(** ** Exceptions and results *)

Module Py.

(** The exception classes that the modelled code raises or catches.  Every
    class below derives from [Exception]; [OtherError] stands for any other
    [Exception] subclass that an injected collaborator may raise. *)
Inductive exn : Type :=
| ValueError (msg : string)
| KeyError (key : string)
| TypeError (msg : string)
| IndexError (msg : string)
| OverflowError (msg : string)
| ZeroDivisionError (msg : string)
| DecimalInvalidOperation (msg : string)
| DecimalOverflow (msg : string)
| ValidationError (msg : string)
| OtherError (cls msg : string).

Inductive result (A : Type) : Type :=
| Ok (a : A)
| Raise (e : exn).

Arguments Ok {A} a.
Arguments Raise {A} e.

Definition rbind {A B} (r : result A) (f : A -> result B) : result B :=
  match r with
  | Ok a => f a
  | Raise e => Raise e
  end.

Definition is_ValueError (e : exn) : bool :=
  match e with
  | ValueError _ => true
  | _ => false
  end.

(** [try: r except ValueError as e: h e] *)
Definition try_except_ValueError {A} (r : result A) (h : exn -> result A) : result A :=
  match r with
  | Ok a => Ok a
  | Raise e => if is_ValueError e then h e else Raise e
  end.

End Py.
Export Py.

Notation "'let!' x ':=' r 'in' k" := (rbind r (fun x => k))
  (at level 10, x pattern, r at level 100, k at level 200, only parsing).

(** ** Python [str] operations *)

Module PyStr.

Definition code (c : ascii) : Z := Z.of_N (N_of_ascii c).

Definition is_digit (c : ascii) : bool := (48 <=? code c) && (code c <=? 57).

Definition digit_val (c : ascii) : Z := code c - 48.

(** [str.isspace] on the code points below 256: the set that [Decimal(str)]
    strips. *)
Definition is_space (c : ascii) : bool :=
  let n := code c in
  ((9 <=? n) && (n <=? 13)) || ((28 <=? n) && (n <=? 32)) || (n =? 133) || (n =? 160).

(** The code points below 256 that [int()] strips: the ASCII white space of
    C, and the two other spaces of that range, which [int()] turns into a
    blank first.  The separators U+001C to U+001F are spaces for
    [str.isspace] but not for [int()]. *)
Definition is_int_space (c : ascii) : bool :=
  let n := code c in
  ((9 <=? n) && (n <=? 13)) || (n =? 32) || (n =? 133) || (n =? 160).

(** [str.lower] on one code point: A-Z and the Latin-1 capitals. *)
Definition lower_char (c : ascii) : ascii :=
  let n := code c in
  if ((65 <=? n) && (n <=? 90)) || ((192 <=? n) && (n <=? 222) && negb (n =? 215))
  then ascii_of_N (Z.to_N (n + 32))
  else c.

Fixpoint lower (s : string) : string :=
  match s with
  | EmptyString => EmptyString
  | String c r => String (lower_char c) (lower r)
  end.

(** [c in s] for a one-character string [c]. *)
Fixpoint contains (c : ascii) (s : string) : bool :=
  match s with
  | EmptyString => false
  | String a r => Ascii.eqb a c || contains c r
  end.

(** [s.split(sep)] for a one-character separator: at least one part. *)
Fixpoint split (sep : ascii) (s : string) : list string :=
  match s with
  | EmptyString => [EmptyString]
  | String c r =>
      if Ascii.eqb c sep then EmptyString :: split sep r
      else match split sep r with
           | p :: ps => String c p :: ps
           | [] => [String c EmptyString]
           end
  end.

(** [s[:n]] *)
Fixpoint take (n : nat) (s : string) : string :=
  match n, s with
  | S n', String c r => String c (take n' r)
  | _, _ => EmptyString
  end.

Fixpoint repeat_char (c : ascii) (n : nat) : string :=
  match n with
  | O => EmptyString
  | S n' => String c (repeat_char c n')
  end.

(** [s.ljust(width, fill)] *)
Definition ljust (s : string) (width : nat) (fill : ascii) : string :=
  s +:+ repeat_char fill (width - String.length s).

(** [s.lstrip()] and [s.rstrip(chars)] with the stripped set given as a
    predicate. *)
Fixpoint lstrip (p : ascii -> bool) (s : string) : string :=
  match s with
  | EmptyString => EmptyString
  | String c r => if p c then lstrip p r else s
  end.

Fixpoint rstrip (p : ascii -> bool) (s : string) : string :=
  match s with
  | EmptyString => EmptyString
  | String c r =>
      match rstrip p r with
      | EmptyString => if p c then EmptyString else String c EmptyString
      | r' => String c r'
      end
  end.

Definition strip (p : ascii -> bool) (s : string) : string := rstrip p (lstrip p s).

Definition is_char (c : ascii) : ascii -> bool := fun a => Ascii.eqb a c.

(** Value of a run of decimal digits, most significant first. *)
Fixpoint digits_value_acc (acc : Z) (s : string) : Z :=
  match s with
  | EmptyString => acc
  | String c r => digits_value_acc (10 * acc + digit_val c) r
  end.

Definition digits_value (s : string) : Z := digits_value_acc 0 s.

Fixpoint all_digits (s : string) : bool :=
  match s with
  | EmptyString => true
  | String c r => is_digit c && all_digits r
  end.

(** The digit part of an integer literal: digits, with single underscores
    allowed between two digits.  [after_digit] tells whether the previous
    character was a digit. *)
Fixpoint int_digits (after_digit : bool) (acc : Z) (s : string) : option Z :=
  match s with
  | EmptyString => if after_digit then Some acc else None
  | String c r =>
      if is_digit c then int_digits true (10 * acc + digit_val c) r
      else if Ascii.eqb c "_" && after_digit then int_digits false acc r
      else None
  end.

(** An optional leading sign: whether it is a minus, and the rest. *)
Definition split_sign (s : string) : bool * string :=
  match s with
  | String c r =>
      if Ascii.eqb c "-" then (true, r)
      else if Ascii.eqb c "+" then (false, r)
      else (false, s)
  | EmptyString => (false, s)
  end.

(** [str(n)] for an [int].  CPython refuses to print an [int] of more than
    4300 digits; that limit on the printing side is not modelled, every
    [int] is printed. *)
Fixpoint nat_digits (fuel : nat) (n : Z) (acc : string) : string :=
  match fuel with
  | O => acc
  | S fuel' =>
      let acc' := String (ascii_of_N (Z.to_N (48 + n mod 10))) acc in
      if n <? 10 then acc' else nat_digits fuel' (n / 10) acc'
  end.

Definition str_of_nonneg (n : Z) : string :=
  nat_digits (S (Z.to_nat (Z.log2 n))) n EmptyString.

Definition str_of_int (n : Z) : string :=
  if n <? 0 then String "-" (str_of_nonneg (- n)) else str_of_nonneg n.

(** [repr(s)] for a [str]: quotes, and escapes for the quote, the backslash
    and the non-printable code points. *)
Definition hex_digit (n : Z) : ascii :=
  ascii_of_N (Z.to_N (if n <? 10 then 48 + n else 87 + n)).

Definition escape_char (quote c : ascii) : string :=
  let n := code c in
  if Ascii.eqb c quote || Ascii.eqb c "\" then String "\" (String c EmptyString)
  else if n =? 10 then "\n"
  else if n =? 13 then "\r"
  else if n =? 9 then "\t"
  else if (n <? 32) || ((127 <=? n) && (n <=? 160)) || (n =? 173)
  then String "\" (String "x" (String (hex_digit (n / 16)) (String (hex_digit (n mod 16)) EmptyString)))
  else String c EmptyString.

Fixpoint escape (quote : ascii) (s : string) : string :=
  match s with
  | EmptyString => EmptyString
  | String c r => escape_char quote c +:+ escape quote r
  end.

Definition dquote : ascii := ascii_of_N 34.

Definition repr_str (s : string) : string :=
  let quote : ascii := if contains "'" s && negb (contains dquote s) then dquote else "'"%char in
  String quote (escape quote s) +:+ String quote EmptyString.

(** The longest prefix of digits and underscores, and the rest. *)
Fixpoint span_literal (s : string) : string * string :=
  match s with
  | String c r =>
      if is_digit c || Ascii.eqb c "_"
      then let '(run, rest) := span_literal r in (String c run, rest)
      else (EmptyString, s)
  | EmptyString => (EmptyString, EmptyString)
  end.

Fixpoint count_digits (s : string) : nat :=
  match s with
  | EmptyString => O
  | String c r => if is_digit c then S (count_digits r) else count_digits r
  end.

(** [sys.get_int_max_str_digits()], at its default. *)
Definition int_max_str_digits : nat := 4300.

(** [int(s)] for a [str] in base 10: surrounding whitespace is dropped, one
    sign is allowed, then the digits, single underscores allowed between
    them.  A run of more than 4300 digits (leading zeros counted) is
    refused, before what follows the run is looked at.  All failures are
    [ValueError]s; the message quotes at most 200 characters of
    [repr(s)]. *)
Definition int_of_str (s : string) : result Z :=
  let invalid :=
    ValueError ("invalid literal for int() with base 10: " +:+ take 200 (repr_str s)) in
  let body := strip is_int_space s in
  let '(neg, ds) := split_sign body in
  let '(run, rest) := span_literal ds in
  match int_digits false 0 run with
  | None => Raise invalid
  | Some n =>
      if (int_max_str_digits <? count_digits run)%nat then
        Raise (ValueError ("Exceeds the limit (4300 digits) for integer string conversion: "
                           +:+ "value has " +:+ str_of_nonneg (Z.of_nat (count_digits run))
                           +:+ " digits; use sys.set_int_max_str_digits() "
                           +:+ "to increase the limit"))
      else if String.eqb rest "" then Ok (if neg then - n else n)
      else Raise invalid
  end.

End PyStr.

Import PyStr.

(** ** [decimal.Decimal] under the default context *)

Module PyDecimal.

(** A finite decimal: [(-1)^sign * coefficient * 10^exponent], the
    coefficient being a non-negative integer.  The operations used by the
    sources never produce an infinity or a NaN without raising. *)
Record decimal : Type := Dec { d_sign : bool; d_int : Z; d_exp : Z }.

Definition prec : Z := 28.
Definition Emax : Z := 999999.
Definition Emin : Z := -999999.
Definition Etiny : Z := Emin - prec + 1.
Definition Etop : Z := Emax - prec + 1.

(** [len(self._int)]: the number of digits of the coefficient, 1 for zero. *)
Definition len_int (c : Z) : Z := Z.of_nat (String.length (str_of_nonneg c)).

(** [Decimal(n)] for an [int]: exact. *)
Definition of_int (n : Z) : decimal := Dec (n <? 0) (Z.abs n) 0.

(** ROUND_HALF_EVEN of [c / 10^k]. *)
Definition round_half_even (c k : Z) : Z :=
  let q := c / 10 ^ k in
  let r := c mod 10 ^ k in
  match Z.compare (2 * r) (10 ^ k) with
  | Gt => q + 1
  | Eq => if Z.even q then q else q + 1
  | Lt => q
  end.

(** [Decimal._fix]: round to the context precision, raise [Overflow] (a
    trapped signal) above [Emax], round subnormal results to [Etiny].  The
    messages of the signals are those of the C implementation, which names
    the signal's class. *)
Definition fix_ (x : decimal) : result decimal :=
  let '(Dec sg c e) := x in
  if c =? 0 then Ok (Dec sg 0 (Z.min (Z.max e Etiny) Emax))
  else
    let exp_min := len_int c + e - prec in
    if Etop <? exp_min then Raise (DecimalOverflow "[<class 'decimal.Overflow'>]")
    else
      let exp_min := if exp_min <? Etiny then Etiny else exp_min in
      if e <? exp_min then
        let coeff := round_half_even c (exp_min - e) in
        let '(coeff, exp_min) :=
          if prec <? len_int coeff then (coeff / 10, exp_min + 1) else (coeff, exp_min) in
        if Etop <? exp_min then Raise (DecimalOverflow "[<class 'decimal.Overflow'>]")
        else Ok (Dec sg coeff exp_min)
      else Ok x.

(** The loop of [__truediv__] that brings an exact quotient as close to the
    ideal exponent as possible. *)
Fixpoint strip_zeros (fuel : nat) (ideal_exp coeff exp : Z) : Z * Z :=
  match fuel with
  | O => (coeff, exp)
  | S fuel' =>
      if (exp <? ideal_exp) && (coeff mod 10 =? 0)
      then strip_zeros fuel' ideal_exp (coeff / 10) (exp + 1)
      else (coeff, exp)
  end.

(** [x / y] *)
Definition truediv (x y : decimal) : result decimal :=
  let sg := xorb (d_sign x) (d_sign y) in
  if d_int y =? 0 then
    if d_int x =? 0 then Raise (DecimalInvalidOperation "[<class 'decimal.DivisionUndefined'>]")
    else Raise (ZeroDivisionError "[<class 'decimal.DivisionByZero'>]")
  else if d_int x =? 0 then fix_ (Dec sg 0 (d_exp x - d_exp y))
  else
    let shift := len_int (d_int y) - len_int (d_int x) + prec + 1 in
    let exp := d_exp x - d_exp y - shift in
    let '(coeff, remainder) :=
      if 0 <=? shift then Z.div_eucl (d_int x * 10 ^ shift) (d_int y)
      else Z.div_eucl (d_int x) (d_int y * 10 ^ (- shift)) in
    let '(coeff, exp) :=
      if remainder =? 0
      then strip_zeros (Z.to_nat (d_exp x - d_exp y - exp)) (d_exp x - d_exp y) coeff exp
      else (if coeff mod 5 =? 0 then coeff + 1 else coeff, exp) in
    fix_ (Dec sg coeff exp).

(** [x * y] *)
Definition mul (x y : decimal) : result decimal :=
  fix_ (Dec (xorb (d_sign x) (d_sign y)) (d_int x * d_int y) (d_exp x + d_exp y)).

(** [int(x)]: truncation toward zero. *)
Definition to_int (x : decimal) : Z :=
  let n := if 0 <=? d_exp x then d_int x * 10 ^ d_exp x
           else d_int x / 10 ^ (- d_exp x) in
  if d_sign x then - n else n.

(** [str(x)] (scientific form, capitals). *)
Definition signed_exp (n : Z) : string :=
  if n <? 0 then str_of_int n else String "+" (str_of_int n).

Definition drop (n : nat) (s : string) : string :=
  String.substring n (String.length s - n) s.

Definition to_str (x : decimal) : string :=
  let digits := str_of_nonneg (d_int x) in
  let len := Z.of_nat (String.length digits) in
  let leftdigits := d_exp x + len in
  let dotplace := if (d_exp x <=? 0) && (-6 <? leftdigits) then leftdigits else 1 in
  let intpart_fracpart :=
    if dotplace <=? 0 then
      ("0", "." +:+ repeat_char "0" (Z.to_nat (- dotplace)) +:+ digits)
    else if len <=? dotplace then
      (digits +:+ repeat_char "0" (Z.to_nat (dotplace - len)), "")
    else
      (PyStr.take (Z.to_nat dotplace) digits, "." +:+ drop (Z.to_nat dotplace) digits) in
  let exp :=
    if leftdigits =? dotplace then ""
    else String "E" (signed_exp (leftdigits - dotplace)) in
  (if d_sign x then "-" else "") +:+ fst intpart_fracpart +:+ snd intpart_fracpart +:+ exp.

(** [Decimal(s)] for a [str]: whitespace around and underscores anywhere are
    dropped, then [sign? (digits (. digits?)? | . digits) (E sign? digits)?].
    The special values (Inf, NaN) contain no letter e and never reach the
    only call site, so the parser rejects them with the rest. *)
Fixpoint remove_char (c : ascii) (s : string) : string :=
  match s with
  | EmptyString => EmptyString
  | String a r => if Ascii.eqb a c then remove_char c r else String a (remove_char c r)
  end.

(** Splits [s] into its longest prefix of digits and the rest. *)
Fixpoint span_digits (s : string) : string * string :=
  match s with
  | String c r =>
      if is_digit c then let '(ds, rest) := span_digits r in (String c ds, rest)
      else (EmptyString, s)
  | EmptyString => (EmptyString, EmptyString)
  end.

Definition parse_exponent (s : string) : option Z :=
  match s with
  | EmptyString => Some 0
  | String c r =>
      if Ascii.eqb (lower_char c) "e" then
        let '(neg, ds) := split_sign r in
        if all_digits ds && negb (String.eqb ds "")
        then Some (if neg then - digits_value ds else digits_value ds)
        else None
      else None
  end.

(** The string is converted exactly or not at all: under the widest context
    of the C implementation, whose exponents are bounded by [10^18 - 1]; a
    number that would have to be rounded or clamped there raises
    [InvalidOperation]. *)
Definition parse_Emax : Z := 999999999999999999.
Definition parse_Etiny : Z := -1999999999999999997.

Definition of_str (s : string) : result decimal :=
  let body := remove_char "_" (strip is_space s) in
  let '(sg, body) := split_sign body in
  let '(intpart, rest) := span_digits body in
  let '(fracpart, rest, has_digit) :=
    match rest with
    | String c r =>
        if Ascii.eqb c "." then
          let '(f, rest') := span_digits r in
          (f, rest', negb (String.eqb intpart "") || negb (String.eqb f ""))
        else ("", rest, negb (String.eqb intpart ""))
    | EmptyString => ("", rest, negb (String.eqb intpart ""))
    end in
  match (if has_digit then parse_exponent rest else None) with
  | Some e =>
      let coeff := digits_value (intpart +:+ fracpart) in
      let exp := e - Z.of_nat (String.length fracpart) in
      if (parse_Etiny <=? exp) && (exp + len_int coeff - 1 <=? parse_Emax)
      then Ok (Dec sg coeff exp)
      else Raise (DecimalInvalidOperation "[<class 'decimal.InvalidOperation'>]")
  | None => Raise (DecimalInvalidOperation "[<class 'decimal.ConversionSyntax'>]")
  end.

End PyDecimal.

(** ** [float]: IEEE-754 binary64, round to nearest even *)

Module PyFloat.

Definition prec : Z := 53.
Definition emax : Z := 1024.

Definition float : Type := spec_float.

Definition fsub : float -> float -> float := SFsub prec emax.
Definition fmul : float -> float -> float := SFmul prec emax.
Definition fdiv : float -> float -> float := SFdiv prec emax.

(** [float(n)] for an [int]: correctly rounded, [OverflowError] when the
    rounded value exceeds the largest double. *)
Definition of_int (n : Z) : result float :=
  match binary_normalize prec emax n 0 false with
  | S754_infinity _ => Raise (OverflowError "int too large to convert to float")
  | f => Ok f
  end.

(** [a / b] for two [int]s: the correctly rounded quotient. *)
Definition int_truediv (a b : Z) : result float :=
  if b =? 0 then Raise (ZeroDivisionError "division by zero")
  else
    let sg := xorb (a <? 0) (b <? 0) in
    if a =? 0 then Ok (S754_zero sg)
    else
      let '(q, e, l) := SFdiv_core_binary prec emax (Z.abs a) 0 (Z.abs b) 0 in
      match binary_round_aux prec emax sg q e l with
      | S754_infinity _ =>
          Raise (OverflowError "integer division result too large for a float")
      | f => Ok f
      end.

(** [int(x)]: truncation toward zero. *)
Definition to_int (x : float) : result Z :=
  match x with
  | S754_zero _ => Ok 0
  | S754_infinity _ => Raise (OverflowError "cannot convert float infinity to integer")
  | S754_nan => Raise (ValueError "cannot convert float NaN to integer")
  | S754_finite sg m e =>
      let n := if 0 <=? e then Z.pos m * 2 ^ e else Z.pos m / 2 ^ (- e) in
      Ok (if sg then - n else n)
  end.

(** The exact value of a finite float, as a rational. *)
Definition to_Q (x : float) : Q :=
  match x with
  | S754_finite sg m e =>
      let q := if 0 <=? e then inject_Z (Z.pos m * 2 ^ e)
               else Qmake (Z.pos m) (Z.to_pos (2 ^ (- e))) in
      if sg then Qopp q else q
  | _ => 0%Q
  end.

(** [math.isfinite(x)] *)
Definition is_finite (x : float) : bool :=
  match x with
  | S754_zero _ | S754_finite _ _ _ => true
  | S754_infinity _ | S754_nan => false
  end.

Definition one : float := S754_finite false 4503599627370496 (-52).
Definition two : float := S754_finite false 4503599627370496 (-51).
Definition hundred : float := S754_finite false 7036874417766400 (-46).

(** [format(x, ".6f")]: the exact value rounded half-even to six decimals. *)
Definition format_6f (x : float) : string :=
  match x with
  | S754_nan => "nan"
  | S754_infinity sg => if sg then "-inf" else "inf"
  | S754_zero sg => if sg then "-0.000000" else "0.000000"
  | S754_finite sg m e =>
      let scaled :=
        if 0 <=? e then Z.pos m * 2 ^ e * 1000000
        else
          let num := Z.pos m * 1000000 in
          let den := 2 ^ (- e) in
          let q := num / den in
          let r := num mod den in
          match Z.compare (2 * r) den with
          | Gt => q + 1
          | Eq => if Z.even q then q else q + 1
          | Lt => q
          end in
      let frac := str_of_nonneg (scaled mod 1000000) in
      (if sg then "-" else "") +:+ str_of_nonneg (scaled / 1000000) +:+ "."
        +:+ repeat_char "0" (6 - String.length frac) +:+ frac
  end.

End PyFloat.

(** ** [utils.py]: unit conversion *)

(** [format_amount_with_decimals(amount, decimals)] *)
Definition format_amount_with_decimals (amount : string) (decimals : nat) : result Z :=
  try_except_ValueError
    (if contains "e" (lower amount) then
       let! amount_decimal := PyDecimal.of_str amount in
       let! scaled := PyDecimal.mul amount_decimal (PyDecimal.of_int (10 ^ Z.of_nat decimals)) in
       Ok (PyDecimal.to_int scaled)
     else
       match split "." amount with
       | [part] =>
           let! whole := int_of_str part in
           Ok (whole * 10 ^ Z.of_nat decimals)
       | [whole; fraction] =>
           let fraction :=
             if (decimals <? String.length fraction)%nat
             then PyStr.take decimals fraction
             else ljust fraction decimals "0" in
           let! w := int_of_str whole in
           let! f := int_of_str fraction in
           Ok (w * 10 ^ Z.of_nat decimals + f)
       | _ => Raise (ValueError "too many values to unpack (expected 2)")
       end)
    (fun _ => Raise (ValueError ("Invalid amount format: " +:+ amount))).

(** [format_amount_from_decimals(amount, decimals)] *)
Definition format_amount_from_decimals (amount : Z) (decimals : nat) : result string :=
  if amount =? 0 then Ok "0"
  else
    let! amount_decimal :=
      PyDecimal.truediv (PyDecimal.of_int amount) (PyDecimal.of_int (10 ^ Z.of_nat decimals)) in
    let s := PyDecimal.to_str amount_decimal in
    Ok (if contains "." s then rstrip (is_char ".") (rstrip (is_char "0") s) else s).


(** [calculate_slippage_amounts(amount, slippage_percentage)] *)
Definition calculate_slippage_amounts (amount : Z) (slippage_percentage : PyFloat.float) : result Z :=
  let slippage_factor := PyFloat.fsub PyFloat.one (PyFloat.fdiv slippage_percentage PyFloat.hundred) in
  let! amount_f := PyFloat.of_int amount in
  PyFloat.to_int (PyFloat.fmul amount_f slippage_factor).

(** ** Dynamically typed values *)

#[local] Set Warnings "-register-all".

(** The values that a contract read can hand back to the handlers (ABI-decoded
    results): [None], [bool], [int], [str], and tuples or lists of these. *)
Inductive pyval : Type :=
| PNone
| PBool (b : bool)
| PInt (n : Z)
| PStr (s : string)
| PTuple (items : list pyval).

Module PyVal.

Definition type_name (v : pyval) : string :=
  match v with
  | PNone => "NoneType"
  | PBool _ => "bool"
  | PInt _ => "int"
  | PStr _ => "str"
  | PTuple _ => "tuple"
  end.

(** An [int] operand: [bool] is a subclass of [int]. *)
Definition as_int (v : pyval) : option Z :=
  match v with
  | PInt n => Some n
  | PBool b => Some (if b then 1 else 0)
  | _ => None
  end.

(** [v < n] for an [int] [n]. *)
Definition lt_int (v : pyval) (n : Z) : result bool :=
  match as_int v with
  | Some a => Ok (a <? n)
  | None =>
      Raise (TypeError ("'<' not supported between instances of '" +:+ type_name v
                        +:+ "' and 'int'"))
  end.

(** [v == s] for a [str] [s]. *)
Definition eq_str (v : pyval) (s : string) : bool :=
  match v with
  | PStr a => String.eqb a s
  | _ => false
  end.

(** [v[i]] for a non-negative index. *)
Definition getitem (v : pyval) (i : nat) : result pyval :=
  match v with
  | PTuple items =>
      match nth_error items i with
      | Some x => Ok x
      | None => Raise (IndexError "tuple index out of range")
      end
  | PStr s =>
      match String.get i s with
      | Some c => Ok (PStr (String c EmptyString))
      | None => Raise (IndexError "string index out of range")
      end
  | _ => Raise (TypeError ("'" +:+ type_name v +:+ "' object is not subscriptable"))
  end.

(** [v / n] for an [int] [n]: true division. *)
Definition truediv_int (v : pyval) (n : Z) : result PyFloat.float :=
  match as_int v with
  | Some a => PyFloat.int_truediv a n
  | None =>
      Raise (TypeError ("unsupported operand type(s) for /: '" +:+ type_name v
                        +:+ "' and 'int'"))
  end.

Fixpoint join (sep : string) (l : list string) : string :=
  match l with
  | [] => EmptyString
  | [x] => x
  | x :: r => x +:+ sep +:+ join sep r
  end.

(** [repr(v)] and [str(v)] *)
Fixpoint repr (v : pyval) : string :=
  match v with
  | PNone => "None"
  | PBool b => if b then "True" else "False"
  | PInt n => str_of_int n
  | PStr s => repr_str s
  | PTuple items =>
      match items with
      | [x] => "(" +:+ repr x +:+ ",)"
      | _ => "(" +:+ join ", " (map repr items) +:+ ")"
      end
  end.

Definition str (v : pyval) : string :=
  match v with
  | PStr s => s
  | _ => repr v
  end.

End PyVal.

(** [str(e)] for an exception, as [{e!s}] renders it. *)
Definition exn_str (e : exn) : string :=
  match e with
  | KeyError key => repr_str key
  | ValueError msg | TypeError msg | IndexError msg | OverflowError msg
  | ZeroDivisionError msg | DecimalInvalidOperation msg | DecimalOverflow msg
  | ValidationError msg | OtherError _ msg => msg
  end.

(** ** The wallet provider and the other collaborators *)

(** Modelled from the spec: the network descriptor returned by the wallet
    provider's [get_network()], whose class lives outside this package:
    [{chainId, networkId, protocolFamily}]. *)
Record Network : Type := {
  protocol_family : string;
  network_id : string;
  chain_id : string
}.

(** One log entry of a transaction receipt: [log["address"]] and
    [log["topics"]], each topic a byte string. *)
Record Log : Type := {
  log_address : string;
  log_topics : list (list Byte.byte)
}.

Record Receipt : Type := {
  status : Z;
  logs : list Log
}.

Inductive abi : Type :=
| ERC20_ABI
| UNISWAP_V3_FACTORY_ABI
| UNISWAP_V3_POOL_ABI
| UNISWAP_V3_POSITION_MANAGER_ABI.

(** The [params] dict handed to [send_transaction]. *)
Record tx_params : Type := {
  tx_to : string;
  tx_data : string;
  tx_gas : option Z
}.

(** A handler is a tree of interactions with its environment: every call of
    the wallet provider may return or raise, and the handler continues with
    whatever it is given. *)
Inductive action (A : Type) : Type :=
| Ret (a : A)
| Throw (e : exn)
| GetNetwork (k : result Network -> action A)
| GetAddress (k : result string -> action A)
| GetWeb3 (k : result unit -> action A)
| ReadContract (contract_address : string) (a : abi) (function_name : string)
    (args : list pyval) (k : result pyval -> action A)
| SendTransaction (params : tx_params) (k : result string -> action A)
| WaitForTransactionReceipt (tx_hash : string) (k : result Receipt -> action A)
| TimeTime (k : Z -> action A)
| Print (line : string) (k : action A).

Arguments Ret {A} a.
Arguments Throw {A} e.
Arguments GetNetwork {A} k.
Arguments GetAddress {A} k.
Arguments GetWeb3 {A} k.
Arguments ReadContract {A} contract_address a function_name args k.
Arguments SendTransaction {A} params k.
Arguments WaitForTransactionReceipt {A} tx_hash k.
Arguments TimeTime {A} k.
Arguments Print {A} line k.

Fixpoint bind {A B} (a : action A) (f : A -> action B) : action B :=
  match a with
  | Ret x => f x
  | Throw e => Throw e
  | GetNetwork k => GetNetwork (fun r => bind (k r) f)
  | GetAddress k => GetAddress (fun r => bind (k r) f)
  | GetWeb3 k => GetWeb3 (fun r => bind (k r) f)
  | ReadContract c a fn args k => ReadContract c a fn args (fun r => bind (k r) f)
  | SendTransaction p k => SendTransaction p (fun r => bind (k r) f)
  | WaitForTransactionReceipt h k => WaitForTransactionReceipt h (fun r => bind (k r) f)
  | TimeTime k => TimeTime (fun t => bind (k t) f)
  | Print line k => Print line (bind k f)
  end.

(** [try: a except Exception as e: h e] *)
Fixpoint try_except {A} (a : action A) (h : exn -> action A) : action A :=
  match a with
  | Ret x => Ret x
  | Throw e => h e
  | GetNetwork k => GetNetwork (fun r => try_except (k r) h)
  | GetAddress k => GetAddress (fun r => try_except (k r) h)
  | GetWeb3 k => GetWeb3 (fun r => try_except (k r) h)
  | ReadContract c a fn args k => ReadContract c a fn args (fun r => try_except (k r) h)
  | SendTransaction p k => SendTransaction p (fun r => try_except (k r) h)
  | WaitForTransactionReceipt t k => WaitForTransactionReceipt t (fun r => try_except (k r) h)
  | TimeTime k => TimeTime (fun t => try_except (k t) h)
  | Print line k => Print line (try_except k h)
  end.

Notation "'let*' x ':=' a 'in' k" := (bind a (fun x => k))
  (at level 10, x pattern, a at level 100, k at level 200, only parsing).

(** A pure computation that may raise. *)
Definition lift {A} (r : result A) : action A :=
  match r with
  | Ok a => Ret a
  | Raise e => Throw e
  end.

(** A call of the environment whose exception propagates. *)
Definition returned {A} (r : result A) : action A := lift r.

Definition get_network : action Network := GetNetwork returned.
Definition get_address : action string := GetAddress returned.
Definition get_web3 : action unit := GetWeb3 returned.
Definition read_contract (contract_address : string) (a : abi) (function_name : string)
  (args : list pyval) : action pyval :=
  ReadContract contract_address a function_name args returned.
Definition send_transaction (params : tx_params) : action string :=
  SendTransaction params returned.
Definition wait_for_transaction_receipt (tx_hash : string) : action Receipt :=
  WaitForTransactionReceipt tx_hash returned.
Definition time_time : action Z := TimeTime Ret.
Definition print (line : string) : action unit := Print line (Ret tt).

(** [try: a except Exception as e: ...] with the outcome handed on as a
    value, for the handlers that return from inside the [except] clause. *)
Definition attempt {A} (a : action A) : action (result A) :=
  try_except (bind a (fun x => Ret (Ok x))) (fun e => Ret (Raise e)).

(** What the environment saw and answered, in order. *)
Inductive event : Type :=
| EvGetNetwork (r : result Network)
| EvGetAddress (r : result string)
| EvGetWeb3 (r : result unit)
| EvReadContract (contract_address : string) (a : abi) (function_name : string)
    (args : list pyval) (r : result pyval)
| EvSendTransaction (params : tx_params) (r : result string)
| EvWaitForTransactionReceipt (tx_hash : string) (r : result Receipt)
| EvTimeTime (t : Z)
| EvPrint (line : string).

(** [trace a tr out]: the handler [a] can exchange the events [tr] with its
    environment and then finish with [out]. *)
Inductive trace {A : Type} : action A -> list event -> result A -> Prop :=
| trace_Ret x : trace (Ret x) [] (Ok x)
| trace_Throw e : trace (Throw e) [] (Raise e)
| trace_GetNetwork k r tr out :
    trace (k r) tr out -> trace (GetNetwork k) (EvGetNetwork r :: tr) out
| trace_GetAddress k r tr out :
    trace (k r) tr out -> trace (GetAddress k) (EvGetAddress r :: tr) out
| trace_GetWeb3 k r tr out :
    trace (k r) tr out -> trace (GetWeb3 k) (EvGetWeb3 r :: tr) out
| trace_ReadContract c a fn args k r tr out :
    trace (k r) tr out ->
    trace (ReadContract c a fn args k) (EvReadContract c a fn args r :: tr) out
| trace_SendTransaction p k r tr out :
    trace (k r) tr out ->
    trace (SendTransaction p k) (EvSendTransaction p r :: tr) out
| trace_WaitForTransactionReceipt h k r tr out :
    trace (k r) tr out ->
    trace (WaitForTransactionReceipt h k) (EvWaitForTransactionReceipt h r :: tr) out
| trace_TimeTime k t tr out :
    trace (k t) tr out -> trace (TimeTime k) (EvTimeTime t :: tr) out
| trace_Print line k tr out :
    trace k tr out -> trace (Print line k) (EvPrint line :: tr) out.

(** A wallet provider (with the clock): each answer may depend on everything
    that happened before, so any stateful provider is covered. *)
Record provider : Type := {
  wp_get_network : list event -> result Network;
  wp_get_address : list event -> result string;
  wp_web3 : list event -> result unit;
  wp_read_contract : list event -> string -> abi -> string -> list pyval -> result pyval;
  wp_send_transaction : list event -> tx_params -> result string;
  wp_wait_for_transaction_receipt : list event -> string -> result Receipt;
  wp_time : list event -> Z
}.

(** Running a handler against a provider: the outcome and the events, the
    history [past] being what happened before. *)
Fixpoint run {A} (P : provider) (a : action A) (past : list event) : result A * list event :=
  match a with
  | Ret x => (Ok x, [])
  | Throw e => (Raise e, [])
  | GetNetwork k =>
      let r := wp_get_network P past in
      let '(out, tr) := run P (k r) (past ++ [EvGetNetwork r]) in (out, EvGetNetwork r :: tr)
  | GetAddress k =>
      let r := wp_get_address P past in
      let '(out, tr) := run P (k r) (past ++ [EvGetAddress r]) in (out, EvGetAddress r :: tr)
  | GetWeb3 k =>
      let r := wp_web3 P past in
      let '(out, tr) := run P (k r) (past ++ [EvGetWeb3 r]) in (out, EvGetWeb3 r :: tr)
  | ReadContract c a fn args k =>
      let r := wp_read_contract P past c a fn args in
      let ev := EvReadContract c a fn args r in
      let '(out, tr) := run P (k r) (past ++ [ev]) in (out, ev :: tr)
  | SendTransaction p k =>
      let r := wp_send_transaction P past p in
      let ev := EvSendTransaction p r in
      let '(out, tr) := run P (k r) (past ++ [ev]) in (out, ev :: tr)
  | WaitForTransactionReceipt h k =>
      let r := wp_wait_for_transaction_receipt P past h in
      let ev := EvWaitForTransactionReceipt h r in
      let '(out, tr) := run P (k r) (past ++ [ev]) in (out, ev :: tr)
  | TimeTime k =>
      let t := wp_time P past in
      let '(out, tr) := run P (k t) (past ++ [EvTimeTime t]) in (out, EvTimeTime t :: tr)
  | Print line k =>
      let '(out, tr) := run P k (past ++ [EvPrint line]) in (out, EvPrint line :: tr)
  end.

(** ** [constants.py] *)

Definition SUPPORTED_NETWORKS : list string := ["ethereum-mainnet"].

(** The tables hold what [Web3.to_checksum_address] makes of the lower-case
    literals when the module is imported. *)
Definition POSITION_MANAGER_ADDRESSES : gmap string string :=
  {[ "ethereum-mainnet" := "0xC36442b4a4522E871399CD717aBDD847Ab11FE88" ]}.

Definition ASSET_ADDRESSES : gmap string (gmap string string) :=
  {[ "ethereum-mainnet" :=
       {[ "weth" := "0xC02aaA39b223FE8D0A0e5C4F27eAD9083C756Cc2";
          "usdc" := "0xA0b86991c6218b36c1d19D4a2e9Eb0cE3606eB48" ]} ]}.

Definition ASSET_DECIMALS : gmap string nat := {[ "weth" := 18%nat; "usdc" := 6%nat ]}.

Definition UNISWAP_V3_FACTORY_ADDRESS : gmap string string :=
  {[ "ethereum-mainnet" := "0x1F98431c8aD98523631AE4a59f267346ea31F984" ]}.

(** [d[key]]: a missing key raises [KeyError]. *)
Definition dict_get {V} (d : gmap string V) (key : string) : result V :=
  match d !! key with
  | Some v => Ok v
  | None => Raise (KeyError key)
  end.

(** [key in d] *)
Definition dict_mem {V} (d : gmap string V) (key : string) : bool :=
  match d !! key with
  | Some _ => true
  | None => false
  end.

(** ** [schemas.py] *)

Record CreateLiquiditySchema : Type := {
  amount_weth : string;
  amount_usdc : string;
  tick_lower : Z;
  tick_upper : Z;
  fee_tier : Z;
  slippage : PyFloat.float
}.

Record GetPriceSchema : Type := {
  gp_fee_tier : Z
}.

(** The tuple handed to the position manager's [mint]. *)
Record MintParams : Type := {
  token0 : string;
  token1 : string;
  fee : Z;
  tickLower : Z;
  tickUpper : Z;
  amount0Desired : Z;
  amount1Desired : Z;
  amount0Min : Z;
  amount1Min : Z;
  recipient : string;
  deadline : Z
}.

(** The library functions that the package calls and does not define:
    pydantic's validation of the raw argument dict, web3's address
    checksumming and ABI encoding, the C library's [pow], [repr] of a float
    and [traceback.format_exc]. *)
Record externals : Type := {
  raw_args : Type;
  validate_create_liquidity : raw_args -> result CreateLiquiditySchema;
  validate_get_price : raw_args -> result GetPriceSchema;
  to_checksum_address : pyval -> result string;
  encode_approve : string -> string -> Z -> result string;
  encode_mint : string -> MintParams -> result string;
  libm_pow : PyFloat.float -> PyFloat.float -> PyFloat.float;
  float_repr : PyFloat.float -> string;
  format_exc : exn -> string
}.

Definition nl : string := String (ascii_of_N 10) EmptyString.

(** ** [utils.py]: calls of the wallet provider *)

Definition WETH_MAINNET : string := "0xc02aaa39b223fe8d0a0e5c4f27ead9083c756cc2".
Definition USDC_MAINNET : string := "0xa0b86991c6218b36c1d19d4a2e9eb0ce3606eb48".

(** [get_token_balance(wallet_provider, token_address)] *)
Definition get_token_balance (token_address : string) : action pyval :=
  try_except
    (let token_address :=
       if String.eqb (lower token_address) (lower WETH_MAINNET) then WETH_MAINNET
       else if String.eqb (lower token_address) (lower USDC_MAINNET) then USDC_MAINNET
       else token_address in
     let* owner := get_address in
     read_contract (lower token_address) ERC20_ABI "balanceOf" [PStr owner])
    (fun e => Throw (ValueError ("Could not get token balance: " +:+ exn_str e))).

(** [get_deadline()] *)
Definition get_deadline : action Z :=
  let* now := time_time in
  Ret (now + 1800).

(** [format_amount_from_decimals] at a value returned by a contract read.  An
    [int] (or [bool]) goes through the function above; [Decimal(None)] raises
    [TypeError].  A [str] or a tuple, which no [balanceOf] decodes to, is
    taken to raise [TypeError] as well. *)
Definition format_amount_from_decimals_value (amount : pyval) (decimals : nat) : result string :=
  match PyVal.as_int amount with
  | Some n => format_amount_from_decimals n decimals
  | None =>
      Raise (TypeError ("conversion from " +:+ PyVal.type_name amount
                        +:+ " to Decimal is not supported"))
  end.

Section Handlers.

Context (E : externals).

(** [approve_token(wallet_provider, token_address, spender_address, amount)] *)
Definition approve_token (token_address spender_address : string) (amount : Z) : action string :=
  let* token := lift (to_checksum_address E (PStr token_address)) in
  let* spender := lift (to_checksum_address E (PStr spender_address)) in
  let* encoded_data := lift (encode_approve E token spender amount) in
  let* to := lift (to_checksum_address E (PStr token_address)) in
  let params := {| tx_to := to; tx_data := encoded_data; tx_gas := None |} in
  let* tx_hash := send_transaction params in
  let* _ := wait_for_transaction_receipt tx_hash in
  Ret tx_hash.

(** ** [uniswap_v3_action_provider.py] *)

(** [supports_network] *)
Definition supports_network (network : Network) : bool :=
  let is_mainnet :=
    String.eqb (chain_id network) "1"
    || existsb (String.eqb (network_id network)) ["mainnet"; "ethereum-mainnet"] in
  String.eqb (protocol_family network) "evm" && is_mainnet.

(** [_get_position_manager_address] *)
Definition _get_position_manager_address (network : Network) : result string :=
  if String.eqb (chain_id network) "1" then
    dict_get POSITION_MANAGER_ADDRESSES "ethereum-mainnet"
  else if dict_mem POSITION_MANAGER_ADDRESSES (network_id network) then
    dict_get POSITION_MANAGER_ADDRESSES (network_id network)
  else
    Raise (ValueError ("No Position Manager address available for network "
                       +:+ network_id network)).

Definition is_KeyError (e : exn) : bool :=
  match e with
  | KeyError _ => true
  | _ => false
  end.

(** [_get_asset_address] *)
Definition _get_asset_address (network : Network) (asset_id : string) : result string :=
  let looked_up :=
    if String.eqb (chain_id network) "1" then
      let! assets := dict_get ASSET_ADDRESSES "ethereum-mainnet" in
      dict_get assets asset_id
    else
      let! assets := dict_get ASSET_ADDRESSES (network_id network) in
      dict_get assets asset_id in
  match looked_up with
  | Ok address => Ok address
  | Raise e =>
      if is_KeyError e
      then Raise (ValueError ("Asset " +:+ asset_id +:+ " not supported on "
                              +:+ network_id network))
      else Raise e
  end.

(** Lines 211-223 of [create_liquidity]: the tick spacing and the fee tier
    that the position is minted with, and whether the warning is printed. *)
Definition tick_spacing_for (fee_tier : Z) : Z * Z * bool :=
  if fee_tier =? 500 then (10, fee_tier, false)
  else if fee_tier =? 3000 then (60, fee_tier, false)
  else if fee_tier =? 10000 then (200, fee_tier, false)
  else (10, 500, true).

(** Lines 225-234 of [create_liquidity]: both ticks rounded with [//], the
    upper one pushed above the lower one. *)
Definition align_ticks (tick_lower tick_upper tick_spacing : Z) : Z * Z :=
  let lower_tick := (tick_lower / tick_spacing) * tick_spacing in
  let upper_tick := (tick_upper / tick_spacing) * tick_spacing in
  let upper_tick := if upper_tick <=? lower_tick then lower_tick + tick_spacing else upper_tick in
  (lower_tick, upper_tick).

(** [int(topic.hex(), 16)]: the big-endian value of the bytes; the empty byte
    string has no hexadecimal digit and raises [ValueError]. *)
Definition int_of_topic (topic : list Byte.byte) : result Z :=
  match topic with
  | [] => Raise (ValueError "invalid literal for int() with base 16: ''")
  | _ => Ok (fold_left (fun acc b => 256 * acc + Z.of_N (Byte.to_N b)) topic 0)
  end.

(** The scan of the receipt logs for the minted token id. *)
Fixpoint find_token_id (position_manager_address : string) (logs : list Log) : result (option Z) :=
  match logs with
  | [] => Ok None
  | log :: rest =>
      if String.eqb (lower (log_address log)) (lower position_manager_address)
         && (3 <? length (log_topics log))%nat
      then
        match nth_error (log_topics log) 3 with
        | Some topic => let! token_id := int_of_topic topic in Ok (Some token_id)
        | None => Raise (IndexError "list index out of range")
        end
      else find_token_id position_manager_address rest
  end.

Definition tick_hint : string :=
  nl +:+ "Try using ticks that align with 0.05% fee tier spacing (10): tickLower=202540, tickUpper=202640".

(** The body shared by the four [except Exception as e] clauses of
    [create_liquidity]: the text printed, then the text returned. *)
Definition detailed_error (e : exn) : string :=
  let error_details := format_exc E e in
  "Error creating Uniswap V3 liquidity position: " +:+ exn_str e +:+ nl +:+ nl
  +:+ "Detailed traceback:" +:+ nl +:+ error_details.

Definition report_failure (e : exn) : action string :=
  let* _ := print (detailed_error e) in
  Ret ("Error creating Uniswap V3 liquidity position: " +:+ exn_str e +:+ tick_hint).

(** The success message of [create_liquidity]. *)
Definition success_message (v : CreateLiquiditySchema) (lower_tick upper_tick fee_tier : Z)
  (tx_hash : string) (token_id : option Z) : string :=
  let token_id_msg :=
    match token_id with
    | Some id => if id =? 0 then "" else nl +:+ "Position NFT ID: " +:+ str_of_int id
    | None => ""
    end in
  "Successfully created Uniswap V3 liquidity position with:" +:+ nl
  +:+ "- " +:+ amount_weth v +:+ " WETH" +:+ nl
  +:+ "- " +:+ amount_usdc v +:+ " USDC" +:+ nl
  +:+ "- Price range ticks: " +:+ str_of_int lower_tick +:+ " to " +:+ str_of_int upper_tick
  +:+ " (aligned with fee tier spacing)" +:+ nl
  +:+ "- Fee tier: " +:+ str_of_int fee_tier +:+ nl
  +:+ "Transaction hash: " +:+ tx_hash +:+ token_id_msg.

Definition insufficient_balance_message (symbol formatted needed : string) : string :=
  "Error: Insufficient " +:+ symbol +:+ " balance. You have " +:+ formatted +:+ " "
  +:+ symbol +:+ ", but need " +:+ needed +:+ " " +:+ symbol.

(** Lines 201-316 of [create_liquidity]: everything after the two approvals. *)
Definition mint_position (v : CreateLiquiditySchema)
  (position_manager_address weth_address usdc_address : string)
  (amount_weth_units amount_usdc_units amount_weth_min amount_usdc_min : Z) : action string :=
  let '(token0, token1) := (usdc_address, weth_address) in
  let '(amount0Desired, amount1Desired) := (amount_usdc_units, amount_weth_units) in
  let '(amount0Min, amount1Min) := (amount_usdc_min, amount_weth_min) in
  let* _ := get_web3 in
  let requested_fee_tier := fee_tier v in
  let '(tick_spacing, fee_tier, warn) := tick_spacing_for requested_fee_tier in
  let* _ :=
    if warn
    then print ("Warning: Unsupported fee tier " +:+ str_of_int requested_fee_tier
                +:+ ", defaulting to 0.05% (500)")
    else Ret tt in
  let '(lower_tick, upper_tick) := align_ticks (tick_lower v) (tick_upper v) tick_spacing in
  let* contract_address := lift (to_checksum_address E (PStr position_manager_address)) in
  let* deadline := get_deadline in
  let* recipient := get_address in
  let* token0_checksum := lift (to_checksum_address E (PStr token0)) in
  let* token1_checksum := lift (to_checksum_address E (PStr token1)) in
  let mint_tuple :=
    {| token0 := token0_checksum; token1 := token1_checksum; fee := fee_tier;
       tickLower := lower_tick; tickUpper := upper_tick;
       amount0Desired := amount0Desired; amount1Desired := amount1Desired;
       amount0Min := amount0Min; amount1Min := amount1Min;
       recipient := recipient; deadline := deadline |} in
  let* encoded_data := lift (encode_mint E contract_address mint_tuple) in
  let* to := lift (to_checksum_address E (PStr position_manager_address)) in
  let params := {| tx_to := to; tx_data := encoded_data; tx_gas := Some 3000000 |} in
  let* logged_deadline := get_deadline in
  let* _ :=
    print ("Transaction parameters:" +:+ nl
           +:+ "- To: " +:+ position_manager_address +:+ nl
           +:+ "- Token0: " +:+ token0 +:+ nl
           +:+ "- Token1: " +:+ token1 +:+ nl
           +:+ "- Fee: " +:+ str_of_int fee_tier +:+ nl
           +:+ "- TickLower: " +:+ str_of_int lower_tick +:+ " (rounded to fee tier spacing)" +:+ nl
           +:+ "- TickUpper: " +:+ str_of_int upper_tick +:+ " (rounded to fee tier spacing)" +:+ nl
           +:+ "- Amount0: " +:+ str_of_int amount0Desired +:+ nl
           +:+ "- Amount1: " +:+ str_of_int amount1Desired +:+ nl
           +:+ "- Slippage: " +:+ float_repr E (slippage v) +:+ "%" +:+ nl
           +:+ "- Deadline: " +:+ str_of_int logged_deadline) in
  try_except
    (let* tx_hash := send_transaction params in
     let* receipt := wait_for_transaction_receipt tx_hash in
     if negb (status receipt =? 1) then
       Ret ("Error: Liquidity position creation failed. Transaction hash: " +:+ tx_hash)
     else
       let* token_id := lift (find_token_id position_manager_address (logs receipt)) in
       Ret (success_message v lower_tick upper_tick fee_tier tx_hash token_id))
    report_failure.

(** [create_liquidity(self, wallet_provider, args)] *)
Definition create_liquidity (args : raw_args E) : action string :=
  try_except
    (let* validated_args := lift (validate_create_liquidity E args) in
     let* network := get_network in
     if negb (supports_network network) then
       Ret ("Error: Network " +:+ network_id network +:+ " is not supported by Uniswap V3")
     else
       match _get_position_manager_address network with
       | Raise e =>
           Ret ("Error: Could not get Uniswap V3 Position Manager address for "
                +:+ network_id network +:+ ": " +:+ exn_str e)
       | Ok position_manager_address =>
       match (let! weth := _get_asset_address network "weth" in
              let! usdc := _get_asset_address network "usdc" in
              Ok (weth, usdc)) with
       | Raise e =>
           if is_ValueError e then Ret ("Error: " +:+ exn_str e)
           else Ret ("Error: Could not get asset addresses on " +:+ network_id network
                     +:+ ": " +:+ exn_str e)
       | Ok (weth_address, usdc_address) =>
       let* weth_decimals := lift (dict_get ASSET_DECIMALS "weth") in
       let* usdc_decimals := lift (dict_get ASSET_DECIMALS "usdc") in
       let* amount_weth_units :=
         lift (format_amount_with_decimals (amount_weth validated_args) weth_decimals) in
       let* amount_usdc_units :=
         lift (format_amount_with_decimals (amount_usdc validated_args) usdc_decimals) in
       let* weth_balance := get_token_balance weth_address in
       let* usdc_balance := get_token_balance usdc_address in
       let* weth_short := lift (PyVal.lt_int weth_balance amount_weth_units) in
       if weth_short then
         let* weth_formatted :=
           lift (format_amount_from_decimals_value weth_balance weth_decimals) in
         Ret (insufficient_balance_message "WETH" weth_formatted (amount_weth validated_args))
       else
       let* usdc_short := lift (PyVal.lt_int usdc_balance amount_usdc_units) in
       if usdc_short then
         let* usdc_formatted :=
           lift (format_amount_from_decimals_value usdc_balance usdc_decimals) in
         Ret (insufficient_balance_message "USDC" usdc_formatted (amount_usdc validated_args))
       else
       let* amount_weth_min :=
         lift (calculate_slippage_amounts amount_weth_units (slippage validated_args)) in
       let* amount_usdc_min :=
         lift (calculate_slippage_amounts amount_usdc_units (slippage validated_args)) in
       let* approved :=
         attempt
           (let* weth_balance := get_token_balance weth_address in
            let* usdc_balance := get_token_balance usdc_address in
            let* weth_balance_formatted :=
              lift (format_amount_from_decimals_value weth_balance weth_decimals) in
            let* usdc_balance_formatted :=
              lift (format_amount_from_decimals_value usdc_balance usdc_decimals) in
            let* _ := print ("WETH balance: " +:+ weth_balance_formatted
                             +:+ " WETH, USDC balance: " +:+ usdc_balance_formatted +:+ " USDC") in
            let* _ := print ("WETH needed: " +:+ amount_weth validated_args
                             +:+ ", USDC needed: " +:+ amount_usdc validated_args) in
            approve_token weth_address position_manager_address amount_weth_units) in
       match approved with
       | Raise e => report_failure e
       | Ok _ =>
       let* approved :=
         attempt (approve_token usdc_address position_manager_address amount_usdc_units) in
       match approved with
       | Raise e => report_failure e
       | Ok _ =>
           mint_position validated_args position_manager_address weth_address usdc_address
             amount_weth_units amount_usdc_units amount_weth_min amount_usdc_min
       end
       end
       end
       end)
    report_failure.

Definition ZERO_ADDRESS : string := "0x0000000000000000000000000000000000000000".

(** [x ** 2] for a float [x], as the interpreter evaluates it: the special
    cases first, the C library's [pow] for the rest, [OverflowError] when the
    result is out of range. *)
Definition float_pow_2 (x : PyFloat.float) : result PyFloat.float :=
  match x with
  | S754_nan => Ok S754_nan
  | S754_infinity _ => Ok (S754_infinity false)
  | S754_zero _ => Ok (S754_zero false)
  | S754_finite _ m e =>
      let ax := S754_finite false m e in
      if SFeqb ax PyFloat.one then Ok PyFloat.one
      else
        match libm_pow E ax PyFloat.two with
        | S754_infinity _ => Raise (OverflowError "(34, 'Numerical result out of range')")
        | y => Ok y
        end
  end.

(** Lines 368-372 of [get_price]: the price from the first element of
    [slot0]. *)
Definition spot_price (sqrt_price_x96 : pyval) : result PyFloat.float :=
  let! decimals_weth := dict_get ASSET_DECIMALS "weth" in
  let! decimals_usdc := dict_get ASSET_DECIMALS "usdc" in
  let! ratio := PyVal.truediv_int sqrt_price_x96 (2 ^ 96) in
  let! price_ratio := float_pow_2 ratio in
  let! scale := PyFloat.of_int (10 ^ (Z.of_nat decimals_weth - Z.of_nat decimals_usdc)) in
  Ok (PyFloat.fmul price_ratio scale).

(** [get_price(self, wallet_provider, args)] *)
Definition get_price (args : raw_args E) : action string :=
  let* validated_args := lift (validate_get_price E args) in
  let* network := get_network in
  if negb (supports_network network) then
    Ret ("Error: Network " +:+ network_id network +:+ " is not supported by Uniswap V3")
  else
    match (let! weth := _get_asset_address network "weth" in
           let! usdc := _get_asset_address network "usdc" in
           Ok (weth, usdc)) with
    | Raise e => Ret ("Error: Could not get asset addresses: " +:+ exn_str e)
    | Ok (weth_address, usdc_address) =>
    let* factory := lift (dict_get UNISWAP_V3_FACTORY_ADDRESS (network_id network)) in
    let* factory_address := lift (to_checksum_address E (PStr factory)) in
    let* pool :=
      attempt
        (let* weth := lift (to_checksum_address E (PStr weth_address)) in
         let* usdc := lift (to_checksum_address E (PStr usdc_address)) in
         read_contract factory_address UNISWAP_V3_FACTORY_ABI "getPool"
           [PStr weth; PStr usdc; PInt (gp_fee_tier validated_args)]) in
    match pool with
    | Raise e => Ret ("Error: Failed to fetch pool address: " +:+ exn_str e)
    | Ok pool_address =>
    if PyVal.eq_str pool_address ZERO_ADDRESS then
      Ret ("Error: No pool found for fee tier " +:+ str_of_int (gp_fee_tier validated_args))
    else
      let* pool_address := lift (to_checksum_address E pool_address) in
      let* state := attempt (read_contract pool_address UNISWAP_V3_POOL_ABI "slot0" []) in
      match state with
      | Raise e => Ret ("Error fetching pool state (slot0): " +:+ exn_str e)
      | Ok slot0 =>
          let* sqrt_price_x96 := lift (PyVal.getitem slot0 0) in
          let* current_tick := lift (PyVal.getitem slot0 1) in
          let* price := lift (spot_price sqrt_price_x96) in
          Ret ("Current WETH/USDC price: " +:+ PyFloat.format_6f price
               +:+ " USDC per WETH (tick: " +:+ PyVal.str current_tick +:+ ")")
      end
    end
    end.

End Handlers.

(** ** What the trace of a handler shows *)

(** The answers to the reads of the contract function [fn], in order. *)
Fixpoint reads_of (fn : string) (tr : list event) : list (result pyval) :=
  match tr with
  | [] => []
  | EvReadContract _ _ fn' _ r :: rest =>
      if String.eqb fn' fn then r :: reads_of fn rest else reads_of fn rest
  | _ :: rest => reads_of fn rest
  end.

Definition balance_reads : list event -> list (result pyval) := reads_of "balanceOf".

(** The transactions handed to [send_transaction], in order. *)
Fixpoint sent_transactions (tr : list event) : list tx_params :=
  match tr with
  | [] => []
  | EvSendTransaction p _ :: rest => p :: sent_transactions rest
  | _ :: rest => sent_transactions rest
  end.

(** The lines printed, in order. *)
Fixpoint printed (tr : list event) : list string :=
  match tr with
  | [] => []
  | EvPrint line :: rest => line :: printed rest
  | _ :: rest => printed rest
  end.

(** ** A concrete environment, for running the handlers *)

Module Example.

(** Raw arguments that validate to the given objects, when present. *)
Definition args : Type := option CreateLiquiditySchema * option GetPriceSchema.

Definition checksum (v : pyval) : result string :=
  match v with
  | PStr s => Ok s
  | _ => Raise (TypeError "unsupported address type")
  end.

Definition env : externals := {|
  raw_args := args;
  validate_create_liquidity a :=
    match fst a with
    | Some v => Ok v
    | None => Raise (ValidationError "validation error for CreateLiquiditySchema")
    end;
  validate_get_price a :=
    match snd a with
    | Some v => Ok v
    | None => Raise (ValidationError "validation error for GetPriceSchema")
    end;
  to_checksum_address := checksum;
  encode_approve token spender amount :=
    Ok ("approve(" +:+ spender +:+ "," +:+ str_of_int amount +:+ ")");
  encode_mint contract_address m :=
    Ok ("mint(" +:+ token0 m +:+ "," +:+ token1 m +:+ "," +:+ str_of_int (fee m) +:+ ","
        +:+ str_of_int (tickLower m) +:+ "," +:+ str_of_int (tickUpper m) +:+ ","
        +:+ str_of_int (amount0Desired m) +:+ "," +:+ str_of_int (amount1Desired m) +:+ ","
        +:+ str_of_int (amount0Min m) +:+ "," +:+ str_of_int (amount1Min m) +:+ ","
        +:+ recipient m +:+ "," +:+ str_of_int (deadline m) +:+ ")");
  libm_pow x y := PyFloat.fmul x x;
  float_repr := PyFloat.format_6f;
  format_exc e := "Traceback (most recent call last): " +:+ exn_str e
|}.

Definition half : PyFloat.float := S754_finite false 4503599627370496 (-53).
Definition seven : PyFloat.float := S754_finite false 7881299347898368 (-50).
Definition one_hundred_fifty : PyFloat.float := S754_finite false 5277655813324800 (-45).

Definition liquidity_request : CreateLiquiditySchema := {|
  amount_weth := "0.5";
  amount_usdc := "1000";
  tick_lower := -50;
  tick_upper := 10;
  fee_tier := 7777;
  slippage := half
|}.

Definition price_request : GetPriceSchema := {| gp_fee_tier := 3000 |}.

Definition request : args := (Some liquidity_request, Some price_request).

Definition mainnet : Network :=
  {| protocol_family := "evm"; network_id := "ethereum-mainnet"; chain_id := "1" |}.

(** The same chain reported under the other network id that
    [supports_network] accepts. *)
Definition mainnet_short_id : Network :=
  {| protocol_family := "evm"; network_id := "mainnet"; chain_id := "1" |}.

Definition wallet_address : string := "0x1111111111111111111111111111111111111111".
Definition pool_address : string := "0x8ad599c3A0ff1De082011EFDDc58f1908eb6e6D8".

Definition minted : Receipt := {|
  status := 1;
  logs := [ {| log_address := "0xc36442b4a4522e871399cd717abdd847ab11fe88";
               log_topics := [[Byte.xdd]; [Byte.x00]; [Byte.x11]; [Byte.x01; Byte.x02]] |} ]
|}.

(** A wallet on [network] holding the given balances, with a pool whose
    [getPool] and [slot0] answers are given. *)
Definition wallet (network : Network) (weth_balance usdc_balance : pyval)
  (pool slot0 : result pyval) : provider := {|
  wp_get_network _ := Ok network;
  wp_get_address _ := Ok wallet_address;
  wp_web3 _ := Ok tt;
  wp_read_contract _ contract_address _ function_name _ :=
    if String.eqb function_name "balanceOf" then
      if String.eqb contract_address WETH_MAINNET then Ok weth_balance else Ok usdc_balance
    else if String.eqb function_name "getPool" then pool
    else slot0;
  wp_send_transaction past _ := Ok ("0xhash" +:+ str_of_int (Z.of_nat (length past)));
  wp_wait_for_transaction_receipt _ _ := Ok minted;
  wp_time _ := 1700000000
|}.

Definition slot0_at_parity : pyval :=
  PTuple [PInt (2 ^ 96); PInt 0; PInt 0; PInt 1; PInt 1; PInt 0; PBool true].

Definition rich_wallet : provider :=
  wallet mainnet (PInt (10 ^ 18)) (PInt (5000 * 10 ^ 6))
    (Ok (PStr pool_address)) (Ok slot0_at_parity).

Definition poor_wallet : provider :=
  wallet mainnet (PInt (25 * 10 ^ 16)) (PInt (5000 * 10 ^ 6))
    (Ok (PStr pool_address)) (Ok slot0_at_parity).

Definition wallet_without_pool : provider :=
  wallet mainnet (PInt 0) (PInt 0) (Ok (PStr ZERO_ADDRESS)) (Ok slot0_at_parity).

Definition wallet_short_id : provider :=
  wallet mainnet_short_id (PInt 0) (PInt 0) (Ok (PStr pool_address)) (Ok slot0_at_parity).

(** What the handlers do against these wallets. *)
Definition price_without_pool : result string * list event :=
  Eval vm_compute in run wallet_without_pool (get_price env request) [].

Definition price_at_parity : result string * list event :=
  Eval vm_compute in run rich_wallet (get_price env request) [].

Definition liquidity_poor : result string * list event :=
  Eval vm_compute in run poor_wallet (create_liquidity env request) [].

Definition liquidity_rich : result string * list event :=
  Eval vm_compute in run rich_wallet (create_liquidity env request) [].

End Example.

(** ** The stated behaviour, for comparison with the code *)

Module Stated.

(** The number written [w.f], [w] and [f] being runs of digits. *)
Definition plain_decimal_value (w f : string) : Q :=
  Qmake (digits_value (w +:+ f)) (Z.to_pos (10 ^ Z.of_nat (String.length f))).

(** [floor(q * 10^decimals)]: the atomic units of [q], truncated. *)
Definition truncated_units (q : Q) (decimals : nat) : Z :=
  Qfloor (q * inject_Z (10 ^ Z.of_nat decimals)).

(** [q * 10^e] for an integer [e] of either sign. *)
Definition times_power_of_ten (q : Q) (e : Z) : Q :=
  if 0 <=? e then q * inject_Z (10 ^ e) else q / inject_Z (10 ^ (- e)).

(** A decimal or exponential-notation number:
    [sign? (digits (. digits?)? | . digits) ((e|E) sign? digits)?]. *)
Definition is_decimal_number (s : string) : bool :=
  let '(_, body) := split_sign s in
  let '(intpart, rest) := PyDecimal.span_digits body in
  let '(rest, has_digit) :=
    match rest with
    | String c r =>
        if Ascii.eqb c "." then
          let '(f, rest') := PyDecimal.span_digits r in
          (rest', negb (String.eqb intpart "") || negb (String.eqb f ""))
        else (rest, negb (String.eqb intpart ""))
    | EmptyString => (rest, negb (String.eqb intpart ""))
    end in
  has_digit &&
  match PyDecimal.parse_exponent rest with
  | Some _ => true
  | None => false
  end.

(** [floor(amount * (1 - s/100))] over exact rationals. *)
Definition apply_slippage (amount : Z) (s : Q) : Z :=
  Qfloor (inject_Z amount * (1 - s / 100)).

(** The integer part of a rational: truncation toward zero. *)
Definition integer_part (q : Q) : Z :=
  if Qnum q <? 0 then Qceiling q else Qfloor q.

(** [m] is the largest multiple of [spacing] that does not exceed [t]. *)
Definition largest_multiple_below (spacing t m : Z) : Prop :=
  (exists k, m = k * spacing) /\ m <= t /\
  forall m', (exists k, m' = k * spacing) -> m' <= t -> m' <= m.

End Stated.

(** A number in scientific notation: [w e x], [w.f e x] or [.f e x], with a
    small or a capital e, and a minus before the exponent or none. *)
Definition scientific (w f x : string) (dot upper negative : bool) : string :=
  w +:+ (if dot then String "." f else "")
    +:+ String (if upper then "E" else "e")%char ((if negative then "-" else "") +:+ x).

(** The characters of such a number. *)
Definition scientific_char (c : ascii) : bool :=
  is_digit c || Ascii.eqb c "." || Ascii.eqb c "e" || Ascii.eqb c "E" || Ascii.eqb c "-".

(** Boolean comparisons on [Z] turned into propositions, for [lia]. *)
Ltac boolean_lia :=
  repeat rewrite ?andb_true_iff, ?orb_true_iff, ?andb_false_iff, ?orb_false_iff,
    ?negb_true_iff, ?negb_false_iff, ?Z.leb_le, ?Z.ltb_lt, ?Z.eqb_eq,
    ?Z.leb_gt, ?Z.ltb_ge, ?Z.eqb_neq in *;
  lia.

(** One step of an induction over a handler: the first event is peeled off
    and the induction hypothesis handles the rest. *)
Ltac peel IH finish :=
  match goal with
  | H : trace _ _ _ |- _ =>
      inversion H; subst; clear H;
      match goal with
      | H' : trace _ _ _ |- _ => apply IH in H'; finish H'
      end
  end.

Ltac finish_sequence H' :=
  let e := fresh "e" in
  let x := fresh "x" in
  let tr1 := fresh "tr1" in
  let tr2 := fresh "tr2" in
  destruct H' as [(e & ? & ->) | (x & tr1 & tr2 & ? & ? & ->)];
  [ left; exists e; split; [constructor; assumption | reflexivity]
  | right; eexists x, (_ :: tr1), tr2;
    repeat split; [constructor; eassumption | assumption] ].

Ltac finish_handled H' :=
  let e := fresh "e" in
  let x := fresh "x" in
  let tr1 := fresh "tr1" in
  let tr2 := fresh "tr2" in
  destruct H' as [(x & ? & ->) | (e & tr1 & tr2 & ? & ? & ->)];
  [ left; exists x; split; [constructor; assumption | reflexivity]
  | right; eexists e, (_ :: tr1), tr2;
    repeat split; [constructor; eassumption | assumption] ].


(** The string that [get_price] returns for a price and a tick. *)
Definition price_message (price : PyFloat.float) (current_tick : pyval) : string :=
  "Current WETH/USDC price: " +:+ PyFloat.format_6f price
  +:+ " USDC per WETH (tick: " +:+ PyVal.str current_tick +:+ ")".

(** The mint is the one transaction sent with the fixed gas limit; the
    approvals carry none. *)
Definition is_mint (p : tx_params) : bool :=
  match tx_gas p with
  | Some gas => gas =? 3000000
  | None => false
  end.

(** The mint transaction of a trace, if one was sent. *)
Fixpoint mint_sent (tr : list event) : option tx_params :=
  match tr with
  | [] => None
  | EvSendTransaction p _ :: rest => if is_mint p then Some p else mint_sent rest
  | _ :: rest => mint_sent rest
  end.

(** What happened before the mint transaction was sent. *)
Fixpoint before_mint (tr : list event) : list event :=
  match tr with
  | [] => []
  | EvSendTransaction p r :: rest =>
      if is_mint p then [] else EvSendTransaction p r :: before_mint rest
  | ev :: rest => ev :: before_mint rest
  end.

(** The warning of [create_liquidity] about a fee tier it does not know. *)
Definition fee_tier_warning (fee_tier : Z) : string :=
  "Warning: Unsupported fee tier " +:+ str_of_int fee_tier +:+ ", defaulting to 0.05% (500)".

(** ** Further observations and scenarios *)

(** ** [utils.py]: token metadata *)

Section TokenMetadata.

Context (E : externals).

(** [get_token_decimals(wallet_provider, token_address)] *)
Definition get_token_decimals (token_address : string) : action pyval :=
  let* contract_address := lift (to_checksum_address E (PStr token_address)) in
  let* result := read_contract contract_address ERC20_ABI "decimals" [] in
  Ret result.

(** [get_token_symbol(wallet_provider, token_address)] *)
Definition get_token_symbol (token_address : string) : action pyval :=
  let* contract_address := lift (to_checksum_address E (PStr token_address)) in
  read_contract contract_address ERC20_ABI "symbol" [].

End TokenMetadata.

(** The contracts that the reads of the function [fn] were addressed to, in
    order. *)
Fixpoint read_addresses (fn : string) (tr : list event) : list string :=
  match tr with
  | [] => []
  | EvReadContract c _ fn' _ _ :: rest =>
      if String.eqb fn' fn then c :: read_addresses fn rest else read_addresses fn rest
  | _ :: rest => read_addresses fn rest
  end.

Module Scenario.

Definition sepolia : Network :=
  {| protocol_family := "evm"; network_id := "ethereum-sepolia"; chain_id := "11155111" |}.

Definition solana : Network :=
  {| protocol_family := "svm"; network_id := "mainnet"; chain_id := "1" |}.

(** A network that reports the id ["mainnet"] under another chain id. *)
Definition other_mainnet : Network :=
  {| protocol_family := "evm"; network_id := "mainnet"; chain_id := "0x1" |}.

Definition on (network : Network) : provider :=
  Example.wallet network (PInt (10 ^ 18)) (PInt (5000 * 10 ^ 6))
    (Ok (PStr Example.pool_address)) (Ok Example.slot0_at_parity).

Definition price_other_mainnet : result string * list event :=
  Eval vm_compute in run (on other_mainnet) (get_price Example.env Example.request) [].

Definition liquidity_sepolia : result string * list event :=
  Eval vm_compute in run (on sepolia) (create_liquidity Example.env Example.request) [].

(** A wallet whose transactions are mined and reverted: every receipt has
    status 0. *)
Definition reverted : Receipt := {| status := 0; logs := [] |}.

Definition reverting_wallet : provider := {|
  wp_get_network _ := Ok Example.mainnet;
  wp_get_address _ := Ok Example.wallet_address;
  wp_web3 _ := Ok tt;
  wp_read_contract _ _ _ function_name _ :=
    if String.eqb function_name "balanceOf" then Ok (PInt (10 ^ 24))
    else Raise (OtherError "ContractLogicError" "execution reverted");
  wp_send_transaction past _ := Ok ("0xhash" +:+ str_of_int (Z.of_nat (length past)));
  wp_wait_for_transaction_receipt _ _ := Ok reverted;
  wp_time past := 1700000000 + Z.of_nat (length past)
|}.

Definition approve_reverted : result string * list event :=
  Eval vm_compute in
    run reverting_wallet
      (approve_token Example.env WETH_MAINNET "0xc36442b4a4522e871399cd717abdd847ab11fe88" 5) [].

Definition balance_on_mainnet : result pyval * list event :=
  Eval vm_compute in
    run Example.rich_wallet
      (get_token_balance "0xC02aaA39b223FE8D0A0e5C4F27eAD9083C756Cc2") [].

Definition symbol_reverted : result pyval * list event :=
  Eval vm_compute in run reverting_wallet (get_token_symbol Example.env WETH_MAINNET) [].

(** A wallet whose second transaction cannot be sent. *)
Definition stalling_wallet : provider := {|
  wp_get_network _ := Ok Example.mainnet;
  wp_get_address _ := Ok Example.wallet_address;
  wp_web3 _ := Ok tt;
  wp_read_contract _ _ _ _ _ := Ok (PInt (10 ^ 24));
  wp_send_transaction past _ :=
    match sent_transactions past with
    | [] => Ok "0xfirst"
    | _ => Raise (OtherError "TimeExhausted" "transaction not mined")
    end;
  wp_wait_for_transaction_receipt _ _ := Ok Example.minted;
  wp_time _ := 1700000000
|}.

Definition liquidity_stalled : result string * list event :=
  Eval vm_compute in run stalling_wallet (create_liquidity Example.env Example.request) [].

Definition malformed_request : Example.args :=
  (Some {| amount_weth := "0.5"; amount_usdc := "1,000"; tick_lower := -50;
           tick_upper := 10; fee_tier := 3000; slippage := Example.half |},
   Some Example.price_request).

Definition liquidity_malformed : result string * list event :=
  Eval vm_compute in run Example.rich_wallet (create_liquidity Example.env malformed_request) [].

(** A pool whose [slot0] answers with a single element. *)
Definition short_slot0_wallet : provider :=
  Example.wallet Example.mainnet (PInt 0) (PInt 0)
    (Ok (PStr Example.pool_address)) (Ok (PTuple [PInt (2 ^ 96)])).

Definition price_short_slot0 : result string * list event :=
  Eval vm_compute in run short_slot0_wallet (get_price Example.env Example.request) [].

Definition liquidity_reverted : result string * list event :=
  Eval vm_compute in run reverting_wallet (create_liquidity Example.env Example.request) [].




(** A wallet that holds 150000000 wei, that is 0.00000000015 WETH. *)
Definition dust_wallet : provider :=
  Example.wallet Example.mainnet (PInt 150000000) (PInt (5000 * 10 ^ 6))
    (Ok (PStr Example.pool_address)) (Ok Example.slot0_at_parity).

Definition liquidity_dust : result string * list event :=
  Eval vm_compute in run dust_wallet (create_liquidity Example.env Example.request) [].

End Scenario.


(** The contract reads: the address and the function of each, in order. *)
Fixpoint contract_reads (tr : list event) : list (string * string) :=
  match tr with
  | [] => []
  | EvReadContract c _ fn _ _ :: rest => (c, fn) :: contract_reads rest
  | _ :: rest => contract_reads rest
  end.

(** The receipts handed back by [wait_for_transaction_receipt], in order. *)
Fixpoint receipts (tr : list event) : list (result Receipt) :=
  match tr with
  | [] => []
  | EvWaitForTransactionReceipt _ r :: rest => r :: receipts rest
  | _ :: rest => receipts rest
  end.

(** The addresses that [get_address] answered, in order. *)
Fixpoint addresses (tr : list event) : list string :=
  match tr with
  | [] => []
  | EvGetAddress (Ok a) :: rest => a :: addresses rest
  | _ :: rest => addresses rest
  end.

(** The readings of the clock, in order. *)
Fixpoint clock_reads (tr : list event) : list Z :=
  match tr with
  | [] => []
  | EvTimeTime t :: rest => t :: clock_reads rest
  | _ :: rest => clock_reads rest
  end.

(** The events from the mint transaction on. *)
Fixpoint after_mint (tr : list event) : list event :=
  match tr with
  | [] => []
  | EvSendTransaction p r :: rest =>
      if is_mint p then tr else after_mint rest
  | _ :: rest => after_mint rest
  end.

(** The first transaction that could not be sent, or whose receipt could not
    be obtained: the exception, and the events that follow. *)
Fixpoint after_first_failure (tr : list event) : option (exn * list event) :=
  match tr with
  | [] => None
  | EvSendTransaction _ (Raise e) :: rest => Some (e, rest)
  | EvWaitForTransactionReceipt _ (Raise e) :: rest => Some (e, rest)
  | _ :: rest => after_first_failure rest
  end.

(** [p] is the transaction that [approve_token] sends for these arguments. *)
Definition approval (E : externals) (token spender : string) (amount : Z)
  (p : tx_params) : Prop :=
  exists t s,
    to_checksum_address E (PStr token) = Ok t /\
    to_checksum_address E (PStr spender) = Ok s /\
    encode_approve E t s amount = Ok (tx_data p) /\
    tx_to p = t /\ tx_gas p = None.

Definition POSITION_MANAGER : string := "0xC36442b4a4522E871399CD717aBDD847Ab11FE88".
Definition WETH : string := "0xC02aaA39b223FE8D0A0e5C4F27eAD9083C756Cc2".
Definition USDC : string := "0xA0b86991c6218b36c1d19D4a2e9Eb0cE3606eB48".

(** What [create_liquidity] sends, in order: nothing, or the approval of
    the WETH amount, then that of the USDC amount, then the mint, which is
    sent once both approvals have their receipts. *)
Definition transaction_order E (v : CreateLiquiditySchema) (tr : list event) : Prop :=
  sent_transactions tr = [] \/
  exists weth_units usdc_units a1,
    format_amount_with_decimals (amount_weth v) 18 = Ok weth_units /\
    format_amount_with_decimals (amount_usdc v) 6 = Ok usdc_units /\
    approval E WETH POSITION_MANAGER weth_units a1 /\
    (sent_transactions tr = [a1] \/
     exists a2,
       approval E USDC POSITION_MANAGER usdc_units a2 /\
       (sent_transactions tr = [a1; a2] \/
        exists m r1 r2,
          sent_transactions tr = [a1; a2; m] /\
          is_mint m = true /\
          to_checksum_address E (PStr POSITION_MANAGER) = Ok (tx_to m) /\
          receipts (before_mint tr) = [Ok r1; Ok r2])).

(** The balance reads go to the lower-case addresses, WETH first, at most
    twice each. *)
Definition balance_read_addresses (tr : list event) : Prop :=
  exists n : nat,
    read_addresses "balanceOf" tr
    = firstn n [WETH_MAINNET; USDC_MAINNET; WETH_MAINNET; USDC_MAINNET].

(** The mint transaction: where it goes and what its tuple holds. *)
Definition mint_parameters E (v : CreateLiquiditySchema) (tr : list event) : Prop :=
  forall p, mint_sent tr = Some p ->
  exists contract mint t1 t2 earlier,
    encode_mint E contract mint = Ok (tx_data p) /\
    to_checksum_address E (PStr POSITION_MANAGER) = Ok contract /\
    tx_to p = contract /\
    to_checksum_address E (PStr USDC) = Ok (token0 mint) /\
    to_checksum_address E (PStr WETH) = Ok (token1 mint) /\
    addresses (before_mint tr) = earlier ++ [recipient mint] /\
    clock_reads (before_mint tr) = [t1; t2] /\
    deadline mint = t1 + 1800.

(** What becomes of the receipt of the mint transaction. *)
Definition receipt_handling E (v : CreateLiquiditySchema) (tr : list event) (out : result string) : Prop :=
  forall p h h' r rest,
    after_mint tr = EvSendTransaction p (Ok h) :: EvWaitForTransactionReceipt h' (Ok r) :: rest ->
    h' = h /\
    if status r =? 1 then
      match find_token_id POSITION_MANAGER (logs r) with
      | Ok token_id =>
          rest = [] /\
          let spacing := fst (fst (tick_spacing_for (fee_tier v))) in
          let ticks := align_ticks (tick_lower v) (tick_upper v) spacing in
          out = Ok (success_message v (fst ticks) (snd ticks)
                      (snd (fst (tick_spacing_for (fee_tier v)))) h token_id)
      | Raise e =>
          rest = [EvPrint (detailed_error E e)] /\
          out = Ok ("Error creating Uniswap V3 liquidity position: " +:+ exn_str e +:+ tick_hint)
      end
    else
      rest = [] /\
      out = Ok ("Error: Liquidity position creation failed. Transaction hash: " +:+ h).

(** After a transaction that failed nothing is sent: the error is printed
    and returned. *)
Definition failure_handling E (tr : list event) (out : result string) : Prop :=
  forall e rest,
    after_first_failure tr = Some (e, rest) ->
    rest = [EvPrint (detailed_error E e)] /\
    out = Ok ("Error creating Uniswap V3 liquidity position: " +:+ exn_str e +:+ tick_hint).


Definition FACTORY : string := "0x1F98431c8aD98523631AE4a59f267346ea31F984".

(** The contract reads of a trace, with their arguments and answers. *)
Fixpoint read_events (tr : list event) : list event :=
  match tr with
  | [] => []
  | EvReadContract c a fn args r :: rest => EvReadContract c a fn args r :: read_events rest
  | _ :: rest => read_events rest
  end.

(** * Properties *)

(** ** Traces of composed handlers *)

Lemma trace_bind_inv {A B} (a : action A) (f : A -> action B) tr out :
  trace (bind a f) tr out ->
  (exists e, trace a tr (Raise e) /\ out = Raise e) \/
  (exists x tr1 tr2, trace a tr1 (Ok x) /\ trace (f x) tr2 out /\ tr = tr1 ++ tr2).
Proof.
  revert tr.
  induction a as [x|e|k IH|k IH|k IH|c ab fn args k IH|p k IH|h k IH|k IH|line k IH];
    intros tr H; cbn in H.
  - right. exists x, [], tr. repeat split; [constructor | assumption].
  - inversion H; subst. left. eexists; split; [constructor | reflexivity].
  - peel IH finish_sequence.
  - peel IH finish_sequence.
  - peel IH finish_sequence.
  - peel IH finish_sequence.
  - peel IH finish_sequence.
  - peel IH finish_sequence.
  - peel IH finish_sequence.
  - peel IH finish_sequence.
Qed.

Lemma trace_try_except_inv {A} (a : action A) (h : exn -> action A) tr out :
  trace (try_except a h) tr out ->
  (exists x, trace a tr (Ok x) /\ out = Ok x) \/
  (exists e tr1 tr2, trace a tr1 (Raise e) /\ trace (h e) tr2 out /\ tr = tr1 ++ tr2).
Proof.
  revert tr.
  induction a as [x|e|k IH|k IH|k IH|c ab fn args k IH|p k IH|t k IH|k IH|line k IH];
    intros tr H; cbn in H.
  - inversion H; subst. left. eexists; split; [constructor | reflexivity].
  - right. exists e, [], tr. repeat split; [constructor | assumption].
  - peel IH finish_handled.
  - peel IH finish_handled.
  - peel IH finish_handled.
  - peel IH finish_handled.
  - peel IH finish_handled.
  - peel IH finish_handled.
  - peel IH finish_handled.
  - peel IH finish_handled.
Qed.

Lemma trace_lift_inv {A} (r : result A) tr out :
  trace (lift r) tr out -> tr = [] /\ out = r.
Proof.
  destruct r; cbn; intros H; inversion H; subst; split; reflexivity.
Qed.

Lemma trace_Ret_inv {A} (x : A) tr out :
  trace (Ret x) tr out -> tr = [] /\ out = Ok x.
Proof.
  intros H; inversion H; subst; split; reflexivity.
Qed.

Lemma trace_attempt_inv {A} (a : action A) tr out :
  trace (attempt a) tr out -> exists r, out = Ok r /\ trace a tr r.
Proof.
  unfold attempt. intros H.
  apply trace_try_except_inv in H as [(x & H & ->) | (e & tr1 & tr2 & H & Hh & ->)].
  - apply trace_bind_inv in H as [(e' & _ & Hne) | (y & tr1 & tr2 & Ha & Hr & ->)].
    + discriminate Hne.
    + apply trace_Ret_inv in Hr as [-> Hx]. injection Hx as ->.
      exists (Ok y). rewrite app_nil_r. split; [reflexivity | assumption].
  - apply trace_Ret_inv in Hh as [-> ->].
    apply trace_bind_inv in H as [(e' & Ha & He) | (y & tr1' & tr2 & Ha & Hr & ->)].
    + injection He as ->.
      exists (Raise e'). rewrite app_nil_r. split; [reflexivity | assumption].
    + apply trace_Ret_inv in Hr as [_ Hne]. discriminate Hne.
Qed.

(** Whatever a provider answers, running a handler yields one of its
    traces. *)
Lemma run_trace {A} (P : provider) (a : action A) past out tr :
  run P a past = (out, tr) -> trace a tr out.
Proof.
  revert past out tr.
  induction a as [x|e|k IH|k IH|k IH|c ab fn args k IH|p k IH|t k IH|k IH|line k IH];
    intros past out tr H; cbn in H.
  1, 2: injection H as <- <-; constructor.
  all: match type of H with
       | context [run _ ?b ?h] => destruct (run _ b h) as [out' tr'] eqn:Hrun
       end;
       injection H as <- <-; constructor; eapply IH; exact Hrun.
Qed.

(** ** Facts about the [str] operations *)

Lemma is_digit_code c : is_digit c = true <-> 48 <= code c <= 57.
Proof.
  unfold is_digit. boolean_lia.
Qed.

Lemma is_digit_not_space c : is_digit c = true -> is_space c = false.
Proof.
  rewrite is_digit_code. unfold is_space. cbv zeta. boolean_lia.
Qed.

Lemma is_digit_not_int_space c : is_digit c = true -> is_int_space c = false.
Proof.
  rewrite is_digit_code. unfold is_int_space. cbv zeta. boolean_lia.
Qed.

Lemma is_digit_not_sign c :
  is_digit c = true -> c <> "-"%char /\ c <> "+"%char /\ c <> "."%char /\ c <> "_"%char.
Proof.
  intros H. repeat split; intros ->; discriminate H.
Qed.

Lemma is_digit_not_e c : is_digit c = true -> Ascii.eqb (lower_char c) "e" = false.
Proof.
  rewrite is_digit_code. intros Hc. unfold lower_char. cbv zeta.
  replace ((65 <=? code c) && (code c <=? 90)
           || (192 <=? code c) && (code c <=? 222) && negb (code c =? 215)) with false
    by (symmetry; boolean_lia).
  apply Ascii.eqb_neq. intros ->. change (code "e") with 101 in Hc. lia.
Qed.

Lemma digit_val_range c : is_digit c = true -> 0 <= digit_val c <= 9.
Proof.
  rewrite is_digit_code. unfold digit_val. lia.
Qed.

Lemma append_String c a b : String c a +:+ b = String c (a +:+ b).
Proof. reflexivity. Qed.

Lemma append_empty_r a : a +:+ "" = a.
Proof.
  induction a as [|c a IH]; [reflexivity|]. rewrite append_String, IH. reflexivity.
Qed.

Lemma append_assoc a b c : (a +:+ b) +:+ c = a +:+ (b +:+ c).
Proof.
  induction a as [|x a IH]; [reflexivity|]. rewrite !append_String, IH. reflexivity.
Qed.

Lemma length_append a b : String.length (a +:+ b) = (String.length a + String.length b)%nat.
Proof.
  induction a as [|x a IH]; [reflexivity|]. rewrite append_String. cbn. rewrite IH. reflexivity.
Qed.

Lemma all_digits_app a b : all_digits (a +:+ b) = all_digits a && all_digits b.
Proof.
  induction a as [|c a IH]; [reflexivity|].
  rewrite append_String. cbn [all_digits]. rewrite IH. apply andb_assoc.
Qed.

Lemma digits_value_acc_app acc a b :
  digits_value_acc acc (a +:+ b) = digits_value_acc (digits_value_acc acc a) b.
Proof.
  revert acc.
  induction a as [|c a IH]; intros acc; [reflexivity|].
  rewrite append_String. cbn [digits_value_acc]. apply IH.
Qed.

Lemma digits_value_acc_shift acc s :
  digits_value_acc acc s = acc * 10 ^ Z.of_nat (String.length s) + digits_value s.
Proof.
  unfold digits_value. revert acc.
  induction s as [|c s IH]; intros acc.
  - cbn. lia.
  - cbn [digits_value_acc String.length].
    rewrite IH, (IH (10 * 0 + digit_val c)), Nat2Z.inj_succ, Z.pow_succ_r by lia. lia.
Qed.

Lemma digits_value_app a b :
  digits_value (a +:+ b) = digits_value a * 10 ^ Z.of_nat (String.length b) + digits_value b.
Proof.
  unfold digits_value at 1. rewrite digits_value_acc_app, digits_value_acc_shift.
  reflexivity.
Qed.

Lemma digits_value_String c s :
  digits_value (String c s) = digit_val c * 10 ^ Z.of_nat (String.length s) + digits_value s.
Proof.
  unfold digits_value at 1. cbn [digits_value_acc].
  rewrite digits_value_acc_shift. lia.
Qed.

Lemma digits_value_bounds s :
  all_digits s = true -> 0 <= digits_value s < 10 ^ Z.of_nat (String.length s).
Proof.
  induction s as [|c s IH]; intros H.
  - cbn. lia.
  - cbn [all_digits] in H. apply andb_true_iff in H as [Hc Hs].
    rewrite digits_value_String. specialize (IH Hs).
    pose proof (digit_val_range c Hc).
    cbn [String.length]. rewrite Nat2Z.inj_succ, Z.pow_succ_r by lia. nia.
Qed.

(** ** [int()] and [split] on runs of digits *)

Lemma rstrip_keeps p s :
  (forall c, contains c s = true -> p c = false) -> rstrip p s = s.
Proof.
  induction s as [|c s IH]; intros H; [reflexivity|].
  cbn [rstrip]. rewrite IH.
  - destruct s; [|reflexivity].
    rewrite (H c); [reflexivity|]. cbn. rewrite Ascii.eqb_refl. reflexivity.
  - intros a Ha. apply H. cbn. rewrite Ha. apply orb_true_r.
Qed.

Lemma all_digits_contains s c : all_digits s = true -> contains c s = true -> is_digit c = true.
Proof.
  induction s as [|a s IH]; cbn; intros Hd Hc; [discriminate|].
  apply andb_true_iff in Hd as [Ha Hs].
  apply orb_true_iff in Hc as [Hc|Hc]; [|exact (IH Hs Hc)].
  apply Ascii.eqb_eq in Hc as <-. exact Ha.
Qed.

Lemma strip_keeps p s :
  (forall c, contains c s = true -> p c = false) -> strip p s = s.
Proof.
  intros H. unfold strip.
  assert (Hl : lstrip p s = s).
  { destruct s as [|c s]; [reflexivity|]. cbn [lstrip].
    rewrite (H c); [reflexivity|]. cbn [contains]. rewrite Ascii.eqb_refl. reflexivity. }
  rewrite Hl. apply rstrip_keeps. exact H.
Qed.

Lemma strip_int_space_digits s : all_digits s = true -> strip is_int_space s = s.
Proof.
  intros H. apply strip_keeps.
  intros c Hc. apply is_digit_not_int_space. exact (all_digits_contains s c H Hc).
Qed.

Lemma span_literal_all_digits s : all_digits s = true -> span_literal s = (s, "").
Proof.
  induction s as [|c s IH]; [reflexivity|]. cbn [all_digits span_literal]. intros H.
  apply andb_true_iff in H as [Hc Hs]. rewrite Hc, (IH Hs). reflexivity.
Qed.

Lemma count_digits_all_digits s : all_digits s = true -> count_digits s = String.length s.
Proof.
  induction s as [|c s IH]; [reflexivity|]. cbn [all_digits count_digits String.length].
  intros H. apply andb_true_iff in H as [Hc Hs]. rewrite Hc, (IH Hs). reflexivity.
Qed.

Lemma split_sign_digits s : all_digits s = true -> split_sign s = (false, s).
Proof.
  destruct s as [|c s]; [reflexivity|]. cbn [all_digits split_sign]. intros H.
  apply andb_true_iff in H as [Hc _].
  destruct (is_digit_not_sign c Hc) as (Hm & Hp & _).
  apply Ascii.eqb_neq in Hm, Hp. rewrite Hm, Hp. reflexivity.
Qed.

Lemma int_digits_all_digits b acc s :
  all_digits s = true -> b = true \/ s <> "" ->
  int_digits b acc s = Some (digits_value_acc acc s).
Proof.
  revert b acc. induction s as [|c s IH]; intros b acc H Hb.
  - destruct Hb as [-> | Hb]; [reflexivity | congruence].
  - cbn [all_digits] in H. apply andb_true_iff in H as [Hc Hs].
    cbn [int_digits digits_value_acc]. rewrite Hc. apply IH; [exact Hs | left; reflexivity].
Qed.

Lemma int_of_str_digits s :
  all_digits s = true -> s <> "" -> (String.length s <= 4300)%nat ->
  int_of_str s = Ok (digits_value s).
Proof.
  intros H Hne Hlen. unfold int_of_str.
  rewrite (strip_int_space_digits s H), (split_sign_digits s H). cbv beta iota zeta.
  rewrite (span_literal_all_digits s H).
  rewrite (int_digits_all_digits false 0 s H) by (right; exact Hne).
  rewrite (count_digits_all_digits s H).
  replace (int_max_str_digits <? String.length s)%nat with false
    by (symmetry; apply Nat.ltb_ge; exact Hlen).
  reflexivity.
Qed.


(** A string without the separator is the first part of what follows it. *)
Lemma split_app sep a b :
  contains sep a = false ->
  split sep (a +:+ String sep b) = a :: split sep b.
Proof.
  induction a as [|c a IH]; intros H.
  - change ("" +:+ String sep b) with (String sep b).
    cbn [split]. rewrite Ascii.eqb_refl. reflexivity.
  - cbn [contains] in H. apply orb_false_iff in H as [Hc Ha].
    rewrite append_String. cbn [split]. rewrite Hc, (IH Ha). reflexivity.
Qed.

Lemma split_none sep a : contains sep a = false -> split sep a = [a].
Proof.
  induction a as [|c a IH]; intros H; [reflexivity|].
  cbn [contains] in H. apply orb_false_iff in H as [Hc Ha].
  cbn [split]. rewrite Hc, (IH Ha). reflexivity.
Qed.

Lemma all_digits_no_dot s : all_digits s = true -> contains "." s = false.
Proof.
  intros H. destruct (contains "." s) eqn:Hc; [|reflexivity].
  pose proof (all_digits_contains s _ H Hc) as Hd. discriminate Hd.
Qed.

Lemma lower_append a b : lower (a +:+ b) = lower a +:+ lower b.
Proof.
  induction a as [|c a IH]; [reflexivity|].
  rewrite append_String. cbn [lower]. rewrite IH. reflexivity.
Qed.

Lemma contains_append c a b : contains c (a +:+ b) = contains c a || contains c b.
Proof.
  induction a as [|x a IH]; [reflexivity|].
  rewrite append_String. cbn [contains]. rewrite IH. apply orb_assoc.
Qed.

Lemma all_digits_no_e s : all_digits s = true -> contains "e" (lower s) = false.
Proof.
  induction s as [|c s IH]; intros H; [reflexivity|].
  cbn [all_digits] in H. apply andb_true_iff in H as [Hc Hs].
  cbn [lower contains]. rewrite (is_digit_not_e c Hc), (IH Hs). reflexivity.
Qed.

(** ** [format_amount_with_decimals] on plain decimal strings *)

(** The atomic units that the fractional digits [f] stand for. *)
Lemma take_app n s : exists r, s = PyStr.take n s +:+ r /\ String.length r = (String.length s - n)%nat.
Proof.
  revert s. induction n as [|n IH]; intros s.
  - exists s. destruct s; cbn; split; reflexivity || lia.
  - destruct s as [|c s].
    + exists "". cbn. split; reflexivity.
    + destruct (IH s) as (r & Hr & Hl). exists r. cbn [PyStr.take String.length].
      rewrite append_String, <- Hr. split; [reflexivity | lia].
Qed.

Lemma all_digits_take n s : all_digits s = true -> all_digits (PyStr.take n s) = true.
Proof.
  intros H. destruct (take_app n s) as (r & Hr & _).
  rewrite Hr, all_digits_app in H. apply andb_true_iff in H as [H _]. exact H.
Qed.

Lemma length_take n s : (n <= String.length s)%nat -> String.length (PyStr.take n s) = n.
Proof.
  intros H. destruct (take_app n s) as (r & Hr & Hl).
  apply (f_equal String.length) in Hr. rewrite length_append in Hr. lia.
Qed.

Lemma digits_value_take n s :
  all_digits s = true -> (n <= String.length s)%nat ->
  digits_value (PyStr.take n s) = digits_value s / 10 ^ Z.of_nat (String.length s - n).
Proof.
  intros H Hn. destruct (take_app n s) as (r & Hr & Hl).
  assert (Hd : all_digits r = true).
  { rewrite Hr, all_digits_app in H. apply andb_true_iff in H as [_ H]. exact H. }
  rewrite Hr at 2. rewrite digits_value_app, Hl.
  pose proof (digits_value_bounds r Hd) as Hb. rewrite Hl in Hb.
  rewrite Z.div_add_l by lia. rewrite (Z.div_small (digits_value r)) by lia. lia.
Qed.

Lemma all_digits_repeat_zero n : all_digits (repeat_char "0" n) = true.
Proof.
  induction n as [|n IH]; [reflexivity|]. cbn [repeat_char all_digits]. rewrite IH. reflexivity.
Qed.

Lemma length_repeat_char c n : String.length (repeat_char c n) = n.
Proof.
  induction n as [|n IH]; [reflexivity|]. cbn. rewrite IH. reflexivity.
Qed.

Lemma digits_value_repeat_zero n : digits_value (repeat_char "0" n) = 0.
Proof.
  induction n as [|n IH]; [reflexivity|].
  cbn [repeat_char]. rewrite digits_value_String, IH. reflexivity.
Qed.

(** The fractional part as the code prepares it (cut or padded to [decimals]
    digits) reads as [floor(0.f * 10^decimals)]. *)
Lemma fraction_units f decimals :
  all_digits f = true -> (1 <= decimals <= 4300)%nat ->
  int_of_str (if (decimals <? String.length f)%nat
              then PyStr.take decimals f else ljust f decimals "0")
  = Ok (digits_value f * 10 ^ Z.of_nat decimals / 10 ^ Z.of_nat (String.length f)).
Proof.
  intros H Hd. destruct (decimals <? String.length f)%nat eqn:Hlt.
  - apply Nat.ltb_lt in Hlt.
    rewrite int_of_str_digits.
    + rewrite digits_value_take by (assumption || lia). f_equal.
      assert (E : 10 ^ Z.of_nat (String.length f)
                  = 10 ^ Z.of_nat decimals * 10 ^ Z.of_nat (String.length f - decimals)).
      { rewrite <- Z.pow_add_r by lia. f_equal. lia. }
      rewrite E, (Z.mul_comm (digits_value f)), Z.div_mul_cancel_l by lia.
      reflexivity.
    + apply all_digits_take. exact H.
    + intros He. apply (f_equal String.length) in He.
      rewrite length_take in He by lia. cbn in He. lia.
    + rewrite length_take by lia. lia.
  - apply Nat.ltb_ge in Hlt. unfold ljust.
    rewrite int_of_str_digits.
    + rewrite digits_value_app, digits_value_repeat_zero, length_repeat_char. f_equal.
      assert (E : 10 ^ Z.of_nat decimals
                  = 10 ^ Z.of_nat (decimals - String.length f) * 10 ^ Z.of_nat (String.length f)).
      { rewrite <- Z.pow_add_r by lia. f_equal. lia. }
      rewrite E, Z.mul_assoc, Z.div_mul by lia. lia.
    + rewrite all_digits_app, H, all_digits_repeat_zero. reflexivity.
    + intros He. apply (f_equal String.length) in He.
      rewrite length_append, length_repeat_char in He. cbn in He. lia.
    + rewrite length_append, length_repeat_char. lia.
Qed.

Lemma format_amount_with_decimals_parts whole f decimals n :
  contains "e" (lower whole) = false ->
  contains "." whole = false ->
  int_of_str whole = Ok n ->
  all_digits f = true -> (1 <= decimals <= 4300)%nat ->
  format_amount_with_decimals (whole +:+ String "." f) decimals
  = Ok (n * 10 ^ Z.of_nat decimals
        + digits_value f * 10 ^ Z.of_nat decimals / 10 ^ Z.of_nat (String.length f)).
Proof.
  intros He Hdot Hn Hf Hd. unfold format_amount_with_decimals.
  rewrite lower_append, contains_append, He.
  cbn [lower contains]. change (Ascii.eqb (lower_char ".") "e") with false.
  rewrite (all_digits_no_e f Hf). cbn [orb].
  rewrite (split_app "." whole f Hdot), (split_none "." f (all_digits_no_dot f Hf)).
  rewrite Hn, (fraction_units f decimals Hf Hd). reflexivity.
Qed.

Lemma format_amount_with_decimals_whole w decimals :
  all_digits w = true -> w <> "" -> (String.length w <= 4300)%nat ->
  format_amount_with_decimals w decimals = Ok (digits_value w * 10 ^ Z.of_nat decimals).
Proof.
  intros Hw Hne Hlen. unfold format_amount_with_decimals.
  rewrite (all_digits_no_e w Hw), (split_none "." w (all_digits_no_dot w Hw)).
  rewrite (int_of_str_digits w Hw Hne Hlen). reflexivity.
Qed.

Lemma truncated_units_plain w f decimals :
  Stated.truncated_units (Stated.plain_decimal_value w f) decimals
  = digits_value (w +:+ f) * 10 ^ Z.of_nat decimals / 10 ^ Z.of_nat (String.length f).
Proof.
  unfold Stated.truncated_units, Stated.plain_decimal_value, Qfloor, Qmult, inject_Z.
  cbn [Qnum Qden]. rewrite Pos.mul_1_r, Z2Pos.id by lia. reflexivity.
Qed.

Lemma plain_units_split w f decimals :
  digits_value (w +:+ f) * 10 ^ Z.of_nat decimals / 10 ^ Z.of_nat (String.length f)
  = digits_value w * 10 ^ Z.of_nat decimals
    + digits_value f * 10 ^ Z.of_nat decimals / 10 ^ Z.of_nat (String.length f).
Proof.
  rewrite digits_value_app, Z.mul_add_distr_r.
  replace (digits_value w * 10 ^ Z.of_nat (String.length f) * 10 ^ Z.of_nat decimals)
    with (digits_value w * 10 ^ Z.of_nat decimals * 10 ^ Z.of_nat (String.length f)) by lia.
  rewrite Z.div_add_l by lia. reflexivity.
Qed.

(** ** [format_amount_with_decimals] on exponential notation *)

Lemma length_nat_digits fuel n acc k :
  0 <= n < 10 ^ Z.of_nat k -> (1 <= k)%nat ->
  (String.length (nat_digits fuel n acc) <= k + String.length acc)%nat.
Proof.
  revert n acc k. induction fuel as [|fuel IH]; intros n acc k Hn Hk; cbn [nat_digits].
  - lia.
  - destruct (n <? 10) eqn:Hlt.
    + cbn [String.length]. lia.
    + apply Z.ltb_ge in Hlt.
      destruct k as [|[|k]]; [lia | cbn in Hn; lia |].
      etransitivity.
      * apply (IH _ _ (S k)); [|lia].
        rewrite !Nat2Z.inj_succ, Z.pow_succ_r in Hn by lia.
        rewrite Nat2Z.inj_succ.
        split; [apply Z.div_pos; lia | apply Z.div_lt_upper_bound; lia].
      * cbn [String.length]. lia.
Qed.

Lemma len_int_le n k :
  0 <= n < 10 ^ Z.of_nat k -> (1 <= k)%nat -> PyDecimal.len_int n <= Z.of_nat k.
Proof.
  intros Hn Hk. unfold PyDecimal.len_int, str_of_nonneg.
  pose proof (length_nat_digits (S (Z.to_nat (Z.log2 n))) n "" k Hn Hk) as H.
  cbn [String.length] in H. lia.
Qed.

(** A coefficient of at most 28 digits with a moderate exponent is left as
    it is by the context. *)
Lemma fix_exact sg c e :
  0 < c < 10 ^ 28 -> -999000 <= e <= 999000 ->
  PyDecimal.fix_ (PyDecimal.Dec sg c e) = Ok (PyDecimal.Dec sg c e).
Proof.
  intros Hc He. unfold PyDecimal.fix_.
  pose proof (len_int_le c 28 ltac:(cbn; lia) ltac:(lia)) as Hlen.
  replace (c =? 0) with false by (symmetry; apply Z.eqb_neq; lia).
  unfold PyDecimal.Etop, PyDecimal.Etiny, PyDecimal.Emax, PyDecimal.Emin, PyDecimal.prec.
  replace (999999 - 28 + 1 <? PyDecimal.len_int c + e - 28) with false
    by (symmetry; apply Z.ltb_ge; lia).
  destruct (PyDecimal.len_int c + e - 28 <? -999999 - 28 + 1) eqn:Hsub.
  - replace (e <? -999999 - 28 + 1) with false by (symmetry; apply Z.ltb_ge; lia).
    reflexivity.
  - replace (e <? PyDecimal.len_int c + e - 28) with false
      by (symmetry; apply Z.ltb_ge; lia).
    reflexivity.
Qed.

Lemma span_digits_app w r :
  all_digits w = true ->
  match r with String c _ => is_digit c = false | EmptyString => True end ->
  PyDecimal.span_digits (w +:+ r) = (w, r).
Proof.
  intros Hw Hr. induction w as [|c w IH].
  - change ("" +:+ r) with r. destruct r as [|c r]; [reflexivity|].
    cbn [PyDecimal.span_digits]. rewrite Hr. reflexivity.
  - cbn [all_digits] in Hw. apply andb_true_iff in Hw as [Hc Hw].
    rewrite append_String. cbn [PyDecimal.span_digits]. rewrite Hc, (IH Hw). reflexivity.
Qed.

Lemma remove_char_keeps c s : contains c s = false -> PyDecimal.remove_char c s = s.
Proof.
  induction s as [|a s IH]; intros H; [reflexivity|].
  cbn [contains] in H. apply orb_false_iff in H as [Ha Hs].
  cbn [PyDecimal.remove_char]. rewrite Ha, (IH Hs). reflexivity.
Qed.

Lemma scientific_char_plain c :
  scientific_char c = true -> is_space c = false /\ Ascii.eqb c "_" = false.
Proof.
  unfold scientific_char. intros H.
  repeat (apply orb_true_iff in H as [H|H]).
  - split; [exact (is_digit_not_space c H)|].
    destruct (is_digit_not_sign c H) as (_ & _ & _ & Hu). apply Ascii.eqb_neq. exact Hu.
  - apply Ascii.eqb_eq in H as ->. split; reflexivity.
  - apply Ascii.eqb_eq in H as ->. split; reflexivity.
  - apply Ascii.eqb_eq in H as ->. split; reflexivity.
  - apply Ascii.eqb_eq in H as ->. split; reflexivity.
Qed.

Lemma all_digits_scientific_char s c :
  all_digits s = true -> contains c s = true -> scientific_char c = true.
Proof.
  intros Hs Hc. unfold scientific_char. rewrite (all_digits_contains s c Hs Hc). reflexivity.
Qed.

Lemma scientific_chars w f x dot upper negative c :
  all_digits w = true -> all_digits f = true -> all_digits x = true ->
  contains c (scientific w f x dot upper negative) = true -> scientific_char c = true.
Proof.
  intros Hw Hf Hx Hc. unfold scientific in Hc.
  rewrite !contains_append in Hc. cbn [contains] in Hc. rewrite contains_append in Hc.
  repeat (apply orb_true_iff in Hc as [Hc|Hc]).
  - exact (all_digits_scientific_char w c Hw Hc).
  - destruct dot; cbn [contains] in Hc; [|discriminate].
    apply orb_true_iff in Hc as [Hc|Hc].
    + apply Ascii.eqb_eq in Hc as <-. reflexivity.
    + exact (all_digits_scientific_char f c Hf Hc).
  - apply Ascii.eqb_eq in Hc as <-. destruct upper; reflexivity.
  - destruct negative; cbn [contains] in Hc; [|discriminate].
    rewrite orb_false_r in Hc. apply Ascii.eqb_eq in Hc as <-. reflexivity.
  - exact (all_digits_scientific_char x c Hx Hc).
Qed.

Lemma split_sign_unsigned c r :
  c <> "-"%char -> c <> "+"%char -> split_sign (String c r) = (false, String c r).
Proof.
  intros Hm Hp. cbn [split_sign].
  apply Ascii.eqb_neq in Hm, Hp. rewrite Hm, Hp. reflexivity.
Qed.

(** [Decimal] of a number in scientific notation whose digits and exponent
    are moderate: the digits as the coefficient, the exponent lowered by the
    number of fractional digits. *)
Lemma of_str_scientific w f x (dot upper negative : bool) :
  all_digits w = true -> all_digits f = true -> all_digits x = true -> x <> "" ->
  (if dot then w <> "" \/ f <> "" else w <> "" /\ f = "") ->
  digits_value (w +:+ f) < 10 ^ 28 ->
  -999000 <= (if negative then - digits_value x else digits_value x)
             - Z.of_nat (String.length f) <= 999000 ->
  PyDecimal.of_str (scientific w f x dot upper negative)
  = Ok (PyDecimal.Dec false (digits_value (w +:+ f))
          ((if negative then - digits_value x else digits_value x)
           - Z.of_nat (String.length f))).
Proof.
  intros Hw Hf Hx Hxne Hshape Hprec Hexp.
  pose proof (scientific_chars w f x dot upper negative) as Hchars.
  unfold PyDecimal.of_str.
  rewrite strip_keeps
    by (intros c Hc; apply scientific_char_plain; apply Hchars; assumption).
  rewrite remove_char_keeps.
  2:{ destruct (contains "_" _) eqn:Hu; [|reflexivity].
      apply Hchars in Hu; try assumption. discriminate Hu. }
  clear Hchars. unfold scientific.
  set (tail := String (if upper then "E" else "e")%char ((if negative then "-" else "") +:+ x)).
  set (exponent := (if negative then - digits_value x else digits_value x)
                   - Z.of_nat (String.length f)) in *.
  assert (Htail : PyDecimal.parse_exponent tail
                  = Some (if negative then - digits_value x else digits_value x)).
  { unfold tail. cbn [PyDecimal.parse_exponent].
    replace (Ascii.eqb (lower_char (if upper then "E" else "e")%char) "e") with true
      by (destruct upper; reflexivity).
    assert (Hx' : split_sign ((if negative then "-" else "") +:+ x) = (negative, x)).
    { destruct negative.
      - reflexivity.
      - change ("" +:+ x) with x. apply split_sign_digits. exact Hx. }
    rewrite Hx'. cbv beta iota zeta. rewrite Hx.
    replace (negb (String.eqb x "")) with true
      by (symmetry; apply negb_true_iff, String.eqb_neq; exact Hxne).
    reflexivity. }
  assert (Htail_digit : match tail with
                        | String c _ => is_digit c = false
                        | EmptyString => True
                        end) by (unfold tail; destruct upper; reflexivity).
  assert (Hrange : (PyDecimal.parse_Etiny <=? exponent)
                   && (exponent + PyDecimal.len_int (digits_value (w +:+ f)) - 1
                       <=? PyDecimal.parse_Emax) = true).
  { assert (Hdigits : all_digits (w +:+ f) = true) by (rewrite all_digits_app, Hw, Hf; reflexivity).
    pose proof (digits_value_bounds _ Hdigits) as [H0 _].
    pose proof (len_int_le (digits_value (w +:+ f)) 28 ltac:(cbn; lia) ltac:(lia)) as Hlen.
    unfold PyDecimal.parse_Etiny, PyDecimal.parse_Emax.
    apply andb_true_iff. split; [apply Z.leb_le | apply Z.leb_le]; lia. }
  assert (Hsign : forall rest, (w <> "" \/ exists r, rest = String "." r) ->
            split_sign (w +:+ rest) = (false, w +:+ rest)).
  { intros rest Hfirst. destruct w as [|c w'].
    - destruct Hfirst as [Hne | (r & ->)]; [congruence|].
      apply split_sign_unsigned; discriminate.
    - rewrite append_String. cbn [all_digits] in Hw.
      apply andb_true_iff in Hw as [Hc _].
      destruct (is_digit_not_sign c Hc) as (Hm & Hp & _).
      apply split_sign_unsigned; assumption. }
  destruct dot.
  - change (String "." f +:+ tail) with (String "." (f +:+ tail)).
    rewrite Hsign by (right; eexists; reflexivity). cbv beta iota zeta.
    rewrite (span_digits_app w _ Hw) by reflexivity. cbv beta iota zeta.
    rewrite Ascii.eqb_refl.
    rewrite (span_digits_app f tail Hf Htail_digit). cbv beta iota zeta.
    replace (negb (String.eqb w "") || negb (String.eqb f "")) with true.
    2:{ symmetry. apply orb_true_iff.
        destruct Hshape as [Hne | Hne]; [left | right];
          apply negb_true_iff, String.eqb_neq; exact Hne. }
    rewrite Htail. fold exponent. rewrite Hrange. reflexivity.
  - destruct Hshape as [Hwne ->].
    change ("" +:+ tail) with tail.
    rewrite Hsign by (left; exact Hwne). cbv beta iota zeta.
    rewrite (span_digits_app w tail Hw Htail_digit). cbv beta iota zeta.
    unfold tail at 1.
    replace (Ascii.eqb (if upper then "E" else "e")%char ".") with false
      by (destruct upper; reflexivity).
    fold tail.
    replace (negb (String.eqb w "")) with true
      by (symmetry; apply negb_true_iff, String.eqb_neq; exact Hwne).
    rewrite Htail. fold exponent. rewrite Hrange. reflexivity.
Qed.

Lemma contains_e_scientific w f x dot upper negative :
  contains "e" (lower (scientific w f x dot upper negative)) = true.
Proof.
  unfold scientific. rewrite !lower_append, !contains_append. cbn [lower contains].
  replace (Ascii.eqb (lower_char (if upper then "E" else "e")%char) "e") with true
    by (destruct upper; reflexivity).
  cbn [orb]. rewrite !orb_true_r. reflexivity.
Qed.

(** The units of a number in scientific notation, while the digits scaled by
    [10^decimals] fit the 28 digits of the context. *)
Lemma format_amount_with_decimals_scientific_units w f x (dot upper negative : bool) decimals :
  all_digits w = true -> all_digits f = true -> all_digits x = true -> x <> "" ->
  (if dot then w <> "" \/ f <> "" else w <> "" /\ f = "") ->
  digits_value (w +:+ f) * 10 ^ Z.of_nat decimals < 10 ^ 28 ->
  -999000 <= (if negative then - digits_value x else digits_value x)
             - Z.of_nat (String.length f) <= 999000 ->
  format_amount_with_decimals (scientific w f x dot upper negative) decimals
  = Ok (let exponent := (if negative then - digits_value x else digits_value x)
                        - Z.of_nat (String.length f) in
        if 0 <=? exponent
        then digits_value (w +:+ f) * 10 ^ Z.of_nat decimals * 10 ^ exponent
        else digits_value (w +:+ f) * 10 ^ Z.of_nat decimals / 10 ^ (- exponent)).
Proof.
  intros Hw Hf Hx Hxne Hshape Hprec Hexp. unfold format_amount_with_decimals.
  assert (Hdigits : all_digits (w +:+ f) = true) by (rewrite all_digits_app, Hw, Hf; reflexivity).
  pose proof (digits_value_bounds _ Hdigits) as [Hc0 _].
  assert (Hpow : 0 < 10 ^ Z.of_nat decimals) by (apply Z.pow_pos_nonneg; lia).
  rewrite contains_e_scientific.
  rewrite (of_str_scientific w f x dot upper negative Hw Hf Hx Hxne Hshape) by (assumption || nia).
  cbv zeta.
  set (exponent := (if negative then - digits_value x else digits_value x)
                   - Z.of_nat (String.length f)) in *.
  set (coeff := digits_value (w +:+ f)) in *.
  cbn [rbind try_except_ValueError]. unfold PyDecimal.mul, PyDecimal.of_int.
  cbn [PyDecimal.d_sign PyDecimal.d_int PyDecimal.d_exp].
  replace (10 ^ Z.of_nat decimals <? 0) with false by (symmetry; apply Z.ltb_ge; lia).
  rewrite Z.abs_eq, Z.add_0_r by lia. cbn [xorb].
  destruct (Z.eq_dec coeff 0) as [Hz|Hnz].
  - rewrite Hz, Z.mul_0_l. unfold PyDecimal.fix_. cbn [Z.eqb rbind].
    unfold PyDecimal.to_int. cbn [PyDecimal.d_sign PyDecimal.d_int PyDecimal.d_exp].
    destruct (0 <=? exponent); destruct (0 <=? _); rewrite ?Z.mul_0_l, ?Zdiv_0_l; reflexivity.
  - rewrite fix_exact by nia.
    cbn [rbind]. unfold PyDecimal.to_int.
    cbn [PyDecimal.d_sign PyDecimal.d_int PyDecimal.d_exp]. reflexivity.
Qed.

Lemma int_of_str_raises_ValueError s e : int_of_str s = Raise e -> is_ValueError e = true.
Proof.
  unfold int_of_str. destruct (split_sign _) as [neg ds].
  destruct (span_literal ds) as [run rest].
  destruct (int_digits false 0 run); [|intros H; injection H as <-; reflexivity].
  destruct (_ <? _)%nat; [intros H; injection H as <-; reflexivity|].
  destruct (String.eqb rest ""); intros H; [discriminate|].
  injection H as <-. reflexivity.
Qed.

(** A string without the letter e that has more than one dot, or whose part
    before the first dot [int()] rejects, is refused with the module's own
    [ValueError]. *)
Lemma format_amount_with_decimals_refuses s decimals :
  contains "e" (lower s) = false ->
  (2 < length (split "." s))%nat \/ (exists e, int_of_str (hd "" (split "." s)) = Raise e) ->
  format_amount_with_decimals s decimals = Raise (ValueError ("Invalid amount format: " +:+ s)).
Proof.
  intros He H. unfold format_amount_with_decimals. rewrite He.
  destruct (split "." s) as [|p [|q [|r rest]]]; cbn [length hd] in H.
  - destruct H as [H|(e & H)]; [lia|].
    reflexivity.
  - destruct H as [H|(e & H)]; [lia|].
    rewrite H. cbn [rbind try_except_ValueError].
    rewrite (int_of_str_raises_ValueError _ _ H). reflexivity.
  - destruct H as [H|(e & H)]; [lia|].
    rewrite H. cbn [rbind try_except_ValueError].
    rewrite (int_of_str_raises_ValueError _ _ H). reflexivity.
  - reflexivity.
Qed.

(** ** Unit conversion *)

(** C7 does not hold of the code.  A number in exponential notation is
    rounded to 28 significant digits, here upwards, where its digits beyond
    [decimals] should be cut, as they are for the same digits written
    without the exponent.  A malformed string whose junk lies beyond the kept
    fractional digits is converted, where the same junk before an exponent
    is refused.  The valid number [.5] is refused, where [.5e0] is
    converted.  And a malformed string with the letter e fails with
    [decimal.InvalidOperation], not with the input-format error. *)
Lemma format_amount_with_decimals_accepts_malformed :
  Stated.is_decimal_number "1.9999999999999999999999999999e0" = true /\
  format_amount_with_decimals "1.9999999999999999999999999999e0" 18
  = Ok 2000000000000000000 /\
  Stated.truncated_units
    (Stated.plain_decimal_value "1" "9999999999999999999999999999") 18
  = 1999999999999999999 /\
  format_amount_with_decimals "1.9999999999999999999999999999" 18
  = Ok 1999999999999999999 /\
  Stated.is_decimal_number "1.000000abc" = false /\
  format_amount_with_decimals "1.000000abc" 6 = Ok 1000000 /\
  format_amount_with_decimals "1.000000abce0" 6
  = Raise (DecimalInvalidOperation "[<class 'decimal.ConversionSyntax'>]") /\
  Stated.is_decimal_number ".5" = true /\
  format_amount_with_decimals ".5" 6 = Raise (ValueError "Invalid amount format: .5") /\
  format_amount_with_decimals ".5e0" 6 = Ok 500000.
Proof.
  repeat apply conj; vm_compute; reflexivity.
Qed.




(** C3 does not hold of the code: 0.00000000015 WETH is 150000000 atomic
    units, which are printed as ["1.5E-1"], because the trailing zero that
    [rstrip] removes belongs to the exponent [E-10]; read back, the string
    stands for a billion times more. *)
Theorem round_trip_breaks_on_small_amounts :
  format_amount_with_decimals "0.00000000015" 18 = Ok 150000000 /\
  PyDecimal.truediv (PyDecimal.of_int 150000000) (PyDecimal.of_int (10 ^ 18))
  = Ok (PyDecimal.Dec false 15 (-11)) /\
  PyDecimal.to_str (PyDecimal.Dec false 15 (-11)) = "1.5E-10" /\
  format_amount_from_decimals 150000000 18 = Ok "1.5E-1" /\
  format_amount_with_decimals "1.5E-1" 18 = Ok 150000000000000000.
Proof.
  repeat apply conj; vm_compute; reflexivity.
Qed.

(** ** Ticks and fee tiers *)

Lemma floor_multiple spacing t :
  0 < spacing -> Stated.largest_multiple_below spacing t (t / spacing * spacing).
Proof.
  intros Hs. unfold Stated.largest_multiple_below. repeat apply conj.
  - exists (t / spacing). reflexivity.
  - pose proof (Z.mul_div_le t spacing Hs). lia.
  - intros m' (k & ->) Hk.
    assert (k <= t / spacing) by (apply Z.div_le_lower_bound; lia).
    nia.
Qed.

Lemma run_trace_pair {A} (P : provider) (a : action A) past p :
  run P a past = p -> trace a (snd p) (fst p).
Proof.
  destruct p as [out tr]. apply run_trace.
Qed.

(** ** Traces of the calls of the wallet provider *)

Lemma trace_get_network_inv tr out :
  trace get_network tr out -> exists r, tr = [EvGetNetwork r] /\ out = r.
Proof.
  unfold get_network. intros H. inversion H; subst.
  match goal with H' : trace (returned _) _ _ |- _ => apply trace_lift_inv in H' as [-> ->] end.
  eexists; split; reflexivity.
Qed.

Lemma trace_get_address_inv tr out :
  trace get_address tr out -> exists r, tr = [EvGetAddress r] /\ out = r.
Proof.
  unfold get_address. intros H. inversion H; subst.
  match goal with H' : trace (returned _) _ _ |- _ => apply trace_lift_inv in H' as [-> ->] end.
  eexists; split; reflexivity.
Qed.

Lemma trace_get_web3_inv tr out :
  trace get_web3 tr out -> exists r, tr = [EvGetWeb3 r] /\ out = r.
Proof.
  unfold get_web3. intros H. inversion H; subst.
  match goal with H' : trace (returned _) _ _ |- _ => apply trace_lift_inv in H' as [-> ->] end.
  eexists; split; reflexivity.
Qed.

Lemma trace_read_contract_inv c a fn args tr out :
  trace (read_contract c a fn args) tr out ->
  exists r, tr = [EvReadContract c a fn args r] /\ out = r.
Proof.
  unfold read_contract. intros H. inversion H; subst.
  match goal with H' : trace (returned _) _ _ |- _ => apply trace_lift_inv in H' as [-> ->] end.
  eexists; split; reflexivity.
Qed.

Lemma trace_send_transaction_inv p tr out :
  trace (send_transaction p) tr out -> exists r, tr = [EvSendTransaction p r] /\ out = r.
Proof.
  unfold send_transaction. intros H. inversion H; subst.
  match goal with H' : trace (returned _) _ _ |- _ => apply trace_lift_inv in H' as [-> ->] end.
  eexists; split; reflexivity.
Qed.

Lemma trace_wait_for_transaction_receipt_inv h tr out :
  trace (wait_for_transaction_receipt h) tr out ->
  exists r, tr = [EvWaitForTransactionReceipt h r] /\ out = r.
Proof.
  unfold wait_for_transaction_receipt. intros H. inversion H; subst.
  match goal with H' : trace (returned _) _ _ |- _ => apply trace_lift_inv in H' as [-> ->] end.
  eexists; split; reflexivity.
Qed.

Lemma trace_time_time_inv tr out :
  trace time_time tr out -> exists t, tr = [EvTimeTime t] /\ out = Ok t.
Proof.
  unfold time_time. intros H. inversion H; subst.
  match goal with H' : trace (Ret _) _ _ |- _ => apply trace_Ret_inv in H' as [-> ->] end.
  eexists; split; reflexivity.
Qed.

Lemma trace_print_inv line tr out :
  trace (print line) tr out -> tr = [EvPrint line] /\ out = Ok tt.
Proof.
  unfold print. intros H. inversion H; subst.
  match goal with H' : trace (Ret _) _ _ |- _ => apply trace_Ret_inv in H' as [-> ->] end.
  split; reflexivity.
Qed.

Lemma trace_get_deadline_inv tr out :
  trace get_deadline tr out -> exists t, tr = [EvTimeTime t] /\ out = Ok (t + 1800).
Proof.
  unfold get_deadline. intros H.
  apply trace_bind_inv in H as [(e & H & ->) | (x & tr1 & tr2 & H & Hk & ->)];
    apply trace_time_time_inv in H as (t & -> & Ht).
  - discriminate Ht.
  - injection Ht as <-. apply trace_Ret_inv in Hk as [-> ->]. exists x. split; reflexivity.
Qed.

(** [get_token_balance] asks for the wallet address, then reads [balanceOf];
    whatever fails comes out as a [ValueError]. *)
Lemma trace_get_token_balance_inv token_address tr out :
  trace (get_token_balance token_address) tr out ->
  (exists e, tr = [EvGetAddress (Raise e)] /\
             out = Raise (ValueError ("Could not get token balance: " +:+ exn_str e))) \/
  (exists owner c r,
      tr = [EvGetAddress (Ok owner); EvReadContract c ERC20_ABI "balanceOf" [PStr owner] r] /\
      out = match r with
            | Ok v => Ok v
            | Raise e => Raise (ValueError ("Could not get token balance: " +:+ exn_str e))
            end).
Proof.
  unfold get_token_balance. intros H.
  apply trace_try_except_inv in H as [(v & H & ->) | (e & tr1 & tr2 & H & Hh & ->)].
  - apply trace_bind_inv in H as [(e & _ & He) | (owner & tr1 & tr2 & Ha & Hr & ->)];
      [discriminate He|].
    apply trace_get_address_inv in Ha as (r & -> & <-).
    apply trace_read_contract_inv in Hr as (r & -> & <-).
    right. eexists owner, _, (Ok v). split; reflexivity.
  - inversion Hh; subst.
    apply trace_bind_inv in H as [(e' & Ha & He) | (owner & tr1' & tr2 & Ha & Hr & ->)].
    + injection He as ->. apply trace_get_address_inv in Ha as (r & -> & <-).
      left. exists e'. split; reflexivity.
    + apply trace_get_address_inv in Ha as (r & -> & <-).
      apply trace_read_contract_inv in Hr as (r & -> & <-).
      right. eexists owner, _, (Raise e). split; reflexivity.
Qed.

Lemma trace_report_failure_inv E e tr out :
  trace (report_failure E e) tr out ->
  tr = [EvPrint (detailed_error E e)] /\
  out = Ok ("Error creating Uniswap V3 liquidity position: " +:+ exn_str e +:+ tick_hint).
Proof.
  unfold report_failure. intros H.
  apply trace_bind_inv in H as [(e' & H & _) | (x & tr1 & tr2 & H & Hk & ->)];
    apply trace_print_inv in H as [-> Hout]; [discriminate Hout|].
  apply trace_Ret_inv in Hk as [-> ->]. split; reflexivity.
Qed.

(** One step of taking the trace of a composed handler apart: sequencing,
    exception handling, calls of the provider, and the branches the handler
    takes on what it computed. *)
Ltac trace_step :=
  match goal with
  | H : trace (bind _ _) _ _ |- _ =>
      apply trace_bind_inv in H; destruct H as [(? & H & ?) | (? & ? & ? & H & ? & ?)]; subst
  | H : trace (try_except _ _) _ _ |- _ =>
      apply trace_try_except_inv in H;
      destruct H as [(? & H & ?) | (? & ? & ? & H & ? & ?)]; subst
  | H : trace (attempt _) _ _ |- _ =>
      apply trace_attempt_inv in H; destruct H as (? & ? & H); subst
  | H : trace (lift _) _ _ |- _ =>
      apply trace_lift_inv in H; destruct H as [? ?]; subst
  | H : trace (Ret _) _ _ |- _ =>
      apply trace_Ret_inv in H; destruct H as [? ?]; subst
  | H : trace (Throw _) _ _ |- _ => inversion H; subst; clear H
  | H : trace get_network _ _ |- _ =>
      apply trace_get_network_inv in H; destruct H as (? & ? & ?); subst
  | H : trace get_address _ _ |- _ =>
      apply trace_get_address_inv in H; destruct H as (? & ? & ?); subst
  | H : trace get_web3 _ _ |- _ =>
      apply trace_get_web3_inv in H; destruct H as (? & ? & ?); subst
  | H : trace (read_contract _ _ _ _) _ _ |- _ =>
      apply trace_read_contract_inv in H; destruct H as (? & ? & ?); subst
  | H : trace (send_transaction _) _ _ |- _ =>
      apply trace_send_transaction_inv in H; destruct H as (? & ? & ?); subst
  | H : trace (wait_for_transaction_receipt _) _ _ |- _ =>
      apply trace_wait_for_transaction_receipt_inv in H; destruct H as (? & ? & ?); subst
  | H : trace get_deadline _ _ |- _ =>
      apply trace_get_deadline_inv in H; destruct H as (? & ? & ?); subst
  | H : trace (print _) _ _ |- _ =>
      apply trace_print_inv in H; destruct H as [? ?]; subst
  | H : trace (get_token_balance _) _ _ |- _ =>
      apply trace_get_token_balance_inv in H;
      destruct H as [(? & ? & ?) | (? & ? & ? & ? & ?)]; subst
  | H : trace (report_failure _ _) _ _ |- _ =>
      apply trace_report_failure_inv in H; destruct H as [? ?]; subst
  | H : trace (if ?b then _ else _) _ _ |- _ => destruct b eqn:?
  | H : trace (match ?x with _ => _ end) _ _ |- _ => destruct x eqn:?
  | H : trace ((fun _ => _) _) _ _ |- _ => cbv beta in H
  end.

(** Equations between outcomes, simplified or refuted; a result that is
    known is put in place. *)
Ltac tidy :=
  repeat match goal with
         | H1 : ?f = Ok ?a, H2 : Ok _ = ?f |- _ => rewrite H1 in H2
         | H1 : ?f = Ok ?a, H2 : Raise _ = ?f |- _ => rewrite H1 in H2
         | H : Ok _ = Ok _ |- _ => injection H as H; try subst
         | H : Raise _ = Raise _ |- _ => injection H as H; try subst
         | H : Ok _ = Raise _ |- _ => discriminate H
         | H : Raise _ = Ok _ |- _ => discriminate H
         end.

(** ** Exceptions at the handler boundary *)

(** Every trace of [create_liquidity] ends with a returned string. *)
Lemma create_liquidity_never_raises E args tr out :
  trace (create_liquidity E args) tr out -> exists message, out = Ok message.
Proof.
  unfold create_liquidity. intros H.
  apply trace_try_except_inv in H as [(x & _ & ->) | (e & tr1 & tr2 & _ & H & _)].
  - exists x. reflexivity.
  - apply trace_report_failure_inv in H as (_ & ->). eexists. reflexivity.
Qed.

(** Against any wallet provider, [create_liquidity] returns a string. *)
Lemma create_liquidity_returns E (P : provider) args :
  exists message tr, run P (create_liquidity E args) [] = (Ok message, tr).
Proof.
  destruct (run P (create_liquidity E args) []) as [out tr] eqn:Hrun.
  destruct (create_liquidity_never_raises E args tr out (run_trace P _ _ _ _ Hrun)) as (m & ->).
  exists m, tr. reflexivity.
Qed.

(** C1 does not hold of [get_price]: on a wallet that reports chain id 1
    under a network id other than ["ethereum-mainnet"] (["mainnet"], say),
    which [supports_network] accepts, the factory address is looked up by
    network id and the [KeyError] reaches the caller; so does a validation
    error of the arguments.  [create_liquidity] returns a string on the
    same inputs. *)
Theorem get_price_raises_to_the_caller (E : externals) (args : raw_args E) (P : provider)
    (network : Network) :
  wp_get_network P [] = Ok network ->
  protocol_family network = "evm" ->
  chain_id network = "1" ->
  network_id network <> "ethereum-mainnet" ->
  supports_network network = true /\
  (forall validated_args, validate_get_price E args = Ok validated_args ->
     run P (get_price E args) []
     = (Raise (KeyError (network_id network)), [EvGetNetwork (Ok network)])) /\
  (forall e, validate_get_price E args = Raise e ->
     run P (get_price E args) [] = (Raise e, [])) /\
  (exists message tr, run P (create_liquidity E args) [] = (Ok message, tr)).
Proof.
  intros Hnet Hfamily Hchain Hid.
  assert (Hsup : supports_network network = true)
    by (unfold supports_network; rewrite Hfamily, Hchain; reflexivity).
  refine (conj Hsup (conj _ (conj _ _))).
  - intros v Hv. unfold get_price. rewrite Hv.
    assert (Hweth : exists weth, _get_asset_address network "weth" = Ok weth)
      by (unfold _get_asset_address; rewrite Hchain; eexists; vm_compute; reflexivity).
    assert (Husdc : exists usdc, _get_asset_address network "usdc" = Ok usdc)
      by (unfold _get_asset_address; rewrite Hchain; eexists; vm_compute; reflexivity).
    assert (Hfactory : dict_get UNISWAP_V3_FACTORY_ADDRESS (network_id network)
                       = Raise (KeyError (network_id network))).
    { unfold dict_get, UNISWAP_V3_FACTORY_ADDRESS.
      rewrite lookup_singleton_ne by congruence. reflexivity. }
    destruct Hweth as (weth & Hweth). destruct Husdc as (usdc & Husdc).
    cbn [lift bind get_network run]. rewrite Hnet.
    unfold returned. cbn [lift bind]. rewrite Hsup, Hweth, Husdc, Hfactory.
    reflexivity.
  - intros e He. unfold get_price. rewrite He. reflexivity.
  - apply create_liquidity_returns.
Qed.

Lemma get_price_raises_to_the_caller_witness :
  run Example.wallet_short_id (get_price Example.env Example.request) []
  = (Raise (KeyError "mainnet"), [EvGetNetwork (Ok Example.mainnet_short_id)]) /\
  (exists message tr,
      run Example.wallet_short_id (create_liquidity Example.env Example.request) []
      = (Ok message, tr)).
Proof.
  pose proof (get_price_raises_to_the_caller Example.env Example.request
                Example.wallet_short_id Example.mainnet_short_id
                eq_refl eq_refl eq_refl ltac:(discriminate)) as (_ & Hraise & _ & Hreturns).
  split.
  - exact (Hraise _ eq_refl).
  - exact Hreturns.
Defined.

(** ** [get_price] *)

(** C6: whenever the [getPool] read fails or answers the zero address,
    [get_price] returns the fetch-failure or the no-pool-found string, and
    [slot0] is not read. *)
Theorem get_price_without_pool_skips_slot0 E args tr out r :
  trace (get_price E args) tr out ->
  In r (reads_of "getPool" tr) ->
  r = Ok (PStr ZERO_ADDRESS) \/ (exists e, r = Raise e) ->
  (exists v, validate_get_price E args = Ok v /\
     (out = Ok ("Error: No pool found for fee tier " +:+ str_of_int (gp_fee_tier v)) \/
      exists e, out = Ok ("Error: Failed to fetch pool address: " +:+ exn_str e))) /\
  reads_of "slot0" tr = [].
Proof.
  unfold get_price. intros H Hin Hr.
  repeat (trace_step; try discriminate).
  all: cbn in Hin; try contradiction.
  all: destruct Hin as [<- | []].
  all: destruct Hr as [-> | (e' & ->)]; tidy.
  all: try match goal with
           | H : PyVal.eq_str _ _ = false |- _ => vm_compute in H; discriminate H
           end.
  all: (split; [|reflexivity]).
  all: eexists; (split; [symmetry; eassumption|]).
  - left. reflexivity.
  - right. eexists. reflexivity.
Qed.

Lemma get_price_without_pool_skips_slot0_witness :
  fst Example.price_without_pool = Ok "Error: No pool found for fee tier 3000" /\
  reads_of "slot0" (snd Example.price_without_pool) = [].
Proof.
  pose proof (get_price_without_pool_skips_slot0 Example.env Example.request
                (snd Example.price_without_pool) (fst Example.price_without_pool)
                (Ok (PStr ZERO_ADDRESS))
                (run_trace_pair Example.wallet_without_pool _ [] _
                   (eq_refl : run Example.wallet_without_pool
                                (get_price Example.env Example.request) []
                              = Example.price_without_pool))
                ltac:(vm_compute; left; reflexivity)
                ltac:(left; reflexivity))
    as ((v & Hv & Hout) & Hslot0).
  split; [|exact Hslot0].
  injection Hv as <-.
  destruct Hout as [Hout | (e & Hout)]; [exact Hout | discriminate Hout].
Defined.

Lemma ASSET_DECIMALS_weth : dict_get ASSET_DECIMALS "weth" = Ok 18%nat.
Proof. reflexivity. Qed.

Lemma ASSET_DECIMALS_usdc : dict_get ASSET_DECIMALS "usdc" = Ok 6%nat.
Proof. reflexivity. Qed.








(** ** [format_amount_from_decimals] on balances *)

Lemma length_nat_digits_fuel fuel n acc :
  (String.length (nat_digits fuel n acc) <= fuel + String.length acc)%nat.
Proof.
  revert n acc. induction fuel as [|fuel IH]; intros n acc; cbn [nat_digits]; [lia|].
  destruct (n <? 10).
  - cbn [String.length]. lia.
  - etransitivity; [apply IH|]. cbn [String.length]. lia.
Qed.

Lemma len_int_log2 c k : 0 < c < 2 ^ k -> PyDecimal.len_int c <= k.
Proof.
  intros Hc. unfold PyDecimal.len_int, str_of_nonneg.
  pose proof (length_nat_digits_fuel (S (Z.to_nat (Z.log2 c))) c "") as H.
  cbn [String.length] in H.
  assert (0 <= k).
  { destruct (Z.le_gt_cases 0 k) as [Hk|Hk]; [exact Hk|].
    rewrite Z.pow_neg_r in Hc by lia. lia. }
  assert (Z.log2 c < k) by (apply Z.log2_lt_pow2; lia).
  pose proof (Z.log2_nonneg c). lia.
Qed.

Lemma len_int_pos c : 1 <= PyDecimal.len_int c.
Proof.
  unfold PyDecimal.len_int, str_of_nonneg. cbn [nat_digits].
  destruct (c <? 10).
  - cbn. lia.
  - generalize (Z.to_nat (Z.log2 c)) as fuel, (c / 10) as n.
    intros fuel n.
    assert (H : forall fuel n acc,
               (String.length acc <= String.length (nat_digits fuel n acc))%nat).
    { clear. induction fuel as [|fuel IH]; intros n acc; cbn [nat_digits]; [lia|].
      destruct (n <? 10); [cbn; lia|].
      etransitivity; [|apply IH]. cbn. lia. }
    specialize (H fuel n (String (ascii_of_N (Z.to_N (48 + c mod 10))) "")).
    cbn [String.length] in H. lia.
Qed.

(** Far from the exponent limits, the context never raises. *)
Lemma fix_returns sg c e :
  0 <= c < 2 ^ 900 -> e <= 1000 -> exists d, PyDecimal.fix_ (PyDecimal.Dec sg c e) = Ok d.
Proof.
  intros Hc He. unfold PyDecimal.fix_.
  destruct (c =? 0) eqn:Hz; [eexists; reflexivity|].
  apply Z.eqb_neq in Hz.
  pose proof (len_int_log2 c 900 ltac:(lia)) as Hlen.
  unfold PyDecimal.Etop, PyDecimal.Etiny, PyDecimal.Emax, PyDecimal.Emin, PyDecimal.prec.
  replace (999999 - 28 + 1 <? PyDecimal.len_int c + e - 28) with false
    by (symmetry; apply Z.ltb_ge; lia).
  set (exp_min := if PyDecimal.len_int c + e - 28 <? -999999 - 28 + 1
                  then -999999 - 28 + 1 else PyDecimal.len_int c + e - 28).
  assert (Hmin : exp_min <= 2000) by (unfold exp_min; destruct (_ <? _); lia).
  destruct (e <? exp_min); [|eexists; reflexivity].
  destruct (28 <? PyDecimal.len_int _).
  - replace (999999 - 28 + 1 <? exp_min + 1) with false by (symmetry; apply Z.ltb_ge; lia).
    eexists; reflexivity.
  - replace (999999 - 28 + 1 <? exp_min) with false by (symmetry; apply Z.ltb_ge; lia).
    eexists; reflexivity.
Qed.

Lemma strip_zeros_bounds fuel ideal_exp coeff exp :
  0 <= coeff ->
  0 <= fst (PyDecimal.strip_zeros fuel ideal_exp coeff exp) <= coeff /\
  snd (PyDecimal.strip_zeros fuel ideal_exp coeff exp) <= Z.max exp ideal_exp.
Proof.
  revert coeff exp. induction fuel as [|fuel IH]; intros coeff exp Hc;
    cbn [PyDecimal.strip_zeros].
  - cbn. lia.
  - destruct ((exp <? ideal_exp) && (coeff mod 10 =? 0)) eqn:Hb; [|cbn; lia].
    apply andb_true_iff in Hb as [He _]. apply Z.ltb_lt in He.
    assert (H10 : 0 <= coeff / 10 <= coeff).
    { split; [apply Z.div_pos; lia | apply Z.div_le_upper_bound; lia]. }
    destruct (IH (coeff / 10) (exp + 1) (proj1 H10)) as [H1 H2]. lia.
Qed.

Lemma pow10_le_pow2 k : 0 <= k -> 10 ^ k <= 2 ^ (4 * k).
Proof.
  intros Hk. rewrite Z.pow_mul_r by lia. change (2 ^ 4) with 16.
  apply Z.pow_le_mono_l. lia.
Qed.

(** Dividing a number below [2^256] by a positive integer of at most 101
    digits never raises. *)
Lemma truediv_returns sx cx sy cy :
  0 < cx < 2 ^ 256 -> 0 < cy -> PyDecimal.len_int cy <= 101 ->
  exists d, PyDecimal.truediv (PyDecimal.Dec sx cx 0) (PyDecimal.Dec sy cy 0) = Ok d.
Proof.
  intros Hx Hy Hleny. unfold PyDecimal.truediv.
  cbn [PyDecimal.d_sign PyDecimal.d_int PyDecimal.d_exp].
  replace (cy =? 0) with false by (symmetry; apply Z.eqb_neq; lia).
  replace (cx =? 0) with false by (symmetry; apply Z.eqb_neq; lia).
  pose proof (len_int_pos cy) as Hleny1.
  pose proof (len_int_pos cx) as Hlenx1.
  pose proof (len_int_log2 cx 256 Hx) as Hlenx.
  unfold PyDecimal.prec.
  generalize dependent (PyDecimal.len_int cy). intros len_y Hleny Hleny1.
  generalize dependent (PyDecimal.len_int cx). intros len_x Hlenx1 Hlenx.
  set (shift := len_y - len_x + 28 + 1).
  assert (Hshift : -230 <= shift <= 130) by (unfold shift; lia).
  clearbody shift.
  assert (H800 : 2 ^ 800 < 2 ^ 900) by (apply Z.pow_lt_mono_r; lia).
  assert (Hquot : exists coeff remainder,
             (if 0 <=? shift
              then Z.div_eucl (cx * 10 ^ shift) cy
              else Z.div_eucl cx (cy * 10 ^ (- shift)))
             = (coeff, remainder) /\ 0 <= coeff < 2 ^ 800).
  { destruct (0 <=? shift) eqn:Hs.
    - apply Z.leb_le in Hs.
      destruct (Z.div_eucl (cx * 10 ^ shift) cy) as [q r] eqn:Hq.
      exists q, r. split; [reflexivity|].
      assert (Hq' : q = cx * 10 ^ shift / cy) by (unfold Z.div; rewrite Hq; reflexivity).
      assert (Hnum : 0 <= cx * 10 ^ shift < 2 ^ 800).
      { pose proof (pow10_le_pow2 shift Hs) as H10.
        assert (0 < 10 ^ shift) by (apply Z.pow_pos_nonneg; lia).
        assert (2 ^ (4 * shift) <= 2 ^ 520) by (apply Z.pow_le_mono_r; lia).
        change (2 ^ 800) with (2 ^ 256 * 2 ^ 544).
        assert (2 ^ 520 < 2 ^ 544) by (apply Z.pow_lt_mono_r; lia).
        nia. }
      rewrite Hq'. split; [apply Z.div_pos; lia|].
      apply Z.div_lt_upper_bound; [lia|]. nia.
    - apply Z.leb_gt in Hs.
      assert (Hden : 0 < cy * 10 ^ (- shift)).
      { apply Z.mul_pos_pos; [lia | apply Z.pow_pos_nonneg; lia]. }
      destruct (Z.div_eucl cx (cy * 10 ^ (- shift))) as [q r] eqn:Hq.
      exists q, r. split; [reflexivity|].
      assert (Hq' : q = cx / (cy * 10 ^ (- shift))) by (unfold Z.div; rewrite Hq; reflexivity).
      rewrite Hq'. split; [apply Z.div_pos; lia|].
      apply Z.div_lt_upper_bound; [lia|].
      assert (2 ^ 256 < 2 ^ 800) by (apply Z.pow_lt_mono_r; lia). nia. }
  destruct Hquot as (coeff & remainder & -> & Hcoeff).
  destruct (remainder =? 0).
  - pose proof (strip_zeros_bounds (Z.to_nat (0 - 0 - (0 - 0 - shift))) (0 - 0) coeff
                  (0 - 0 - shift) (proj1 Hcoeff)) as [H1 H2].
    destruct (PyDecimal.strip_zeros _ _ _ _) as [c' e']. cbn [fst snd] in *.
    apply fix_returns; lia.
  - apply fix_returns; [|lia].
    destruct (coeff mod 5 =? 0); lia.
Qed.

(** A balance below [2^256] is always formatted. *)
Lemma format_amount_from_decimals_returns amount decimals :
  0 <= amount < 2 ^ 256 -> (decimals <= 100)%nat ->
  exists formatted, format_amount_from_decimals amount decimals = Ok formatted.
Proof.
  intros Ha Hd. unfold format_amount_from_decimals.
  destruct (amount =? 0) eqn:Hz; [eexists; reflexivity|].
  apply Z.eqb_neq in Hz.
  assert (Hpow : 0 < 10 ^ Z.of_nat decimals) by (apply Z.pow_pos_nonneg; lia).
  enough (exists d, PyDecimal.truediv (PyDecimal.of_int amount)
                      (PyDecimal.of_int (10 ^ Z.of_nat decimals)) = Ok d) as (d & ->)
    by (eexists; reflexivity).
  unfold PyDecimal.of_int. rewrite !Z.abs_eq by lia.
  apply truediv_returns; [lia | lia |].
  etransitivity; [apply (len_int_le _ (S decimals)); [|lia]|lia].
  rewrite Nat2Z.inj_succ, Z.pow_succ_r by lia. lia.
Qed.

(** ** [create_liquidity] *)

(** C5 does not hold of the code.  A wallet holds 150000000 wei, which is
    0.00000000015 WETH, and 0.5 WETH is requested: the string returned says
    [You have 1.5E-1 WETH].  [format_amount_from_decimals] has removed the
    last digit of the exponent of ["1.5E-10"], and the text that is left
    reads as 0.15 WETH, a billion times the balance held.  (No transaction is
    sent, as the claim says.) *)
Theorem create_liquidity_misreports_small_balance :
  trace (create_liquidity Example.env Example.request)
    (snd Scenario.liquidity_dust) (fst Scenario.liquidity_dust) /\
  balance_reads (snd Scenario.liquidity_dust)
  = [Ok (PInt 150000000); Ok (PInt 5000000000)] /\
  format_amount_with_decimals (amount_weth Example.liquidity_request) 18
  = Ok 500000000000000000 /\
  fst Scenario.liquidity_dust
  = Ok "Error: Insufficient WETH balance. You have 1.5E-1 WETH, but need 0.5 WETH" /\
  sent_transactions (snd Scenario.liquidity_dust) = [] /\
  format_amount_with_decimals "1.5E-1" 18 = Ok 150000000000000000 /\
  format_amount_with_decimals "0.00000000015" 18 = Ok 150000000.
Proof.
  split.
  - exact (run_trace_pair Scenario.dust_wallet _ [] _
             (eq_refl : run Scenario.dust_wallet
                          (create_liquidity Example.env Example.request) []
                        = Scenario.liquidity_dust)).
  - repeat apply conj; vm_compute; reflexivity.
Qed.

(** What [create_liquidity] mints: the transaction sent with the gas limit
    carries the encoding of a tuple whose fee and ticks come from
    [tick_spacing_for] and [align_ticks], whose amounts are the parsed ones
    (USDC first) with their slippage minimums; the warning about an unknown
    fee tier is printed before it is sent. *)
Lemma create_liquidity_mint E args v tr out p :
  validate_create_liquidity E args = Ok v ->
  trace (create_liquidity E args) tr out ->
  mint_sent tr = Some p ->
  exists contract mint,
    encode_mint E contract mint = Ok (tx_data p) /\
    fee mint = snd (fst (tick_spacing_for (fee_tier v))) /\
    (tickLower mint, tickUpper mint)
    = align_ticks (tick_lower v) (tick_upper v) (fst (fst (tick_spacing_for (fee_tier v)))) /\
    (snd (tick_spacing_for (fee_tier v)) = true ->
     In (fee_tier_warning (fee_tier v)) (printed (before_mint tr))) /\
    format_amount_with_decimals (amount_usdc v) 6 = Ok (amount0Desired mint) /\
    format_amount_with_decimals (amount_weth v) 18 = Ok (amount1Desired mint) /\
    calculate_slippage_amounts (amount0Desired mint) (slippage v) = Ok (amount0Min mint) /\
    calculate_slippage_amounts (amount1Desired mint) (slippage v) = Ok (amount1Min mint).
Proof.
  intros Hv H Hmint.
  pose proof ASSET_DECIMALS_weth as Hdw. pose proof ASSET_DECIMALS_usdc as Hdu.
  unfold create_liquidity, mint_position, approve_token in H.
  repeat (trace_step; try discriminate).
  all: cbn in Hmint; try discriminate Hmint.
  all: injection Hmint as <-.
  all: tidy.
  all: match goal with
       | Ht : tick_spacing_for _ = _, Ha : align_ticks _ _ _ = _,
         Hm : Ok _ = encode_mint _ _ _ |- _ =>
           rewrite Ht; cbn [fst snd]; rewrite Ha;
           eexists _, _; split; [symmetry; exact Hm|]
       end.
  all: cbn [fee tickLower tickUpper amount0Desired amount1Desired amount0Min amount1Min].
  all: repeat apply conj; try reflexivity; try (symmetry; assumption).
  all: intros Hwarn; try discriminate Hwarn.
  all: cbn [app before_mint printed is_mint tx_gas In]; unfold fee_tier_warning.
  all: repeat (first [left; reflexivity | right]).
Qed.

Lemma tick_spacing_for_positive requested : 0 < fst (fst (tick_spacing_for requested)).
Proof.
  unfold tick_spacing_for.
  destruct (requested =? 500); [cbn; lia|].
  destruct (requested =? 3000); [cbn; lia|].
  destruct (requested =? 10000); cbn; lia.
Qed.

Lemma align_ticks_ordered tick_lower tick_upper tick_spacing :
  0 < tick_spacing ->
  fst (align_ticks tick_lower tick_upper tick_spacing)
  < snd (align_ticks tick_lower tick_upper tick_spacing).
Proof.
  intros Hs. unfold align_ticks. cbv zeta. cbn [fst snd].
  destruct (_ <=? _) eqn:Hle; [lia | apply Z.leb_gt in Hle; exact Hle].
Qed.

(** C4: with a positive spacing each requested tick is rounded down to the
    largest multiple of the spacing that does not exceed it, the upper tick
    is replaced by lower + spacing when it does not exceed the rounded lower
    tick, and the final upper tick is strictly above the final lower tick;
    the position that [create_liquidity] mints has exactly these ticks, for
    the spacing of its fee tier. *)
Theorem align_ticks_rounds_down_and_orders (requested_lower requested_upper spacing : Z) :
  0 < spacing ->
  let rounded_upper := requested_upper / spacing * spacing in
  let '(lower, upper) := align_ticks requested_lower requested_upper spacing in
  Stated.largest_multiple_below spacing requested_lower lower /\
  Stated.largest_multiple_below spacing requested_upper rounded_upper /\
  upper = (if rounded_upper <=? lower then lower + spacing else rounded_upper) /\
  lower < upper /\
  align_ticks (-50) 10 60 = (-60, 0) /\
  align_ticks (-60000) 60000 60 = (-60000, 60000) /\
  forall E args v tr out p,
    validate_create_liquidity E args = Ok v ->
    trace (create_liquidity E args) tr out ->
    mint_sent tr = Some p ->
    exists contract mint,
      encode_mint E contract mint = Ok (tx_data p) /\
      (tickLower mint, tickUpper mint)
      = align_ticks (tick_lower v) (tick_upper v)
          (fst (fst (tick_spacing_for (fee_tier v)))) /\
      tickLower mint < tickUpper mint.
Proof.
  intros Hs. unfold align_ticks at 1. cbv zeta.
  refine (conj _ (conj _ (conj _ (conj _ (conj _ (conj _ _)))))).
  - apply floor_multiple. exact Hs.
  - apply floor_multiple. exact Hs.
  - reflexivity.
  - destruct (_ <=? _) eqn:Hle; [lia | apply Z.leb_gt in Hle; exact Hle].
  - reflexivity.
  - reflexivity.
  - intros E args v tr out p Hv Htr Hmint.
    destruct (create_liquidity_mint E args v tr out p Hv Htr Hmint)
      as (contract & mint & Henc & _ & Hticks & _).
    exists contract, mint. refine (conj Henc (conj Hticks _)).
    pose proof (align_ticks_ordered (tick_lower v) (tick_upper v) _
                  (tick_spacing_for_positive (fee_tier v))) as Hord.
    rewrite <- Hticks in Hord. exact Hord.
Qed.

Lemma align_ticks_rounds_down_and_orders_witness :
  Stated.largest_multiple_below 60 (-50) (-60) /\ -60 < 0.
Proof.
  pose proof (align_ticks_rounds_down_and_orders (-50) 10 60 ltac:(lia))
    as (H1 & _ & _ & H4 & _).
  exact (conj H1 H4).
Defined.

(** C8: the tick spacing is 10, 60 and 200 for the fee tiers 500, 3000 and
    10000; any other fee tier, 7777 for one, is replaced by 500 with spacing
    10; the position that [create_liquidity] mints carries the fee and the
    spacing so determined, and for an unknown fee tier the warning has been
    printed before the mint is sent. *)
Theorem fee_tier_spacing_and_fallback :
  tick_spacing_for 500 = (10, 500, false) /\
  tick_spacing_for 3000 = (60, 3000, false) /\
  tick_spacing_for 10000 = (200, 10000, false) /\
  (forall requested,
      requested <> 500 -> requested <> 3000 -> requested <> 10000 ->
      tick_spacing_for requested = (10, 500, true)) /\
  tick_spacing_for 7777 = (10, 500, true) /\
  forall E args v tr out p,
    validate_create_liquidity E args = Ok v ->
    trace (create_liquidity E args) tr out ->
    mint_sent tr = Some p ->
    exists contract mint,
      encode_mint E contract mint = Ok (tx_data p) /\
      fee mint = snd (fst (tick_spacing_for (fee_tier v))) /\
      (tickLower mint, tickUpper mint)
      = align_ticks (tick_lower v) (tick_upper v)
          (fst (fst (tick_spacing_for (fee_tier v)))) /\
      (fee_tier v <> 500 -> fee_tier v <> 3000 -> fee_tier v <> 10000 ->
       fee mint = 500 /\
       In (fee_tier_warning (fee_tier v)) (printed (before_mint tr))).
Proof.
  assert (Hother : forall requested,
             requested <> 500 -> requested <> 3000 -> requested <> 10000 ->
             tick_spacing_for requested = (10, 500, true)).
  { intros requested H1 H2 H3. unfold tick_spacing_for.
    apply Z.eqb_neq in H1, H2, H3. rewrite H1, H2, H3. reflexivity. }
  refine (conj eq_refl (conj eq_refl (conj eq_refl (conj Hother (conj eq_refl _))))).
  intros E args v tr out p Hv Htr Hmint.
  destruct (create_liquidity_mint E args v tr out p Hv Htr Hmint)
    as (contract & mint & Henc & Hfee & Hticks & Hwarn & _).
  exists contract, mint. refine (conj Henc (conj Hfee (conj Hticks _))).
  intros H1 H2 H3. rewrite (Hother _ H1 H2 H3) in Hfee, Hwarn.
  split; [exact Hfee | apply Hwarn; reflexivity].
Qed.

Lemma fee_tier_spacing_and_fallback_witness :
  In "Warning: Unsupported fee tier 7777, defaulting to 0.05% (500)"
    (printed (before_mint (snd Example.liquidity_rich))).
Proof.
  destruct fee_tier_spacing_and_fallback as (_ & _ & _ & _ & _ & Hmint).
  destruct (Hmint Example.env Example.request Example.liquidity_request
              (snd Example.liquidity_rich) (fst Example.liquidity_rich)
              {| tx_to := "0xC36442b4a4522E871399CD717aBDD847Ab11FE88";
                 tx_data := "mint(0xA0b86991c6218b36c1d19D4a2e9Eb0cE3606eB48,0xC02aaA39b223FE8D0A0e5C4F27eAD9083C756Cc2,500,-50,10,1000000000,500000000000000000,995000000,497500000000000000,0x1111111111111111111111111111111111111111,1700001800)";
                 tx_gas := Some 3000000 |}
              eq_refl
              (run_trace_pair Example.rich_wallet _ [] _
                 (eq_refl : run Example.rich_wallet
                              (create_liquidity Example.env Example.request) []
                            = Example.liquidity_rich))
              ltac:(vm_compute; reflexivity))
    as (contract & mint & _ & _ & _ & Hwarn).
  apply Hwarn; vm_compute; discriminate.
Defined.

(** ** Slippage *)

Lemma to_int_integer_part x out :
  PyFloat.to_int x = Ok out -> out = Stated.integer_part (PyFloat.to_Q x).
Proof.
  destruct x as [sg|sg| |sg m e]; cbn [PyFloat.to_int]; intros H; try discriminate.
  - injection H as <-. reflexivity.
  - injection H as <-. unfold Stated.integer_part, PyFloat.to_Q.
    assert (Hpow : 0 < 2 ^ (- e) \/ 0 <= e).
    { destruct (Z.le_gt_cases 0 e); [right; assumption | left; apply Z.pow_pos_nonneg; lia]. }
    destruct (0 <=? e) eqn:He.
    + apply Z.leb_le in He.
      assert (Hpos : 0 < Z.pos m * 2 ^ e) by (apply Z.mul_pos_pos; [lia | apply Z.pow_pos_nonneg; lia]).
      destruct sg; cbn [Qopp inject_Z Qnum Qden].
      * replace (- (Z.pos m * 2 ^ e) <? 0) with true by (symmetry; apply Z.ltb_lt; lia).
        unfold Qceiling, Qfloor, Qopp, inject_Z. cbn [Qnum Qden].
        rewrite Z.opp_involutive, Z.div_1_r. reflexivity.
      * replace (Z.pos m * 2 ^ e <? 0) with false by (symmetry; apply Z.ltb_ge; lia).
        unfold Qfloor, inject_Z. cbn [Qnum Qden]. rewrite Z.div_1_r. reflexivity.
    + apply Z.leb_gt in He. destruct Hpow as [Hpow|Hpow]; [|lia].
      destruct sg; cbn [Qopp Qnum Qden].
      * unfold Qceiling, Qfloor, Qopp. cbn [Qnum Qden].
        rewrite Z.opp_involutive, Z2Pos.id by lia. reflexivity.
      * unfold Qfloor. cbn [Qnum Qden Z.ltb Z.compare]. rewrite Z2Pos.id by lia. reflexivity.
Qed.

(** C2, as stated, fails: the product is formed in doubles.  With the
    default slippage 0.5 the amount 3000000000000000007 gives
    2985000000000000000 where the exact floor is 2985000000000000006; with
    slippage 7 the amount 500 gives 464 where the exact floor is 465. *)
Lemma calculate_slippage_amounts_not_exact :
  (PyFloat.to_Q Example.half == 1 # 2)%Q /\
  calculate_slippage_amounts 3000000000000000007 Example.half = Ok 2985000000000000000 /\
  Stated.apply_slippage 3000000000000000007 (1 # 2) = 2985000000000000006 /\
  (PyFloat.to_Q Example.seven == 7)%Q /\
  calculate_slippage_amounts 500 Example.seven = Ok 464 /\
  Stated.apply_slippage 500 7 = 465.
Proof.
  repeat apply conj; vm_compute; reflexivity.
Qed.

(** C2, as amended: whenever [float(amount)] and its product with
    [1 - s / 100.0] are finite doubles, each operation being rounded to the
    nearest double, [calculate_slippage_amounts amount s] returns the integer
    part of that product; for the amount 1000000 and the slippage 0.5 it is
    995000. *)
Theorem calculate_slippage_amounts_truncates_double (amount : Z) (s amount_f : PyFloat.float) :
  PyFloat.of_int amount = Ok amount_f ->
  let product :=
    PyFloat.fmul amount_f (PyFloat.fsub PyFloat.one (PyFloat.fdiv s PyFloat.hundred)) in
  PyFloat.is_finite product = true ->
  calculate_slippage_amounts amount s = Ok (Stated.integer_part (PyFloat.to_Q product)) /\
  calculate_slippage_amounts 1000000 Example.half = Ok 995000 /\
  Stated.apply_slippage 1000000 (1 # 2) = 995000.
Proof.
  intros Hf product Hfinite. refine (conj _ (conj _ _)).
  - unfold calculate_slippage_amounts. rewrite Hf. cbn [rbind]. fold product.
    destruct (PyFloat.to_int product) as [out|e] eqn:Hout.
    + f_equal. apply to_int_integer_part. exact Hout.
    + destruct product; cbn in Hfinite, Hout; discriminate.
  - vm_compute. reflexivity.
  - vm_compute. reflexivity.
Qed.

Lemma calculate_slippage_amounts_truncates_double_witness :
  calculate_slippage_amounts 500 Example.seven = Ok 464 /\
  calculate_slippage_amounts 3000000000000000007 Example.half = Ok 2985000000000000000.
Proof.
  split.
  - exact (proj1 (calculate_slippage_amounts_truncates_double 500 Example.seven
                    (S754_finite false 8796093022208000 (-44)) eq_refl eq_refl)).
  - exact (proj1 (calculate_slippage_amounts_truncates_double 3000000000000000007
                    Example.half (S754_finite false 5859375000000000 9) eq_refl eq_refl)).
Defined.

(** * Further properties of the handlers and helpers *)

(** ** Networks *)

Lemma supports_network_false network :
  protocol_family network <> "evm" \/
  (chain_id network <> "1" /\ network_id network <> "mainnet"
   /\ network_id network <> "ethereum-mainnet") ->
  supports_network network = false.
Proof.
  unfold supports_network. cbn [existsb].
  intros [H | (H1 & H2 & H3)].
  - apply String.eqb_neq in H. rewrite H. reflexivity.
  - apply String.eqb_neq in H1, H2, H3. rewrite H1, H2, H3.
    rewrite andb_false_r. reflexivity.
Qed.

(** X1: on a network that is not of the EVM family, or whose chain id is
    not 1 and whose network id is neither ["mainnet"] nor
    ["ethereum-mainnet"], both handlers return the not-supported message,
    and the query of the network is their only call of the wallet
    provider. *)
Theorem unsupported_network_is_refused E (args : raw_args E) network rest out :
  protocol_family network <> "evm" \/
  (chain_id network <> "1" /\ network_id network <> "mainnet"
   /\ network_id network <> "ethereum-mainnet") ->
  trace (create_liquidity E args) (EvGetNetwork (Ok network) :: rest) out \/
  trace (get_price E args) (EvGetNetwork (Ok network) :: rest) out ->
  rest = [] /\
  out = Ok ("Error: Network " +:+ network_id network +:+ " is not supported by Uniswap V3").
Proof.
  intros Hnet H. apply supports_network_false in Hnet.
  remember (EvGetNetwork (Ok network) :: rest) as tr eqn:Htr.
  assert (Hhd : hd_error tr = Some (EvGetNetwork (Ok network))) by (subst tr; reflexivity).
  assert (Htl : tl tr = rest) by (subst tr; reflexivity).
  clear Htr.
  destruct H as [H | H]; [unfold create_liquidity in H | unfold get_price in H].
  all: repeat (trace_step; try discriminate).
  all: cbn in Hhd; try discriminate Hhd.
  all: injection Hhd as ->.
  all: try match goal with
           | H : negb (supports_network _) = false |- _ => rewrite Hnet in H; discriminate H
           end.
  all: tidy; cbn; split; reflexivity.
Qed.

Lemma unsupported_network_is_refused_witness :
  fst Scenario.liquidity_sepolia
  = Ok "Error: Network ethereum-sepolia is not supported by Uniswap V3" /\
  tl (snd Scenario.liquidity_sepolia) = [].
Proof.
  destruct (unsupported_network_is_refused Example.env Example.request Scenario.sepolia
              (tl (snd Scenario.liquidity_sepolia)) (fst Scenario.liquidity_sepolia)
              ltac:(right; repeat split; discriminate)
              (or_introl
                 (run_trace_pair (Scenario.on Scenario.sepolia) _ [] _
                    (eq_refl : run (Scenario.on Scenario.sepolia)
                                 (create_liquidity Example.env Example.request) []
                               = Scenario.liquidity_sepolia))))
    as [Hrest Hout].
  exact (conj Hout Hrest).
Defined.

(** ** Address resolution *)

Lemma position_manager_unavailable network :
  chain_id network <> "1" -> network_id network <> "ethereum-mainnet" ->
  _get_position_manager_address network
  = Raise (ValueError ("No Position Manager address available for network "
                       +:+ network_id network)).
Proof.
  intros Hc Hn. unfold _get_position_manager_address.
  apply String.eqb_neq in Hc. rewrite Hc.
  unfold dict_mem, POSITION_MANAGER_ADDRESSES.
  rewrite lookup_singleton_ne by congruence. reflexivity.
Qed.

Lemma asset_unavailable network asset_id :
  (chain_id network <> "1" /\ network_id network <> "ethereum-mainnet") \/
  (asset_id <> "weth" /\ asset_id <> "usdc") ->
  _get_asset_address network asset_id
  = Raise (ValueError ("Asset " +:+ asset_id +:+ " not supported on " +:+ network_id network)).
Proof.
  intros H. unfold _get_asset_address.
  assert (Hinner : asset_id <> "weth" -> asset_id <> "usdc" ->
            rbind (dict_get ASSET_ADDRESSES "ethereum-mainnet")
              (fun assets => dict_get assets asset_id) = Raise (KeyError asset_id)).
  { intros Hw Hu. unfold dict_get at 1, ASSET_ADDRESSES.
    rewrite lookup_singleton_eq. cbn [rbind]. unfold dict_get.
    rewrite lookup_insert_ne by congruence.
    rewrite lookup_singleton_ne by congruence. reflexivity. }
  destruct (String.eqb (chain_id network) "1") eqn:Hc.
  - apply String.eqb_eq in Hc. destruct H as [[Hc' _] | [Hw Hu]]; [contradiction|].
    rewrite (Hinner Hw Hu). reflexivity.
  - destruct (decide (network_id network = "ethereum-mainnet")) as [Hn | Hn].
    + destruct H as [[_ Hn'] | [Hw Hu]]; [contradiction|].
      rewrite Hn at 1. rewrite (Hinner Hw Hu). reflexivity.
    + unfold dict_get at 1, ASSET_ADDRESSES.
      rewrite lookup_singleton_ne by congruence. reflexivity.
Qed.

Lemma addresses_available network :
  chain_id network = "1" \/ network_id network = "ethereum-mainnet" ->
  _get_position_manager_address network = Ok "0xC36442b4a4522E871399CD717aBDD847Ab11FE88" /\
  _get_asset_address network "weth" = Ok "0xC02aaA39b223FE8D0A0e5C4F27eAD9083C756Cc2" /\
  _get_asset_address network "usdc" = Ok "0xA0b86991c6218b36c1d19D4a2e9Eb0cE3606eB48".
Proof.
  intros H. unfold _get_position_manager_address, _get_asset_address.
  destruct (String.eqb (chain_id network) "1") eqn:Hc.
  - repeat split; vm_compute; reflexivity.
  - destruct H as [H | H]; [apply String.eqb_neq in Hc; contradiction|].
    rewrite H. repeat split; vm_compute; reflexivity.
Qed.

(** X3: with chain id 1 or the network id ["ethereum-mainnet"] the position
    manager and both assets resolve to the mainnet addresses; otherwise both
    lookups raise [ValueError]; an asset other than weth and usdc raises
    [ValueError] on every network.  The [KeyError] of the table lookup never
    leaves [_get_asset_address]. *)
Theorem address_resolution (network : Network) :
  (chain_id network = "1" \/ network_id network = "ethereum-mainnet" ->
   _get_position_manager_address network = Ok "0xC36442b4a4522E871399CD717aBDD847Ab11FE88" /\
   _get_asset_address network "weth" = Ok "0xC02aaA39b223FE8D0A0e5C4F27eAD9083C756Cc2" /\
   _get_asset_address network "usdc" = Ok "0xA0b86991c6218b36c1d19D4a2e9Eb0cE3606eB48") /\
  (chain_id network <> "1" -> network_id network <> "ethereum-mainnet" ->
   _get_position_manager_address network
   = Raise (ValueError ("No Position Manager address available for network "
                        +:+ network_id network)) /\
   forall asset_id,
     _get_asset_address network asset_id
     = Raise (ValueError ("Asset " +:+ asset_id +:+ " not supported on "
                          +:+ network_id network))) /\
  (forall asset_id, asset_id <> "weth" -> asset_id <> "usdc" ->
     _get_asset_address network asset_id
     = Raise (ValueError ("Asset " +:+ asset_id +:+ " not supported on "
                          +:+ network_id network))).
Proof.
  refine (conj (addresses_available network) (conj _ _)).
  - intros Hc Hn. split.
    + apply position_manager_unavailable; assumption.
    + intros asset_id. apply asset_unavailable. left. split; assumption.
  - intros asset_id Hw Hu. apply asset_unavailable. right. split; assumption.
Qed.

Lemma address_resolution_witness :
  _get_asset_address Scenario.sepolia "weth"
  = Raise (ValueError "Asset weth not supported on ethereum-sepolia") /\
  _get_asset_address Example.mainnet_short_id "dai"
  = Raise (ValueError "Asset dai not supported on mainnet") /\
  _get_position_manager_address Example.mainnet_short_id
  = Ok "0xC36442b4a4522E871399CD717aBDD847Ab11FE88".
Proof.
  destruct (address_resolution Scenario.sepolia) as (_ & Hnone & _).
  destruct (address_resolution Example.mainnet_short_id) as (Hsome & _ & Hother).
  refine (conj _ (conj _ _)).
  - exact (proj2 (Hnone ltac:(discriminate) ltac:(discriminate)) "weth").
  - exact (Hother "dai" ltac:(discriminate) ltac:(discriminate)).
  - exact (proj1 (Hsome (or_introl eq_refl))).
Defined.

(** X2: a network that [supports_network] accepts by its id ["mainnet"]
    alone, its chain id not being 1, has no address in the tables:
    [create_liquidity] returns the position-manager error and [get_price]
    the asset-address error, after the query of the network and nothing
    else. *)
Theorem accepted_network_without_addresses E (args : raw_args E) network rest out :
  protocol_family network = "evm" ->
  chain_id network <> "1" ->
  network_id network = "mainnet" ->
  supports_network network = true /\
  (trace (create_liquidity E args) (EvGetNetwork (Ok network) :: rest) out ->
   rest = [] /\
   out = Ok ("Error: Could not get Uniswap V3 Position Manager address for mainnet: "
             +:+ "No Position Manager address available for network mainnet")) /\
  (trace (get_price E args) (EvGetNetwork (Ok network) :: rest) out ->
   rest = [] /\
   out = Ok "Error: Could not get asset addresses: Asset weth not supported on mainnet").
Proof.
  intros Hfamily Hchain Hid.
  assert (Hsup : supports_network network = true).
  { unfold supports_network. rewrite Hfamily, Hid. cbn [existsb].
    rewrite orb_true_r. reflexivity. }
  assert (Hne : network_id network <> "ethereum-mainnet") by (rewrite Hid; discriminate).
  assert (Hpm := position_manager_unavailable network Hchain Hne).
  assert (Hweth := asset_unavailable network "weth" (or_introl (conj Hchain Hne))).
  symmetry in Hpm, Hweth.
  refine (conj Hsup (conj _ _)); intros H.
  all: remember (EvGetNetwork (Ok network) :: rest) as tr eqn:Htr.
  all: assert (Hhd : hd_error tr = Some (EvGetNetwork (Ok network))) by (subst tr; reflexivity).
  all: assert (Htl : tl tr = rest) by (subst tr; reflexivity).
  all: clear Htr.
  all: [> unfold create_liquidity in H | unfold get_price in H].
  all: repeat (trace_step; try discriminate).
  all: cbn in Hhd; try discriminate Hhd.
  all: injection Hhd as ->.
  all: try match goal with
           | H : negb (supports_network _) = true |- _ => rewrite Hsup in H; discriminate H
           end.
  all: repeat match goal with
              | H : _get_position_manager_address _ = _ |- _ => rewrite <- Hpm in H
              | H : rbind (_get_asset_address _ "weth") _ = _ |- _ =>
                  rewrite <- Hweth in H; cbn [rbind] in H
              end.
  all: tidy; try discriminate.
  all: rewrite Hid; cbn; split; reflexivity.
Qed.

Lemma accepted_network_without_addresses_witness :
  fst Scenario.price_other_mainnet
  = Ok "Error: Could not get asset addresses: Asset weth not supported on mainnet" /\
  tl (snd Scenario.price_other_mainnet) = [].
Proof.
  destruct (accepted_network_without_addresses Example.env Example.request
              Scenario.other_mainnet
              (tl (snd Scenario.price_other_mainnet)) (fst Scenario.price_other_mainnet)
              eq_refl ltac:(discriminate) eq_refl) as (_ & _ & Hprice).
  destruct (Hprice (run_trace_pair (Scenario.on Scenario.other_mainnet) _ [] _
                      (eq_refl : run (Scenario.on Scenario.other_mainnet)
                                   (get_price Example.env Example.request) []
                                 = Scenario.price_other_mainnet)))
    as [Hrest Hout].
  exact (conj Hout Hrest).
Defined.

(** ** Calls of the wallet provider from [utils.py] *)

Lemma lower_workaround token_address :
  lower (if String.eqb (lower token_address) (lower WETH_MAINNET) then WETH_MAINNET
         else if String.eqb (lower token_address) (lower USDC_MAINNET) then USDC_MAINNET
         else token_address)
  = lower token_address.
Proof.
  destruct (String.eqb (lower token_address) (lower WETH_MAINNET)) eqn:Hw.
  - apply String.eqb_eq in Hw. symmetry. exact Hw.
  - destruct (String.eqb (lower token_address) (lower USDC_MAINNET)) eqn:Hu.
    + apply String.eqb_eq in Hu. symmetry. exact Hu.
    + reflexivity.
Qed.

Lemma trace_get_token_balance_address token_address tr out :
  trace (get_token_balance token_address) tr out ->
  (exists e, tr = [EvGetAddress (Raise e)] /\
             out = Raise (ValueError ("Could not get token balance: " +:+ exn_str e))) \/
  (exists owner r,
      tr = [EvGetAddress (Ok owner);
            EvReadContract (lower token_address) ERC20_ABI "balanceOf" [PStr owner] r] /\
      out = match r with
            | Ok v => Ok v
            | Raise e => Raise (ValueError ("Could not get token balance: " +:+ exn_str e))
            end).
Proof.
  unfold get_token_balance. rewrite lower_workaround. intros H.
  apply trace_try_except_inv in H as [(v & H & ->) | (e & tr1 & tr2 & H & Hh & ->)].
  - apply trace_bind_inv in H as [(e & _ & He) | (owner & tr1 & tr2 & Ha & Hr & ->)];
      [discriminate He|].
    apply trace_get_address_inv in Ha as (r & -> & <-).
    apply trace_read_contract_inv in Hr as (r & -> & <-).
    right. eexists owner, (Ok v). split; reflexivity.
  - inversion Hh; subst.
    apply trace_bind_inv in H as [(e' & Ha & He) | (owner & tr1' & tr2 & Ha & Hr & ->)].
    + injection He as ->. apply trace_get_address_inv in Ha as (r & -> & <-).
      left. exists e'. split; reflexivity.
    + apply trace_get_address_inv in Ha as (r & -> & <-).
      apply trace_read_contract_inv in Hr as (r & -> & <-).
      right. eexists owner, (Raise e). split; reflexivity.
Qed.

(** X4: [get_token_balance] asks for the wallet address, then reads
    [balanceOf] once, at the lower-cased token address (the two hard-coded
    branches change nothing) with the wallet address as only argument; it
    returns what was read, and every failure is raised again as
    [ValueError("Could not get token balance: ...")]. *)
Theorem get_token_balance_reads_lowercase (token_address : string) tr out :
  trace (get_token_balance token_address) tr out ->
  (exists e, tr = [EvGetAddress (Raise e)] /\
             out = Raise (ValueError ("Could not get token balance: " +:+ exn_str e))) \/
  (exists owner r,
      tr = [EvGetAddress (Ok owner);
            EvReadContract (lower token_address) ERC20_ABI "balanceOf" [PStr owner] r] /\
      out = match r with
            | Ok v => Ok v
            | Raise e => Raise (ValueError ("Could not get token balance: " +:+ exn_str e))
            end).
Proof.
  apply trace_get_token_balance_address.
Qed.

Lemma get_token_balance_reads_lowercase_witness :
  read_addresses "balanceOf" (snd Scenario.balance_on_mainnet)
  = ["0xc02aaa39b223fe8d0a0e5c4f27ead9083c756cc2"].
Proof.
  destruct (get_token_balance_reads_lowercase "0xC02aaA39b223FE8D0A0e5C4F27eAD9083C756Cc2"
              (snd Scenario.balance_on_mainnet) (fst Scenario.balance_on_mainnet)
              (run_trace_pair Example.rich_wallet _ [] _
                 (eq_refl : run Example.rich_wallet
                              (get_token_balance "0xC02aaA39b223FE8D0A0e5C4F27eAD9083C756Cc2") []
                            = Scenario.balance_on_mainnet)))
    as [(e & Htr & _) | (owner & r & Htr & _)].
  - discriminate Htr.
  - rewrite Htr. reflexivity.
Defined.

(** X5: when [approve_token] returns, it has sent one transaction, to the
    checksummed token address, carrying the encoded [approve(spender,
    amount)] and no gas limit, has waited for its receipt, and returns the
    hash; the receipt is not looked at, so any receipt, a reverted one too,
    gives the same result.  When it raises, at most that one transaction
    has been sent. *)
Theorem approve_token_ignores_receipt E (token spender : string) (amount : Z) tr out :
  trace (approve_token E token spender amount) tr out ->
  match out with
  | Ok tx_hash =>
      exists t s data receipt,
        to_checksum_address E (PStr token) = Ok t /\
        to_checksum_address E (PStr spender) = Ok s /\
        encode_approve E t s amount = Ok data /\
        tr = [EvSendTransaction {| tx_to := t; tx_data := data; tx_gas := None |} (Ok tx_hash);
              EvWaitForTransactionReceipt tx_hash (Ok receipt)] /\
        forall other : Receipt,
          trace (approve_token E token spender amount)
            [EvSendTransaction {| tx_to := t; tx_data := data; tx_gas := None |} (Ok tx_hash);
             EvWaitForTransactionReceipt tx_hash (Ok other)] (Ok tx_hash)
  | Raise e =>
      tr = [] \/
      (exists p, tr = [EvSendTransaction p (Raise e)]) \/
      (exists p tx_hash, tr = [EvSendTransaction p (Ok tx_hash);
                               EvWaitForTransactionReceipt tx_hash (Raise e)])
  end.
Proof.
  unfold approve_token. intros H.
  repeat (trace_step; try discriminate).
  all: tidy.
  all: cbn [app].
  all: try (left; reflexivity).
  all: try (right; left; eexists; reflexivity).
  all: try (right; right; eexists _, _; reflexivity).
  match goal with
  | H1 : Ok _ = ?f, H2 : Ok _ = ?f |- _ => rewrite <- H1 in H2; injection H2 as <-
  end.
  match goal with
  | H1 : Ok ?t = to_checksum_address E (PStr token),
    H2 : Ok ?s = to_checksum_address E (PStr spender),
    H3 : Ok ?d = encode_approve E _ _ amount |- _ =>
      exists t, s, d; eexists; repeat apply conj;
      [symmetry; exact H1 | symmetry; exact H2 | symmetry; exact H3 | reflexivity |]
  end.
  intros other.
  repeat (match goal with
          | H : Ok _ = _ |- _ => rewrite <- H; clear H
          end;
          cbn [lift bind send_transaction wait_for_transaction_receipt returned]).
  repeat (constructor; cbn [lift bind returned]).
Qed.

Lemma approve_token_ignores_receipt_witness :
  exists t s data receipt,
    to_checksum_address Example.env (PStr WETH_MAINNET) = Ok t /\
    to_checksum_address Example.env (PStr "0xc36442b4a4522e871399cd717abdd847ab11fe88") = Ok s /\
    encode_approve Example.env t s 5 = Ok data /\
    snd Scenario.approve_reverted
    = [EvSendTransaction {| tx_to := t; tx_data := data; tx_gas := None |} (Ok "0xhash0");
       EvWaitForTransactionReceipt "0xhash0" (Ok receipt)] /\
    forall other : Receipt,
      trace (approve_token Example.env WETH_MAINNET
               "0xc36442b4a4522e871399cd717abdd847ab11fe88" 5)
        [EvSendTransaction {| tx_to := t; tx_data := data; tx_gas := None |} (Ok "0xhash0");
         EvWaitForTransactionReceipt "0xhash0" (Ok other)] (Ok "0xhash0").
Proof.
  exact (approve_token_ignores_receipt Example.env WETH_MAINNET
           "0xc36442b4a4522e871399cd717abdd847ab11fe88" 5
           (snd Scenario.approve_reverted) (fst Scenario.approve_reverted)
           (run_trace_pair Scenario.reverting_wallet _ [] _
              (eq_refl : run Scenario.reverting_wallet
                           (approve_token Example.env WETH_MAINNET
                              "0xc36442b4a4522e871399cd717abdd847ab11fe88" 5) []
                         = Scenario.approve_reverted))).
Defined.

(** X6: [get_token_decimals] and [get_token_symbol] make one contract read,
    without arguments, at the checksummed token address, and hand on its
    outcome, a failure too, unchanged; an address that cannot be checksummed
    raises before anything is read. *)
Theorem token_metadata_reads E (token_address : string) tr out :
  trace (get_token_decimals E token_address) tr out \/
  trace (get_token_symbol E token_address) tr out ->
  match to_checksum_address E (PStr token_address) with
  | Raise e => tr = [] /\ out = Raise e
  | Ok contract_address =>
      exists fn, tr = [EvReadContract contract_address ERC20_ABI fn [] out]
  end.
Proof.
  intros [H | H]; [unfold get_token_decimals in H | unfold get_token_symbol in H].
  all: repeat (trace_step; try discriminate).
  all: tidy.
  all: repeat match goal with
              | H : Ok _ = to_checksum_address _ _ |- _ => rewrite <- H
              | H : Raise _ = to_checksum_address _ _ |- _ => rewrite <- H
              end.
  all: cbn [app].
  all: try (split; reflexivity).
  all: eexists; reflexivity.
Qed.

Lemma token_metadata_reads_witness :
  exists fn,
    snd Scenario.symbol_reverted
    = [EvReadContract WETH_MAINNET ERC20_ABI fn [] (fst Scenario.symbol_reverted)].
Proof.
  exact (token_metadata_reads Example.env WETH_MAINNET
           (snd Scenario.symbol_reverted) (fst Scenario.symbol_reverted)
           (or_intror
              (run_trace_pair Scenario.reverting_wallet _ [] _
                 (eq_refl : run Scenario.reverting_wallet
                              (get_token_symbol Example.env WETH_MAINNET) []
                            = Scenario.symbol_reverted)))).
Defined.

(** ** The course of [create_liquidity] *)

Lemma position_manager_resolved network a :
  _get_position_manager_address network = Ok a -> a = POSITION_MANAGER.
Proof.
  intros H.
  destruct (decide (chain_id network = "1")) as [Hc | Hc];
    [|destruct (decide (network_id network = "ethereum-mainnet")) as [Hn | Hn]].
  - destruct (addresses_available network (or_introl Hc)) as (Hp & _).
    rewrite Hp in H. injection H as <-. reflexivity.
  - destruct (addresses_available network (or_intror Hn)) as (Hp & _).
    rewrite Hp in H. injection H as <-. reflexivity.
  - rewrite (position_manager_unavailable network Hc Hn) in H. discriminate H.
Qed.

Lemma asset_addresses_resolved network w u :
  (let! weth := _get_asset_address network "weth" in
   let! usdc := _get_asset_address network "usdc" in
   Ok (weth, usdc)) = Ok (w, u) ->
  w = WETH /\ u = USDC.
Proof.
  intros H.
  destruct (decide (chain_id network = "1")) as [Hc | Hc];
    [|destruct (decide (network_id network = "ethereum-mainnet")) as [Hn | Hn]].
  - destruct (addresses_available network (or_introl Hc)) as (_ & Hw & Hu).
    rewrite Hw, Hu in H. injection H as <- <-. split; reflexivity.
  - destruct (addresses_available network (or_intror Hn)) as (_ & Hw & Hu).
    rewrite Hw, Hu in H. injection H as <- <-. split; reflexivity.
  - rewrite (asset_unavailable network "weth" (or_introl (conj Hc Hn))) in H.
    discriminate H.
Qed.

(** One step of the inversion of a handler, keeping the address of every
    balance read. *)
Ltac flow_step :=
  first
    [ match goal with
      | H : trace (get_token_balance _) _ _ |- _ =>
          apply trace_get_token_balance_address in H;
          destruct H as [(? & ? & ?) | (? & ? & ? & ?)]; subst
      end
    | trace_step ].

(** The addresses that the handler resolved are the constants of
    [constants.py]. *)
Ltac resolve_addresses :=
  repeat match goal with
         | H : _get_position_manager_address _ = Ok _ |- _ =>
             apply position_manager_resolved in H; subst
         | H : rbind (_get_asset_address _ "weth") _ = Ok (_, _) |- _ =>
             apply asset_addresses_resolved in H; destruct H; subst
         end.

(** Two results of the same pure call are the same. *)
Ltac same_results :=
  repeat match goal with
         | H1 : Ok _ = ?f, H2 : Ok _ = ?f |- _ => rewrite <- H1 in H2; injection H2 as <-
         end.

Ltac approve_ok :=
  unfold approval; cbn [tx_to tx_data tx_gas]; eexists _, _;
  repeat apply conj; try reflexivity; symmetry; eassumption.

Ltac second_and_third :=
  match goal with
  | |- approval _ _ _ _ ?a /\ ([_; ?p] = _ \/ _) =>
      unify a p; split; [approve_ok | left; reflexivity]
  | |- approval _ _ _ _ ?a /\ ([_; ?p; ?m] = _ \/ _) =>
      unify a p; split;
      [ approve_ok
      | right; exists m; eexists _, _; repeat apply conj;
        [reflexivity | reflexivity | cbn [tx_to]; symmetry; eassumption | reflexivity] ]
  end.

Ltac first_and_later :=
  match goal with
  | |- approval _ _ _ _ ?a /\ ([?p] = _ \/ _) =>
      unify a p; split; [approve_ok | left; reflexivity]
  | |- approval _ _ _ _ ?a /\ (?p :: _ :: _ = _ \/ _) =>
      unify a p; split; [approve_ok | right; eexists; second_and_third]
  end.

Ltac transaction_order_leaf :=
  cbn [app sent_transactions];
  first
    [ left; reflexivity
    | right;
      match goal with
      | Hw : Ok ?w = format_amount_with_decimals (amount_weth _) _,
        Hu : Ok ?u = format_amount_with_decimals (amount_usdc _) _ |- _ =>
          exists w, u; eexists; split; [symmetry; exact Hw|split; [symmetry; exact Hu|]]
      end;
      first_and_later ].

Ltac balance_read_addresses_leaf :=
  cbn;
  first [ exists 0%nat; reflexivity | exists 1%nat; reflexivity
        | exists 2%nat; reflexivity | exists 3%nat; reflexivity
        | exists 4%nat; reflexivity ].

Ltac mint_parameters_leaf :=
  intros ? Hmint; cbn in Hmint;
  first
    [ discriminate Hmint
    | injection Hmint as <-;
      match goal with
      | Hm : Ok _ = encode_mint _ ?c ?m |- _ =>
          exists c, m; eexists _, _, [_; _; _; _];
          cbn;
          repeat apply conj; try reflexivity; symmetry; assumption
      end ].

Ltac receipt_handling_leaf :=
  intros ? ? ? ? ? Hafter; cbn in Hafter;
  first
    [ discriminate Hafter
    | injection Hafter as <- <- <- <- <-;
      split; [reflexivity|];
      match goal with
      | H : negb (status ?r =? 1) = true |- _ =>
          apply negb_true_iff in H; rewrite H; split; reflexivity
      | H : negb (status ?r =? 1) = false |- _ =>
          apply negb_false_iff in H; rewrite H;
          match goal with
          | Hf : _ = find_token_id _ _ |- _ => rewrite <- Hf
          end;
          cbv zeta;
          repeat match goal with
                 | Ht : tick_spacing_for _ = _ |- _ => rewrite Ht; cbn [fst snd]
                 | Ha : align_ticks _ _ _ = _ |- _ => rewrite Ha; cbn [fst snd]
                 end;
          split; reflexivity
      end ].

Ltac failure_handling_leaf :=
  intros ? ? Hfail; cbn in Hfail;
  first [ discriminate Hfail | injection Hfail as <- <-; split; reflexivity ].

(** Every trace of [create_liquidity], taken apart once. *)
Lemma create_liquidity_course E (args : raw_args E) v tr out :
  validate_create_liquidity E args = Ok v ->
  trace (create_liquidity E args) tr out ->
  transaction_order E v tr /\ balance_read_addresses tr /\
  mint_parameters E v tr /\ receipt_handling E v tr out /\ failure_handling E tr out.
Proof.
  intros Hv H.
  pose proof ASSET_DECIMALS_weth as Hdw. pose proof ASSET_DECIMALS_usdc as Hdu.
  unfold create_liquidity, mint_position, approve_token in H.
  repeat (flow_step; try discriminate).
  all: resolve_addresses.
  all: tidy.
  all: same_results.
  all: cbn [app].
  all: (refine (conj _ (conj _ (conj _ (conj _ _))));
        [ unfold transaction_order; transaction_order_leaf
        | unfold balance_read_addresses; balance_read_addresses_leaf
        | unfold mint_parameters; mint_parameters_leaf
        | unfold receipt_handling; receipt_handling_leaf
        | unfold failure_handling; failure_handling_leaf ]).
Qed.

(** X7: [create_liquidity] reads [balanceOf] at most four times: at the
    lower-case WETH address, then the lower-case USDC address, then both
    once more; never at another address. *)
Theorem create_liquidity_balance_reads E (args : raw_args E) v tr out :
  validate_create_liquidity E args = Ok v ->
  trace (create_liquidity E args) tr out ->
  exists n : nat,
    read_addresses "balanceOf" tr
    = firstn n [WETH_MAINNET; USDC_MAINNET; WETH_MAINNET; USDC_MAINNET].
Proof.
  intros Hv H.
  destruct (create_liquidity_course E args v tr out Hv H) as (_ & Hreads & _).
  exact Hreads.
Qed.

Lemma create_liquidity_balance_reads_witness :
  exists n : nat,
    read_addresses "balanceOf" (snd Example.liquidity_poor)
    = firstn n [WETH_MAINNET; USDC_MAINNET; WETH_MAINNET; USDC_MAINNET].
Proof.
  exact (create_liquidity_balance_reads Example.env Example.request
           Example.liquidity_request
           (snd Example.liquidity_poor) (fst Example.liquidity_poor) eq_refl
           (run_trace_pair Example.poor_wallet _ [] _
              (eq_refl : run Example.poor_wallet
                           (create_liquidity Example.env Example.request) []
                         = Example.liquidity_poor))).
Defined.

(** X8: [create_liquidity] sends at most three transactions, in this
    order: the approval of exactly the requested WETH amount for the
    position manager, the approval of exactly the requested USDC amount,
    and the mint.  The mint is sent once both approvals have returned a
    receipt, whatever the receipts say. *)
Theorem create_liquidity_transaction_order E (args : raw_args E) v tr out :
  validate_create_liquidity E args = Ok v ->
  trace (create_liquidity E args) tr out ->
  sent_transactions tr = [] \/
  exists weth_units usdc_units a1,
    format_amount_with_decimals (amount_weth v) 18 = Ok weth_units /\
    format_amount_with_decimals (amount_usdc v) 6 = Ok usdc_units /\
    approval E WETH POSITION_MANAGER weth_units a1 /\
    (sent_transactions tr = [a1] \/
     exists a2,
       approval E USDC POSITION_MANAGER usdc_units a2 /\
       (sent_transactions tr = [a1; a2] \/
        exists m r1 r2,
          sent_transactions tr = [a1; a2; m] /\
          is_mint m = true /\
          to_checksum_address E (PStr POSITION_MANAGER) = Ok (tx_to m) /\
          receipts (before_mint tr) = [Ok r1; Ok r2])).
Proof.
  intros Hv H.
  destruct (create_liquidity_course E args v tr out Hv H) as (Horder & _).
  exact Horder.
Qed.

Lemma create_liquidity_transaction_order_witness :
  map tx_to (sent_transactions (snd Scenario.liquidity_reverted))
  = [WETH; USDC; POSITION_MANAGER] /\
  receipts (before_mint (snd Scenario.liquidity_reverted))
  = [Ok Scenario.reverted; Ok Scenario.reverted].
Proof.
  destruct (create_liquidity_transaction_order Example.env Example.request
              Example.liquidity_request
              (snd Scenario.liquidity_reverted) (fst Scenario.liquidity_reverted) eq_refl
              (run_trace_pair Scenario.reverting_wallet _ [] _
                 (eq_refl : run Scenario.reverting_wallet
                              (create_liquidity Example.env Example.request) []
                            = Scenario.liquidity_reverted)))
    as [Hnone | (w & u & a1 & _ & _ & _ & [Hone | (a2 & _ & [Htwo | (m & r1 & r2 & Hsent & _ & _ & Hr)])])].
  - discriminate Hnone.
  - discriminate Hone.
  - discriminate Htwo.
  - split; [reflexivity|].
    rewrite Hr. cbn in Hr. injection Hr as <- <-. reflexivity.
Defined.

(** X9: the mint transaction goes to the checksummed position manager; its
    tuple has USDC as token0 and WETH as token1, the address that the wallet
    gave last as recipient, and as deadline the first of the two clock
    readings plus 1800 seconds (the second reading is only printed). *)
Theorem create_liquidity_mint_recipient_and_deadline E (args : raw_args E) v tr out p :
  validate_create_liquidity E args = Ok v ->
  trace (create_liquidity E args) tr out ->
  mint_sent tr = Some p ->
  exists contract mint t1 t2 earlier,
    encode_mint E contract mint = Ok (tx_data p) /\
    to_checksum_address E (PStr POSITION_MANAGER) = Ok contract /\
    tx_to p = contract /\
    to_checksum_address E (PStr USDC) = Ok (token0 mint) /\
    to_checksum_address E (PStr WETH) = Ok (token1 mint) /\
    addresses (before_mint tr) = earlier ++ [recipient mint] /\
    clock_reads (before_mint tr) = [t1; t2] /\
    deadline mint = t1 + 1800.
Proof.
  intros Hv H Hmint.
  destruct (create_liquidity_course E args v tr out Hv H) as (_ & _ & Hparams & _).
  exact (Hparams p Hmint).
Qed.

Lemma create_liquidity_mint_recipient_and_deadline_witness :
  exists mint,
    recipient mint = Example.wallet_address /\ deadline mint = 1700000017 + 1800 /\
    token0 mint = USDC /\ token1 mint = WETH.
Proof.
  destruct (create_liquidity_mint_recipient_and_deadline Example.env Example.request
              Example.liquidity_request
              (snd Scenario.liquidity_reverted) (fst Scenario.liquidity_reverted)
              {| tx_to := POSITION_MANAGER;
                 tx_data := "mint(0xA0b86991c6218b36c1d19D4a2e9Eb0cE3606eB48,0xC02aaA39b223FE8D0A0e5C4F27eAD9083C756Cc2,500,-50,10,1000000000,500000000000000000,995000000,497500000000000000,0x1111111111111111111111111111111111111111,1700001817)";
                 tx_gas := Some 3000000 |}
              eq_refl
              (run_trace_pair Scenario.reverting_wallet _ [] _
                 (eq_refl : run Scenario.reverting_wallet
                              (create_liquidity Example.env Example.request) []
                            = Scenario.liquidity_reverted))
              eq_refl)
    as (contract & mint & t1 & t2 & earlier & _ & _ & _ & H0 & H1 & Haddr & Hclock & Hdeadline).
  exists mint. cbn in Hclock. injection Hclock as <- <-.
  cbn in H0, H1. injection H0 as <-. injection H1 as <-.
  cbn in Haddr.
  assert (Hlast : List.last (earlier ++ [recipient mint]) "" = Example.wallet_address)
    by (rewrite <- Haddr; reflexivity).
  rewrite List.last_last in Hlast.
  repeat split; assumption.
Defined.

(** X10: once the mint is sent and its receipt is there, a status other
    than 1 gives the creation-failed message with the transaction hash; with
    status 1 the logs are searched for the token id and the success message
    is returned, and an exception of that search is printed and returned as
    an error string.  Nothing else happens after the receipt. *)
Theorem create_liquidity_receipt_status E (args : raw_args E) v tr out
    p tx_hash waited receipt rest :
  validate_create_liquidity E args = Ok v ->
  trace (create_liquidity E args) tr out ->
  after_mint tr
  = EvSendTransaction p (Ok tx_hash) :: EvWaitForTransactionReceipt waited (Ok receipt) :: rest ->
  waited = tx_hash /\
  if status receipt =? 1 then
    match find_token_id POSITION_MANAGER (logs receipt) with
    | Ok token_id =>
        rest = [] /\
        let spacing := fst (fst (tick_spacing_for (fee_tier v))) in
        let ticks := align_ticks (tick_lower v) (tick_upper v) spacing in
        out = Ok (success_message v (fst ticks) (snd ticks)
                    (snd (fst (tick_spacing_for (fee_tier v)))) tx_hash token_id)
    | Raise e =>
        rest = [EvPrint (detailed_error E e)] /\
        out = Ok ("Error creating Uniswap V3 liquidity position: " +:+ exn_str e +:+ tick_hint)
    end
  else
    rest = [] /\
    out = Ok ("Error: Liquidity position creation failed. Transaction hash: " +:+ tx_hash).
Proof.
  intros Hv H Hafter.
  destruct (create_liquidity_course E args v tr out Hv H) as (_ & _ & _ & Hreceipt & _).
  exact (Hreceipt p tx_hash waited receipt rest Hafter).
Qed.

Lemma create_liquidity_receipt_status_witness :
  fst Scenario.liquidity_reverted
  = Ok "Error: Liquidity position creation failed. Transaction hash: 0xhash21".
Proof.
  destruct (create_liquidity_receipt_status Example.env Example.request
              Example.liquidity_request
              (snd Scenario.liquidity_reverted) (fst Scenario.liquidity_reverted)
              _ "0xhash21" "0xhash21" Scenario.reverted [] eq_refl
              (run_trace_pair Scenario.reverting_wallet _ [] _
                 (eq_refl : run Scenario.reverting_wallet
                              (create_liquidity Example.env Example.request) []
                            = Scenario.liquidity_reverted))
              eq_refl) as [_ [_ Hout]].
  exact Hout.
Defined.

(** X11: when a transaction cannot be sent, or its receipt cannot be
    obtained, [create_liquidity] prints the detailed error and returns the
    error string with the tick hint: nothing is sent after the failure. *)
Theorem create_liquidity_stops_at_failed_transaction E (args : raw_args E) v tr out e rest :
  validate_create_liquidity E args = Ok v ->
  trace (create_liquidity E args) tr out ->
  after_first_failure tr = Some (e, rest) ->
  rest = [EvPrint (detailed_error E e)] /\
  out = Ok ("Error creating Uniswap V3 liquidity position: " +:+ exn_str e +:+ tick_hint).
Proof.
  intros Hv H Hfail.
  destruct (create_liquidity_course E args v tr out Hv H) as (_ & _ & _ & _ & Hfailure).
  exact (Hfailure e rest Hfail).
Qed.

Lemma create_liquidity_stops_at_failed_transaction_witness :
  fst Scenario.liquidity_stalled
  = Ok ("Error creating Uniswap V3 liquidity position: transaction not mined" +:+ tick_hint) /\
  length (sent_transactions (snd Scenario.liquidity_stalled)) = 2%nat.
Proof.
  destruct (create_liquidity_stops_at_failed_transaction Example.env Example.request
              Example.liquidity_request
              (snd Scenario.liquidity_stalled) (fst Scenario.liquidity_stalled)
              (OtherError "TimeExhausted" "transaction not mined") _ eq_refl
              (run_trace_pair Scenario.stalling_wallet _ [] _
                 (eq_refl : run Scenario.stalling_wallet
                              (create_liquidity Example.env Example.request) []
                            = Scenario.liquidity_stalled))
              eq_refl) as [_ Hout].
  split; [exact Hout | reflexivity].
Defined.

(** A branch that contradicts what is known of a pure call. *)
Ltac prune :=
  match goal with
  | H1 : ?f = Raise _, H2 : Ok _ = ?f |- _ => rewrite H1 in H2; discriminate H2
  | H1 : ?f = Ok _, H2 : Raise _ = ?f |- _ => rewrite H1 in H2; discriminate H2
  end.

(** X12: arguments that fail validation make [create_liquidity] print and
    return the error without any call of the wallet provider; an amount that
    cannot be converted is reported the same way, after the query of the
    network, before any contract is read or any transaction is sent. *)
Theorem create_liquidity_rejects_bad_input E (args : raw_args E) tr out :
  trace (create_liquidity E args) tr out ->
  (forall e, validate_create_liquidity E args = Raise e ->
     tr = [EvPrint (detailed_error E e)] /\
     out = Ok ("Error creating Uniswap V3 liquidity position: " +:+ exn_str e +:+ tick_hint)) /\
  (forall v e,
     validate_create_liquidity E args = Ok v ->
     format_amount_with_decimals (amount_weth v) 18 = Raise e \/
     (exists weth_units, format_amount_with_decimals (amount_weth v) 18 = Ok weth_units) /\
     format_amount_with_decimals (amount_usdc v) 6 = Raise e ->
     contract_reads tr = [] /\ sent_transactions tr = [] /\
     forall network,
       hd_error tr = Some (EvGetNetwork (Ok network)) ->
       supports_network network = true ->
       chain_id network = "1" \/ network_id network = "ethereum-mainnet" ->
       tr = [EvGetNetwork (Ok network); EvPrint (detailed_error E e)] /\
       out = Ok ("Error creating Uniswap V3 liquidity position: " +:+ exn_str e +:+ tick_hint)).
Proof.
  intros H.
  pose proof ASSET_DECIMALS_weth as Hdw. pose proof ASSET_DECIMALS_usdc as Hdu.
  split.
  - intros e He. unfold create_liquidity in H. rewrite He in H.
    cbn [lift bind try_except] in H.
    apply trace_report_failure_inv in H. exact H.
  - intros v e Hv Hbad. unfold create_liquidity in H. rewrite Hv in H.
    cbn [lift bind] in H.
    assert (Hcut : exists e',
               format_amount_with_decimals (amount_weth v) 18 = Raise e' \/
               format_amount_with_decimals (amount_usdc v) 6 = Raise e')
      by (destruct Hbad as [Hw | [_ Hu]]; exists e; [left|right]; assumption).
    destruct Hcut as (e' & Hcut).
    repeat (flow_step; try discriminate; tidy;
            try (destruct Hcut as [Hcut | Hcut]; prune)).
    all: tidy.
    all: cbn [app contract_reads sent_transactions].
    all: refine (conj eq_refl (conj eq_refl _)).
    all: intros network Hhd Hsup Havail; cbn in Hhd; try discriminate Hhd; injection Hhd as ->.
    all: try match goal with
             | H : negb (supports_network _) = true |- _ => rewrite Hsup in H; discriminate H
             end.
    all: destruct (addresses_available network Havail) as (Hpm & Hweth & Husdc).
    all: repeat match goal with
                | H : _get_position_manager_address _ = Raise _ |- _ =>
                    rewrite Hpm in H; discriminate H
                | H : rbind (_get_asset_address _ "weth") _ = Raise _ |- _ =>
                    rewrite Hweth, Husdc in H; discriminate H
                end.
    all: destruct Hbad as [Hw | [(w & Hw) Hu]].
    all: repeat match goal with
                | H1 : ?f = _, H2 : _ = ?f |- _ => rewrite H1 in H2
                end.
    all: tidy; try discriminate.
    all: split; reflexivity.
Qed.

Lemma create_liquidity_rejects_bad_input_witness :
  fst Scenario.liquidity_malformed
  = Ok ("Error creating Uniswap V3 liquidity position: Invalid amount format: 1,000"
        +:+ tick_hint) /\
  contract_reads (snd Scenario.liquidity_malformed) = [].
Proof.
  destruct (create_liquidity_rejects_bad_input Example.env Scenario.malformed_request
              (snd Scenario.liquidity_malformed) (fst Scenario.liquidity_malformed)
              (run_trace_pair Example.rich_wallet _ [] _
                 (eq_refl : run Example.rich_wallet
                              (create_liquidity Example.env Scenario.malformed_request) []
                            = Scenario.liquidity_malformed))) as [_ Hbad].
  destruct (Hbad _ (ValueError "Invalid amount format: 1,000") eq_refl
              ltac:(right; split; [eexists; vm_compute; reflexivity | vm_compute; reflexivity]))
    as (Hreads & _ & Hout).
  destruct (Hout Example.mainnet eq_refl eq_refl (or_introl eq_refl)) as [_ Hmsg].
  exact (conj Hmsg Hreads).
Defined.

(** ** The course of [get_price] *)

Lemma factory_resolved key a :
  dict_get UNISWAP_V3_FACTORY_ADDRESS key = Ok a -> a = FACTORY.
Proof.
  unfold dict_get, UNISWAP_V3_FACTORY_ADDRESS. intros H.
  destruct (decide (key = "ethereum-mainnet")) as [-> | Hne].
  - rewrite lookup_singleton_eq in H. injection H as <-. reflexivity.
  - rewrite lookup_singleton_ne in H by congruence. discriminate H.
Qed.

(** X13: [get_price] sends no transaction, prints nothing and never asks
    for the wallet address.  It reads at most twice: [getPool] at the
    checksummed factory with WETH, USDC and the requested fee tier as given
    (no fallback for an unknown tier), and then, if the answer is not the
    zero address, [slot0] at the checksummed answer. *)
Theorem get_price_reads E (args : raw_args E) v tr out :
  validate_get_price E args = Ok v ->
  trace (get_price E args) tr out ->
  sent_transactions tr = [] /\ printed tr = [] /\ addresses tr = [] /\
  (read_events tr = [] \/
   exists factory weth usdc pool_answer,
     to_checksum_address E (PStr FACTORY) = Ok factory /\
     to_checksum_address E (PStr WETH) = Ok weth /\
     to_checksum_address E (PStr USDC) = Ok usdc /\
     let getPool :=
       EvReadContract factory UNISWAP_V3_FACTORY_ABI "getPool"
         [PStr weth; PStr usdc; PInt (gp_fee_tier v)] pool_answer in
     (read_events tr = [getPool] \/
      exists answer pool state,
        pool_answer = Ok answer /\
        PyVal.eq_str answer ZERO_ADDRESS = false /\
        to_checksum_address E answer = Ok pool /\
        read_events tr = [getPool; EvReadContract pool UNISWAP_V3_POOL_ABI "slot0" [] state])).
Proof.
  intros Hv H. unfold get_price in H.
  repeat (trace_step; try discriminate).
  all: repeat match goal with
              | H : rbind (_get_asset_address _ "weth") _ = Ok (_, _) |- _ =>
                  apply asset_addresses_resolved in H; destruct H; subst
              | H : Ok _ = dict_get UNISWAP_V3_FACTORY_ADDRESS _ |- _ =>
                  symmetry in H; apply factory_resolved in H; subst
              end.
  all: tidy.
  all: cbn [app sent_transactions printed addresses read_events].
  all: refine (conj eq_refl (conj eq_refl (conj eq_refl _))).
  all: try (left; reflexivity).
  all: right.
  all: match goal with
       | Hf : Ok ?f = to_checksum_address _ (PStr FACTORY),
         Hw : Ok ?w = to_checksum_address _ (PStr WETH),
         Hu : Ok ?u = to_checksum_address _ (PStr USDC) |- _ =>
           exists f, w, u; eexists;
           refine (conj (eq_sym Hf) (conj (eq_sym Hw) (conj (eq_sym Hu) _)))
       end.
  all: cbv zeta.
  all: try (left; reflexivity).
  all: right.
  all: match goal with
       | Hp : Ok ?p = to_checksum_address _ ?a |- _ =>
           exists a, p; eexists;
           refine (conj eq_refl (conj _ (conj (eq_sym Hp) eq_refl)))
       end.
  all: assumption.
Qed.

Lemma get_price_reads_witness :
  sent_transactions (snd Example.price_at_parity) = [] /\
  map (fun ev => match ev with EvReadContract c _ fn _ _ => (c, fn) | _ => ("", "") end)
    (read_events (snd Example.price_at_parity))
  = [(FACTORY, "getPool"); (Example.pool_address, "slot0")].
Proof.
  destruct (get_price_reads Example.env Example.request Example.price_request
              (snd Example.price_at_parity) (fst Example.price_at_parity) eq_refl
              (run_trace_pair Example.rich_wallet _ [] _
                 (eq_refl : run Example.rich_wallet (get_price Example.env Example.request) []
                            = Example.price_at_parity)))
    as (Hsent & _ & _ & Hreads).
  split; [exact Hsent | reflexivity].
Defined.

(** X14: after a successful read of [slot0] nothing is caught any more: the
    outcome is that of indexing the answer at 0 and 1 and of the price
    arithmetic.  An answer with fewer than two elements raises [IndexError],
    one that is no sequence raises [TypeError], and so does a first element
    that is no integer. *)
Theorem get_price_after_slot0 E (args : raw_args E) tr out slot0 :
  trace (get_price E args) tr out ->
  In (Ok slot0) (reads_of "slot0" tr) ->
  out = (let! sqrt_price_x96 := PyVal.getitem slot0 0 in
         let! current_tick := PyVal.getitem slot0 1 in
         let! price := spot_price E sqrt_price_x96 in
         Ok (price_message price current_tick)) /\
  (forall items, slot0 = PTuple items -> (length items < 2)%nat ->
     exists msg, out = Raise (IndexError msg)) /\
  (slot0 = PNone \/ (exists n, slot0 = PInt n) \/ (exists b, slot0 = PBool b) ->
     exists msg, out = Raise (TypeError msg)) /\
  (forall x tick rest, slot0 = PTuple (x :: tick :: rest) -> PyVal.as_int x = None ->
     exists msg, out = Raise (TypeError msg)).
Proof.
  intros H Hin.
  assert (Hout : out = (let! sqrt_price_x96 := PyVal.getitem slot0 0 in
                        let! current_tick := PyVal.getitem slot0 1 in
                        let! price := spot_price E sqrt_price_x96 in
                        Ok (price_message price current_tick))).
  { unfold get_price in H.
    repeat (trace_step; try discriminate).
    all: cbn in Hin; try contradiction.
    all: destruct Hin as [Hin | []]; tidy.
    all: repeat match goal with
                | H : _ = PyVal.getitem _ _ |- _ => rewrite <- H; cbn [rbind]
                | H : _ = spot_price _ _ |- _ => rewrite <- H; cbn [rbind]
                end.
    all: reflexivity. }
  refine (conj Hout (conj _ (conj _ _))).
  - intros items -> Hlen. rewrite Hout.
    destruct items as [|x [|y items]]; cbn in Hlen; try lia.
    all: cbn; eexists; reflexivity.
  - intros Hshape. rewrite Hout.
    destruct Hshape as [-> | [(n & ->) | (b & ->)]]; cbn; eexists; reflexivity.
  - intros x tick rest -> Hx. rewrite Hout.
    cbn [PyVal.getitem nth_error rbind]. unfold spot_price.
    rewrite ASSET_DECIMALS_weth, ASSET_DECIMALS_usdc. cbn [rbind].
    unfold PyVal.truediv_int. rewrite Hx. cbn [rbind]. eexists; reflexivity.
Qed.

Lemma get_price_after_slot0_witness :
  fst Scenario.price_short_slot0 = Raise (IndexError "tuple index out of range").
Proof.
  destruct (get_price_after_slot0 Example.env Example.request
              (snd Scenario.price_short_slot0) (fst Scenario.price_short_slot0)
              (PTuple [PInt (2 ^ 96)])
              (run_trace_pair Scenario.short_slot0_wallet _ [] _
                 (eq_refl : run Scenario.short_slot0_wallet
                              (get_price Example.env Example.request) []
                            = Scenario.price_short_slot0))
              ltac:(vm_compute; left; reflexivity)) as (Hout & _).
  exact Hout.
Defined.

(** ** Unit conversion: errors and ignored characters *)

Lemma fix_raises x e : PyDecimal.fix_ x = Raise e -> exists msg, e = DecimalOverflow msg.
Proof.
  destruct x as [sg c ex]. unfold PyDecimal.fix_.
  destruct (c =? 0); [discriminate|].
  destruct (_ <? _); [intros H; injection H as <-; eexists; reflexivity|].
  destruct (ex <? _); [|discriminate].
  destruct (PyDecimal.prec <? _).
  all: destruct (_ <? _); [intros H; injection H as <-; eexists; reflexivity | discriminate].
Qed.

Lemma of_str_raises s e :
  PyDecimal.of_str s = Raise e -> exists msg, e = DecimalInvalidOperation msg.
Proof.
  unfold PyDecimal.of_str.
  destruct (split_sign _) as [sg body].
  destruct (PyDecimal.span_digits body) as [intpart rest].
  destruct (match rest with
            | String c r => _
            | EmptyString => _
            end) as [[fracpart rest'] has_digit].
  destruct (if has_digit then _ else _); [|intros H; injection H as <-; eexists; reflexivity].
  destruct (_ && _); [discriminate|].
  intros H. injection H as <-. eexists; reflexivity.
Qed.

(** X15: for an amount without the letter e, [format_amount_with_decimals]
    returns or raises [ValueError("Invalid amount format: " + amount)]; for
    an amount with the letter e it returns or raises
    [decimal.InvalidOperation] or [decimal.Overflow], which the [except
    ValueError] clause does not convert. *)
Theorem format_amount_with_decimals_errors (amount : string) (decimals : nat) :
  (contains "e" (lower amount) = false ->
   (exists units, format_amount_with_decimals amount decimals = Ok units) \/
   format_amount_with_decimals amount decimals
   = Raise (ValueError ("Invalid amount format: " +:+ amount))) /\
  (contains "e" (lower amount) = true ->
   (exists units, format_amount_with_decimals amount decimals = Ok units) \/
   (exists msg, format_amount_with_decimals amount decimals
                = Raise (DecimalInvalidOperation msg)) \/
   (exists msg, format_amount_with_decimals amount decimals = Raise (DecimalOverflow msg))).
Proof.
  unfold format_amount_with_decimals. split; intros He; rewrite He.
  - destruct (split "." amount) as [|whole [|fraction [|extra parts]]].
    + right. reflexivity.
    + destruct (int_of_str whole) as [w|e] eqn:Hw; cbn [rbind try_except_ValueError].
      * left. eexists; reflexivity.
      * right. rewrite (int_of_str_raises_ValueError _ _ Hw). reflexivity.
    + set (cut := if (decimals <? String.length fraction)%nat
                  then PyStr.take decimals fraction else ljust fraction decimals "0").
      destruct (int_of_str whole) as [w|e] eqn:Hw; cbn [rbind try_except_ValueError].
      * destruct (int_of_str cut) as [f|e] eqn:Hf; cbn [rbind try_except_ValueError].
        -- left. eexists; reflexivity.
        -- right. rewrite (int_of_str_raises_ValueError _ _ Hf). reflexivity.
      * right. rewrite (int_of_str_raises_ValueError _ _ Hw). reflexivity.
    + right. reflexivity.
  - destruct (PyDecimal.of_str amount) as [x|e] eqn:Hx; cbn [rbind try_except_ValueError].
    + destruct (PyDecimal.mul x _) as [y|e] eqn:Hy; cbn [rbind try_except_ValueError].
      * left. eexists; reflexivity.
      * right. right. unfold PyDecimal.mul in Hy.
        destruct (fix_raises _ _ Hy) as (msg & ->). exists msg. reflexivity.
    + right. left. destruct (of_str_raises _ _ Hx) as (msg & ->). exists msg. reflexivity.
Qed.

Lemma format_amount_with_decimals_errors_witness :
  format_amount_with_decimals "1e" 18
  = Raise (DecimalInvalidOperation "[<class 'decimal.ConversionSyntax'>]") /\
  format_amount_with_decimals "1,5" 18 = Raise (ValueError "Invalid amount format: 1,5").
Proof.
  destruct (format_amount_with_decimals_errors "1e" 18) as [_ He].
  destruct (format_amount_with_decimals_errors "1,5" 18) as [Hplain _].
  split.
  - destruct (He eq_refl) as [(u & H) | [(m & H) | (m & H)]];
      [discriminate H | reflexivity | discriminate H].
  - destruct (Hplain eq_refl) as [(u & H) | H]; [discriminate H | exact H].
Defined.

Lemma take_length_app f g : PyStr.take (String.length f) (f +:+ g) = f.
Proof.
  induction f as [|c f IH]; cbn [String.length].
  - destruct g; reflexivity.
  - rewrite append_String. cbn [PyStr.take]. rewrite IH. reflexivity.
Qed.

(** X16: whatever follows the first [decimals] characters of the fractional
    part is not looked at: if [whole.fraction] converts, with as many
    decimals as [fraction] is long, then [whole.fraction] followed by any
    tail without dot and without the letter e converts to the same
    amount. *)
Theorem format_amount_with_decimals_ignores_tail (whole fraction tail : string) (units : Z) :
  contains "." whole = false -> contains "e" (lower whole) = false ->
  contains "." fraction = false -> contains "e" (lower fraction) = false ->
  contains "." tail = false -> contains "e" (lower tail) = false ->
  format_amount_with_decimals (whole +:+ "." +:+ fraction) (String.length fraction) = Ok units ->
  format_amount_with_decimals (whole +:+ "." +:+ fraction +:+ tail) (String.length fraction)
  = Ok units.
Proof.
  intros Hw Hwe Hf Hfe Ht Hte H.
  change (whole +:+ "." +:+ fraction +:+ tail)
    with (whole +:+ String "." (fraction +:+ tail)).
  change (whole +:+ "." +:+ fraction) with (whole +:+ String "." fraction) in H.
  assert (Hdot : forall rest, contains "." rest = false ->
            split "." (whole +:+ String "." rest) = [whole; rest]).
  { intros rest Hrest. rewrite (split_app "." whole rest Hw), (split_none "." rest Hrest).
    reflexivity. }
  assert (He : forall rest, contains "e" (lower rest) = false ->
            contains "e" (lower (whole +:+ String "." rest)) = false).
  { intros rest Hrest. rewrite lower_append, contains_append, Hwe.
    cbn [lower contains]. rewrite Hrest. reflexivity. }
  unfold format_amount_with_decimals in *.
  rewrite (He fraction Hfe), (Hdot fraction Hf) in H.
  rewrite Nat.ltb_irrefl in H.
  assert (Hpad : ljust fraction (String.length fraction) "0" = fraction).
  { unfold ljust. rewrite Nat.sub_diag. cbn [repeat_char]. apply append_empty_r. }
  rewrite Hpad in H.
  assert (Hfte : contains "e" (lower (fraction +:+ tail)) = false)
    by (rewrite lower_append, contains_append, Hfe, Hte; reflexivity).
  assert (Hft : contains "." (fraction +:+ tail) = false)
    by (rewrite contains_append, Hf, Ht; reflexivity).
  rewrite (He _ Hfte), (Hdot _ Hft).
  destruct (String.length fraction <? String.length (fraction +:+ tail))%nat eqn:Hlen.
  - rewrite take_length_app.
    destruct (int_of_str whole) as [w|e]; cbn [rbind try_except_ValueError] in *;
      [|destruct (is_ValueError e); discriminate H].
    destruct (int_of_str fraction) as [f|e]; cbn [rbind try_except_ValueError] in *;
      [exact H | destruct (is_ValueError e); discriminate H].
  - apply Nat.ltb_ge in Hlen. rewrite length_append in Hlen.
    assert (Htail : tail = "") by (destruct tail; [reflexivity | cbn in Hlen; lia]).
    subst tail. rewrite append_empty_r, Hpad.
    destruct (int_of_str whole) as [w|e]; cbn [rbind try_except_ValueError] in *;
      [|destruct (is_ValueError e); discriminate H].
    destruct (int_of_str fraction) as [f|e]; cbn [rbind try_except_ValueError] in *;
      [exact H | destruct (is_ValueError e); discriminate H].
Qed.

Lemma format_amount_with_decimals_ignores_tail_witness :
  format_amount_with_decimals "2.500000 USDC" 6 = Ok 2500000.
Proof.
  exact (format_amount_with_decimals_ignores_tail "2" "500000" " USDC" 2500000
           eq_refl eq_refl eq_refl eq_refl eq_refl eq_refl eq_refl).
Defined.

(** ** The token id of the minted position *)

(** X17: the token id is taken from the first log whose address equals the
    position manager's, case ignored, and that has more than three topics:
    it is the big-endian value of the fourth topic; the logs before it
    (another address, or at most three topics) are skipped, those after it
    are not looked at. *)
Theorem find_token_id_first_match (position_manager_address : string)
    (skipped : list Log) (log : Log) (rest : list Log) (topic : list Byte.byte) :
  (forall l, In l skipped ->
     lower (log_address l) <> lower position_manager_address \/
     (length (log_topics l) <= 3)%nat) ->
  lower (log_address log) = lower position_manager_address ->
  nth_error (log_topics log) 3 = Some topic ->
  find_token_id position_manager_address skipped = Ok None /\
  find_token_id position_manager_address (skipped ++ log :: rest)
  = (let! token_id := int_of_topic topic in Ok (Some token_id)) /\
  (topic <> [] ->
   exists token_id,
     int_of_topic topic = Ok token_id /\ 0 <= token_id < 256 ^ Z.of_nat (length topic)).
Proof.
  intros Hskipped Haddress Htopic.
  assert (Hskip : forall l, In l skipped ->
            String.eqb (lower (log_address l)) (lower position_manager_address)
            && (3 <? length (log_topics l))%nat = false).
  { intros l Hl. destruct (Hskipped l Hl) as [Hne | Hlen].
    - apply String.eqb_neq in Hne. rewrite Hne. reflexivity.
    - apply Nat.ltb_ge in Hlen. rewrite Hlen. apply andb_false_r. }
  clear Hskipped.
  refine (conj _ (conj _ _)).
  - induction skipped as [|l skipped IH]; [reflexivity|].
    cbn [find_token_id]. rewrite (Hskip l (or_introl eq_refl)).
    apply IH. intros l' Hl'. apply Hskip. right. exact Hl'.
  - induction skipped as [|l skipped IH].
    + cbn [app find_token_id]. rewrite Haddress, String.eqb_refl.
      assert (Hlen : (3 <? length (log_topics log))%nat = true).
      { apply Nat.ltb_lt. apply nth_error_Some. rewrite Htopic. discriminate. }
      rewrite Hlen, Htopic. reflexivity.
    + cbn [app find_token_id]. rewrite (Hskip l (or_introl eq_refl)).
      apply IH. intros l' Hl'. apply Hskip. right. exact Hl'.
  - intros Hne. unfold int_of_topic.
    destruct topic as [|b topic]; [contradiction|].
    eexists. split; [reflexivity|].
    set (bytes := b :: topic). clearbody bytes.
    assert (Hfold : forall l acc, 0 <= acc ->
              0 <= fold_left (fun acc b => 256 * acc + Z.of_N (Byte.to_N b)) l acc
              < (acc + 1) * 256 ^ Z.of_nat (length l)).
    { induction l as [|x l IH]; intros acc Hacc; cbn [fold_left length].
      - rewrite Z.pow_0_r. lia.
      - pose proof (Byte.to_N_bounded x) as Hx.
        assert (0 <= Z.of_N (Byte.to_N x) <= 255) by lia.
        specialize (IH (256 * acc + Z.of_N (Byte.to_N x)) ltac:(lia)).
        rewrite Nat2Z.inj_succ, Z.pow_succ_r by lia.
        split; [lia|].
        eapply Z.lt_le_trans; [apply IH|].
        assert (0 < 256 ^ Z.of_nat (length l)) by (apply Z.pow_pos_nonneg; lia).
        nia. }
    specialize (Hfold bytes 0 ltac:(lia)). lia.
Qed.

Lemma find_token_id_first_match_witness :
  find_token_id POSITION_MANAGER
    ({| log_address := WETH; log_topics := [[Byte.x01]; []; []; [Byte.x09]] |}
     :: logs Example.minted)
  = Ok (Some 258).
Proof.
  destruct (find_token_id_first_match POSITION_MANAGER
              [{| log_address := WETH; log_topics := [[Byte.x01]; []; []; [Byte.x09]] |}]
              {| log_address := "0xc36442b4a4522e871399cd717abdd847ab11fe88";
                 log_topics := [[Byte.xdd]; [Byte.x00]; [Byte.x11]; [Byte.x01; Byte.x02]] |}
              [] [Byte.x01; Byte.x02]) as (_ & Hfound & _).
  - intros l [<- | []]. left. vm_compute. discriminate.
  - reflexivity.
  - reflexivity.
  - exact Hfound.
Defined.

(** ** Formatting a balance *)

(** X18: for every amount of the uint256 range and up to 100 decimals
    [format_amount_from_decimals] returns a string, no signal of the decimal
    arithmetic being raised; the amount 0 gives ["0"]. *)
Theorem format_amount_from_decimals_never_raises (amount : Z) (decimals : nat) :
  0 <= amount < 2 ^ 256 -> (decimals <= 100)%nat ->
  (exists formatted, format_amount_from_decimals amount decimals = Ok formatted) /\
  (amount = 0 -> format_amount_from_decimals amount decimals = Ok "0").
Proof.
  intros Ha Hd. split.
  - apply format_amount_from_decimals_returns; assumption.
  - intros ->. reflexivity.
Qed.

Lemma format_amount_from_decimals_never_raises_witness :
  exists formatted, format_amount_from_decimals (2 ^ 256 - 1) 18 = Ok formatted.
Proof.
  exact (proj1 (format_amount_from_decimals_never_raises (2 ^ 256 - 1) 18
                  ltac:(lia) ltac:(lia))).
Defined.

(** ** Amounts printed in plain notation are read back unchanged *)

Lemma digit_of_val k :
  0 <= k <= 9 ->
  is_digit (ascii_of_N (Z.to_N (48 + k))) = true /\
  digit_val (ascii_of_N (Z.to_N (48 + k))) = k.
Proof.
  intros Hk. unfold is_digit, digit_val, code.
  rewrite N_ascii_embedding by lia.
  rewrite Z2N.id by lia. split; [boolean_lia | lia].
Qed.

Lemma nat_digits_spec fuel n acc :
  0 <= n < 10 ^ Z.of_nat fuel -> all_digits acc = true ->
  all_digits (nat_digits fuel n acc) = true /\
  digits_value (nat_digits fuel n acc)
  = n * 10 ^ Z.of_nat (String.length acc) + digits_value acc.
Proof.
  revert n acc. induction fuel as [|fuel IH]; intros n acc Hn Hacc; cbn [nat_digits].
  - cbn in Hn. assert (n = 0) by lia. subst n. split; [exact Hacc | lia].
  - assert (Hmod : 0 <= n mod 10 <= 9) by (pose proof (Z.mod_pos_bound n 10); lia).
    destruct (digit_of_val (n mod 10) Hmod) as [Hd Hv].
    destruct (n <? 10) eqn:Hlt.
    + apply Z.ltb_lt in Hlt. rewrite Z.mod_small in * by lia.
      cbn [all_digits]. rewrite Hd, Hacc. split; [reflexivity|].
      rewrite digits_value_String, Hv. reflexivity.
    + apply Z.ltb_ge in Hlt.
      rewrite Nat2Z.inj_succ, Z.pow_succ_r in Hn by lia.
      destruct (IH (n / 10) (String (ascii_of_N (Z.to_N (48 + n mod 10))) acc)) as [Ha Hval].
      * split; [apply Z.div_pos; lia | apply Z.div_lt_upper_bound; lia].
      * cbn [all_digits]. rewrite Hd, Hacc. reflexivity.
      * split; [exact Ha|]. rewrite Hval.
        cbn [String.length]. rewrite digits_value_String, Hv.
        rewrite Nat2Z.inj_succ, Z.pow_succ_r by lia.
        pose proof (Z.div_mod n 10 ltac:(lia)) as Hdm.
        set (p := 10 ^ Z.of_nat (String.length acc)) in *. nia.
Qed.

Lemma str_of_nonneg_spec n :
  0 <= n ->
  all_digits (str_of_nonneg n) = true /\
  digits_value (str_of_nonneg n) = n /\
  str_of_nonneg n <> "".
Proof.
  intros Hn. unfold str_of_nonneg.
  assert (Hfuel : 0 <= n < 10 ^ Z.of_nat (S (Z.to_nat (Z.log2 n)))).
  { split; [exact Hn|].
    rewrite Nat2Z.inj_succ, Z2Nat.id by apply Z.log2_nonneg.
    destruct (Z.eq_dec n 0) as [-> | Hne]; [cbn; lia|].
    pose proof (Z.log2_spec n ltac:(lia)) as [_ Hlt].
    eapply Z.lt_le_trans; [exact Hlt|].
    apply Z.pow_le_mono_l. lia. }
  destruct (nat_digits_spec _ n "" Hfuel eq_refl) as [Ha Hv].
  refine (conj Ha (conj _ _)).
  - rewrite Hv. cbn [String.length digits_value digits_value_acc]. cbn. lia.
  - pose proof (len_int_pos n) as Hlen. unfold PyDecimal.len_int, str_of_nonneg in Hlen.
    intros Hempty. rewrite Hempty in Hlen. cbn in Hlen. lia.
Qed.

Lemma len_int_magnitude n : 0 <= n -> n < 10 ^ PyDecimal.len_int n.
Proof.
  intros Hn. destruct (str_of_nonneg_spec n Hn) as (Ha & Hv & _).
  pose proof (digits_value_bounds _ Ha) as [_ Hb]. rewrite Hv in Hb. exact Hb.
Qed.

Lemma strip_zeros_spec fuel ideal coeff exp :
  0 < coeff -> exp <= ideal -> ideal - exp <= Z.of_nat fuel ->
  exists c e,
    PyDecimal.strip_zeros fuel ideal coeff exp = (c, e) /\
    0 < c /\ exp <= e <= ideal /\ coeff = c * 10 ^ (e - exp) /\
    (e < ideal -> c mod 10 <> 0).
Proof.
  revert coeff exp. induction fuel as [|fuel IH]; intros coeff exp Hc He Hf;
    cbn [PyDecimal.strip_zeros].
  - exists coeff, exp.
    refine (conj eq_refl (conj Hc (conj _ (conj _ _)))); [lia | | lia].
    rewrite Z.sub_diag, Z.pow_0_r. lia.
  - destruct ((exp <? ideal) && (coeff mod 10 =? 0)) eqn:Htest.
    + apply andb_true_iff in Htest as [Hlt Hmod].
      apply Z.ltb_lt in Hlt. apply Z.eqb_eq in Hmod.
      pose proof (Z.div_mod coeff 10 ltac:(lia)) as Hdm.
      destruct (IH (coeff / 10) (exp + 1)) as (c & e & Hs & Hcpos & Hel & Hval & Hlast);
        [lia | lia | lia |].
      exists c, e. refine (conj Hs (conj Hcpos (conj _ (conj _ Hlast)))); [lia|].
      replace (e - exp) with (Z.succ (e - (exp + 1))) by lia.
      rewrite Z.pow_succ_r by lia. lia.
    + exists coeff, exp.
      refine (conj eq_refl (conj Hc (conj _ (conj _ _)))); [lia | |].
      * rewrite Z.sub_diag, Z.pow_0_r. lia.
      * intros Hlt Hmod. apply Z.ltb_lt in Hlt. apply Z.eqb_eq in Hmod.
        rewrite Hlt, Hmod in Htest. discriminate Htest.
Qed.

Lemma div_eucl_pair a b : Z.div_eucl a b = (a / b, a mod b).
Proof.
  unfold Z.div, Z.modulo. destruct (Z.div_eucl a b). reflexivity.
Qed.

(** The exact quotient [n / 10^d], with as many trailing zeros removed as [d]
    allows. *)
Lemma truediv_exact n d :
  0 < n < 10 ^ 28 -> 0 <= d <= 100 ->
  exists c e,
    PyDecimal.truediv (PyDecimal.Dec false n 0) (PyDecimal.Dec false (10 ^ d) 0)
    = Ok (PyDecimal.Dec false c e) /\
    0 < c /\ - d <= e <= 0 /\ n = c * 10 ^ (e + d) /\ (e < 0 -> c mod 10 <> 0).
Proof.
  intros Hn Hd.
  assert (Hpow : 0 < 10 ^ d) by (apply Z.pow_pos_nonneg; lia).
  unfold PyDecimal.truediv.
  cbn [PyDecimal.d_sign PyDecimal.d_int PyDecimal.d_exp xorb].
  replace (10 ^ d =? 0) with false by (symmetry; apply Z.eqb_neq; lia).
  replace (n =? 0) with false by (symmetry; apply Z.eqb_neq; lia).
  pose proof (len_int_le n 28 ltac:(cbn; lia) ltac:(lia)) as Hlenx.
  pose proof (len_int_pos n) as Hlenx1.
  assert (Hleny : d < PyDecimal.len_int (10 ^ d)).
  { pose proof (len_int_magnitude (10 ^ d) ltac:(lia)) as Hm.
    apply (Z.pow_lt_mono_r_iff 10); [lia | pose proof (len_int_pos (10 ^ d)); lia | exact Hm]. }
  unfold PyDecimal.prec.
  generalize dependent (PyDecimal.len_int (10 ^ d)). intros len_y Hleny.
  generalize dependent (PyDecimal.len_int n). intros len_x Hlenx Hlenx1.
  set (shift := len_y - len_x + 28 + 1).
  assert (Hshift : d < shift) by (unfold shift; lia).
  clearbody shift.
  replace (0 <=? shift) with true by (symmetry; apply Z.leb_le; lia).
  rewrite div_eucl_pair.
  assert (Hsplit : n * 10 ^ shift = n * 10 ^ (shift - d) * 10 ^ d).
  { rewrite <- Z.mul_assoc, <- Z.pow_add_r by lia. f_equal. f_equal. lia. }
  rewrite Hsplit, Z.div_mul, Z.mod_mul by lia.
  cbn [Z.eqb].
  assert (Hq : 0 < n * 10 ^ (shift - d)).
  { apply Z.mul_pos_pos; [lia | apply Z.pow_pos_nonneg; lia]. }
  destruct (strip_zeros_spec (Z.to_nat (0 - 0 - (0 - 0 - shift))) (0 - 0)
              (n * 10 ^ (shift - d)) (0 - 0 - shift) Hq ltac:(lia) ltac:(lia))
    as (c & e & -> & Hc & He & Hval & Hlast).
  assert (Hed : - d <= e).
  { destruct (Z.le_gt_cases (- d) e) as [Hok | Hbad]; [exact Hok|]. exfalso.
    apply Hlast; [lia|].
    assert (Hc' : c = n * 10 ^ (- d - e)).
    { replace (shift - d) with ((- d - e) + (e - (0 - 0 - shift))) in Hval by lia.
      rewrite Z.pow_add_r, Z.mul_assoc in Hval by lia.
      apply Z.mul_cancel_r in Hval; [symmetry; exact Hval|].
      apply Z.pow_nonzero; lia. }
    rewrite Hc'. replace (- d - e) with (Z.succ (- d - e - 1)) by lia.
    rewrite Z.pow_succ_r by lia.
    replace (n * (10 * 10 ^ (- d - e - 1))) with (n * 10 ^ (- d - e - 1) * 10) by lia.
    apply Z.mod_mul. lia. }
  assert (Hn' : n = c * 10 ^ (e + d)).
  { replace (e - (0 - 0 - shift)) with ((e + d) + (shift - d)) in Hval by lia.
    rewrite Z.pow_add_r, Z.mul_assoc in Hval by lia.
    apply Z.mul_cancel_r in Hval; [exact Hval|].
    apply Z.pow_nonzero; lia. }
  exists c, e.
  assert (Hcn : c <= n).
  { assert (0 < 10 ^ (e + d)) by (apply Z.pow_pos_nonneg; lia). nia. }
  rewrite fix_exact by lia.
  repeat split; lia.
Qed.

Lemma substring_all s : String.substring 0 (String.length s) s = s.
Proof.
  induction s as [|c s IH]; [reflexivity|].
  cbn [String.length String.substring]. rewrite IH. reflexivity.
Qed.

Lemma take_drop n s :
  (n <= String.length s)%nat -> s = PyStr.take n s +:+ PyDecimal.drop n s.
Proof.
  unfold PyDecimal.drop. revert s. induction n as [|n IH]; intros s Hn.
  - rewrite Nat.sub_0_r, substring_all. destruct s; reflexivity.
  - destruct s as [|c s]; [cbn in Hn; lia|].
    cbn [String.length] in *. cbn [PyStr.take String.substring Nat.sub].
    rewrite append_String. f_equal. apply IH. lia.
Qed.

Lemma string_snoc s : s <> "" -> exists front c, s = front +:+ String c "".
Proof.
  induction s as [|a s IH]; [contradiction|]. intros _.
  destruct s as [|b s].
  - exists "", a. reflexivity.
  - destruct (IH ltac:(discriminate)) as (front & c & Hs).
    exists (String a front), c. rewrite append_String, <- Hs. reflexivity.
Qed.

Lemma rstrip_snoc p front c :
  p c = false -> rstrip p (front +:+ String c "") = front +:+ String c "".
Proof.
  intros Hc. induction front as [|a front IH].
  - change ("" +:+ String c "") with (String c ""). cbn [rstrip]. rewrite Hc. reflexivity.
  - rewrite append_String. cbn [rstrip]. rewrite IH.
    destruct front; reflexivity.
Qed.

Lemma is_digit_not_dot c : is_digit c = true -> Ascii.eqb c "." = false.
Proof.
  intros H. destruct (Ascii.eqb_spec c ".") as [-> | _]; [discriminate H | reflexivity].
Qed.

(** A digit string whose value is no multiple of ten does not end in a
    zero, so that stripping zeros and dots from the right leaves a string
    that ends with it as it is. *)
Lemma rstrip_after_last_digit prefix f :
  all_digits f = true -> f <> "" -> digits_value f mod 10 <> 0 ->
  rstrip (is_char ".") (rstrip (is_char "0") (prefix +:+ f)) = prefix +:+ f.
Proof.
  intros Ha Hne Hmod.
  destruct (string_snoc f Hne) as (front & c & ->).
  rewrite all_digits_app in Ha. apply andb_true_iff in Ha as [_ Hc].
  cbn [all_digits] in Hc. rewrite andb_true_r in Hc.
  rewrite digits_value_app in Hmod.
  cbn [String.length] in Hmod. change (10 ^ Z.of_nat 1) with 10 in Hmod.
  rewrite Z.add_comm, Z.mod_add in Hmod by lia.
  assert (Hzero : is_char "0" c = false).
  { unfold is_char. destruct (Ascii.eqb_spec c "0") as [-> | _]; [|reflexivity].
    exfalso. apply Hmod. reflexivity. }
  assert (Hdot : is_char "." c = false) by (apply is_digit_not_dot; exact Hc).
  rewrite <- append_assoc.
  rewrite (rstrip_snoc _ _ _ Hzero), (rstrip_snoc _ _ _ Hdot). reflexivity.
Qed.

(** [str] of a decimal with a negative exponent that is printed without an
    exponent: a run of digits, a dot, and as many digits as the exponent
    says. *)
Lemma to_str_plain c e :
  0 < c -> e < 0 -> -6 < e + PyDecimal.len_int c ->
  exists whole f,
    PyDecimal.to_str (PyDecimal.Dec false c e) = whole +:+ String "." f /\
    all_digits whole = true /\ whole <> "" /\ all_digits f = true /\
    Z.of_nat (String.length f) = - e /\
    digits_value whole * 10 ^ (- e) + digits_value f = c /\
    (String.length whole <= String.length (str_of_nonneg c))%nat.
Proof.
  intros Hc He Hleft.
  destruct (str_of_nonneg_spec c ltac:(lia)) as (Ha & Hv & Hne).
  unfold PyDecimal.to_str, PyDecimal.len_int in *.
  cbn [PyDecimal.d_sign PyDecimal.d_int PyDecimal.d_exp].
  set (digits := str_of_nonneg c) in *.
  set (len := Z.of_nat (String.length digits)) in *.
  replace ((e <=? 0) && (-6 <? e + len)) with true
    by (symmetry; apply andb_true_iff; split; [apply Z.leb_le | apply Z.ltb_lt]; lia).
  rewrite Z.eqb_refl.
  destruct (e + len <=? 0) eqn:Hdot.
  - apply Z.leb_le in Hdot. cbn [fst snd].
    exists "0", (repeat_char "0" (Z.to_nat (- (e + len))) +:+ digits).
    split; [|split; [reflexivity|split; [discriminate|split; [|split; [|split]]]]].
    + rewrite append_empty_r. reflexivity.
    + rewrite all_digits_app, all_digits_repeat_zero, Ha. reflexivity.
    + rewrite length_append, length_repeat_char. unfold len. lia.
    + rewrite digits_value_app, digits_value_repeat_zero, Hv.
      change (digits_value "0") with 0. lia.
    + destruct digits; [congruence | cbn; lia].
  - apply Z.leb_gt in Hdot.
    replace (len <=? e + len) with false by (symmetry; apply Z.leb_gt; lia).
    cbn [fst snd].
    assert (Hdp : (Z.to_nat (e + len) <= String.length digits)%nat) by (unfold len in *; lia).
    pose proof (take_drop _ digits Hdp) as Hsplit.
    set (whole := PyStr.take (Z.to_nat (e + len)) digits) in *.
    set (f := PyDecimal.drop (Z.to_nat (e + len)) digits) in *.
    assert (Hlw : String.length whole = Z.to_nat (e + len)) by (apply length_take; exact Hdp).
    assert (Hlf : Z.of_nat (String.length f) = - e).
    { assert (Hl : String.length digits = (String.length whole + String.length f)%nat)
        by (rewrite Hsplit at 1; apply length_append).
      unfold len in *. lia. }
    exists whole, f.
    rewrite Hsplit, all_digits_app in Ha. apply andb_true_iff in Ha as [Haw Haf].
    split; [|split; [exact Haw|split; [|split; [exact Haf|split; [exact Hlf|split]]]]].
    + rewrite append_empty_r. reflexivity.
    + intros Hempty. rewrite Hempty in Hlw. cbn in Hlw. lia.
    + rewrite <- Hv, Hsplit, digits_value_app, Hlf. reflexivity.
    + lia.
Qed.

(** X19: an amount of at most 28 digits that is at least [10^(decimals - 6)]
    atomic units is printed by [format_amount_from_decimals] in plain
    notation: a non-empty run of digits [whole], followed, unless the amount
    is a whole number of tokens, by a dot and a non-empty run of digits
    [fraction] that does not end in 0; there is no exponent.  The number
    printed is [amount / 10^decimals], and [format_amount_with_decimals]
    reads the printed string back as the same amount. *)
Theorem round_trip_of_plain_amounts (amount : Z) (decimals : nat) :
  0 < amount < 10 ^ 28 ->
  10 ^ (Z.of_nat decimals - 6) <= amount ->
  exists whole fraction,
    all_digits whole = true /\ whole <> "" /\ all_digits fraction = true /\
    (fraction <> "" -> digits_value fraction mod 10 <> 0) /\
    format_amount_from_decimals amount decimals
    = Ok (if String.eqb fraction "" then whole else whole +:+ "." +:+ fraction) /\
    (Stated.plain_decimal_value whole fraction
     == Qmake amount (Z.to_pos (10 ^ Z.of_nat decimals)))%Q /\
    format_amount_with_decimals
      (if String.eqb fraction "" then whole else whole +:+ "." +:+ fraction) decimals
    = Ok amount.
Proof.
  intros Ha Hsmall.
  assert (Hd : Z.of_nat decimals <= 100).
  { destruct (Z.le_gt_cases (Z.of_nat decimals) 100) as [Hok | Hbig]; [exact Hok|]. exfalso.
    assert (10 ^ 28 <= 10 ^ (Z.of_nat decimals - 6)) by (apply Z.pow_le_mono_r; lia). lia. }
  unfold format_amount_from_decimals.
  replace (amount =? 0) with false by (symmetry; apply Z.eqb_neq; lia).
  assert (Hpow : 0 < 10 ^ Z.of_nat decimals) by (apply Z.pow_pos_nonneg; lia).
  unfold PyDecimal.of_int. rewrite !Z.abs_eq by lia.
  replace (amount <? 0) with false by (symmetry; apply Z.ltb_ge; lia).
  replace (10 ^ Z.of_nat decimals <? 0) with false by (symmetry; apply Z.ltb_ge; lia).
  destruct (truediv_exact amount (Z.of_nat decimals) Ha ltac:(lia))
    as (c & e & -> & Hc & He & Hval & Hlast).
  cbn [rbind].
  destruct (str_of_nonneg_spec c ltac:(lia)) as (Hdigits & Hv & Hne).
  assert (Hc28 : c < 10 ^ 28).
  { assert (1 <= 10 ^ (e + Z.of_nat decimals))
      by (pose proof (Z.pow_pos_nonneg 10 (e + Z.of_nat decimals)); lia).
    nia. }
  assert (Hlen28 : (String.length (str_of_nonneg c) <= 28)%nat).
  { pose proof (len_int_le c 28 ltac:(cbn; lia) ltac:(lia)) as Hl.
    unfold PyDecimal.len_int in Hl. lia. }
  destruct (Z.eq_dec e 0) as [-> | He0].
  - (* a whole number: the digits alone *)
    assert (Hs : PyDecimal.to_str (PyDecimal.Dec false c 0) = str_of_nonneg c).
    { unfold PyDecimal.to_str.
      cbn [PyDecimal.d_sign PyDecimal.d_int PyDecimal.d_exp].
      pose proof (len_int_pos c) as Hlen. unfold PyDecimal.len_int in Hlen.
      set (len := Z.of_nat (String.length (str_of_nonneg c))) in *.
      replace ((0 <=? 0) && (-6 <? 0 + len)) with true
        by (symmetry; apply andb_true_iff; split; [reflexivity | apply Z.ltb_lt; lia]).
      rewrite Z.eqb_refl.
      replace (0 + len <=? 0) with false by (symmetry; apply Z.leb_gt; lia).
      replace (len <=? 0 + len) with true by (symmetry; apply Z.leb_le; lia).
      cbn [fst snd]. replace (0 + len - len) with 0 by lia.
      cbn [Z.to_nat repeat_char]. rewrite !append_empty_r. reflexivity. }
    rewrite Hs, (all_digits_no_dot _ Hdigits).
    exists (str_of_nonneg c), "". cbn [String.eqb].
    split; [exact Hdigits|]. split; [exact Hne|]. split; [reflexivity|].
    split; [intros Hempty; congruence|]. split; [reflexivity|]. split.
    + unfold Stated.plain_decimal_value, Qeq. cbn [Qnum Qden String.length Z.of_nat].
      rewrite append_empty_r, Hv, !Z2Pos.id by (apply Z.pow_pos_nonneg; lia).
      rewrite Hval, Z.add_0_l. change (Z.of_nat 0) with 0. rewrite Z.pow_0_r. ring.
    + rewrite (format_amount_with_decimals_whole _ _ Hdigits Hne) by lia.
      rewrite Hv, Hval. reflexivity.
  - (* a fraction: digits, a dot, digits *)
    assert (Hleft : -6 < e + PyDecimal.len_int c).
    { pose proof (len_int_magnitude c ltac:(lia)) as Hm.
      pose proof (len_int_pos c) as Hl.
      assert (Hlt : 10 ^ (Z.of_nat decimals - 6)
                    < 10 ^ (PyDecimal.len_int c + (e + Z.of_nat decimals))).
      { eapply Z.le_lt_trans; [exact Hsmall|]. rewrite Hval.
        rewrite (Z.pow_add_r 10 (PyDecimal.len_int c) (e + Z.of_nat decimals)) by lia.
        apply Z.mul_lt_mono_pos_r; [apply Z.pow_pos_nonneg; lia | exact Hm]. }
      apply Z.pow_lt_mono_r_iff in Hlt; lia. }
    destruct (to_str_plain c e Hc ltac:(lia) Hleft)
      as (whole & f & -> & Hw & Hwne & Hf & Hlen & Hparts & Hwlen).
    assert (Hcontains : contains "." (whole +:+ String "." f) = true).
    { rewrite contains_append. cbn [contains]. rewrite Ascii.eqb_refl.
      cbn [orb]. apply orb_true_r. }
    rewrite Hcontains.
    assert (Hfne : f <> "") by (intros ->; cbn in Hlen; lia).
    assert (Hfmod : digits_value f mod 10 <> 0).
    { intros Hzero. apply Hlast; [lia|]. rewrite <- Hparts.
      replace (- e) with (Z.succ (- e - 1)) by lia. rewrite Z.pow_succ_r by lia.
      replace (digits_value whole * (10 * 10 ^ (- e - 1)) + digits_value f)
        with (digits_value f + digits_value whole * 10 ^ (- e - 1) * 10) by lia.
      rewrite Z.mod_add by lia. exact Hzero. }
    change (whole +:+ String "." f) with (whole +:+ (String "." "" +:+ f)).
    rewrite <- append_assoc.
    rewrite (rstrip_after_last_digit _ f Hf Hfne Hfmod).
    rewrite append_assoc. change (String "." "" +:+ f) with (String "." f).
    exists whole, f.
    replace (String.eqb f "") with false by (symmetry; apply String.eqb_neq; exact Hfne).
    change (whole +:+ "." +:+ f) with (whole +:+ String "." f).
    split; [exact Hw|]. split; [exact Hwne|]. split; [exact Hf|].
    split; [intros _; exact Hfmod|]. split; [reflexivity|].
    assert (Hscale : 10 ^ Z.of_nat decimals = 10 ^ (e + Z.of_nat decimals) * 10 ^ (- e)).
    { rewrite <- Z.pow_add_r by lia. f_equal. lia. }
    split.
    + unfold Stated.plain_decimal_value, Qeq. cbn [Qnum Qden].
      rewrite digits_value_app, Hlen, !Z2Pos.id by (try apply Z.pow_pos_nonneg; lia).
      rewrite Hparts, Hval, Hscale. ring.
    + rewrite (format_amount_with_decimals_parts whole f decimals (digits_value whole)).
      * f_equal. rewrite Hlen, Hscale.
        replace (digits_value f * (10 ^ (e + Z.of_nat decimals) * 10 ^ (- e)))
          with (digits_value f * 10 ^ (e + Z.of_nat decimals) * 10 ^ (- e)) by ring.
        rewrite Z.div_mul by (apply Z.pow_nonzero; lia).
        rewrite Hval, <- Hparts. ring.
      * apply all_digits_no_e. exact Hw.
      * apply all_digits_no_dot. exact Hw.
      * apply int_of_str_digits; [assumption | assumption | lia].
      * exact Hf.
      * lia.
Qed.

Lemma round_trip_of_plain_amounts_witness :
  exists whole fraction,
    format_amount_from_decimals 1500000000000000000 18
    = Ok (if String.eqb fraction "" then whole else whole +:+ "." +:+ fraction) /\
    format_amount_with_decimals
      (if String.eqb fraction "" then whole else whole +:+ "." +:+ fraction) 18
    = Ok 1500000000000000000.
Proof.
  destruct (round_trip_of_plain_amounts 1500000000000000000 18 ltac:(lia) ltac:(cbn; lia))
    as (whole & fraction & _ & _ & _ & _ & Hprinted & _ & Hread).
  exists whole, fraction. split; assumption.
Defined.

(** ** Insufficient balances *)

(** X20: when both balances have been read and one of them is below the
    requested atomic amount, [create_liquidity] returns [Error: Insufficient
    WETH balance. You have ... WETH, but need ... WETH] (or the same for
    USDC, when the WETH balance suffices), with the text that
    [format_amount_from_decimals] gives for the balance and the requested
    amount as it was passed in, and hands no transaction to the wallet
    provider: neither an approval nor the mint.  Nothing is read after the
    two balances either. *)
Theorem create_liquidity_insufficient_balance E args v tr out
  amount_weth_units amount_usdc_units weth_balance usdc_balance later :
  validate_create_liquidity E args = Ok v ->
  format_amount_with_decimals (amount_weth v) 18 = Ok amount_weth_units ->
  format_amount_with_decimals (amount_usdc v) 6 = Ok amount_usdc_units ->
  trace (create_liquidity E args) tr out ->
  balance_reads tr = Ok (PInt weth_balance) :: Ok (PInt usdc_balance) :: later ->
  0 <= weth_balance < 2 ^ 256 -> 0 <= usdc_balance < 2 ^ 256 ->
  weth_balance < amount_weth_units \/ usdc_balance < amount_usdc_units ->
  (exists formatted,
      (weth_balance < amount_weth_units /\
       format_amount_from_decimals weth_balance 18 = Ok formatted /\
       out = Ok ("Error: Insufficient WETH balance. You have " +:+ formatted
                 +:+ " WETH, but need " +:+ amount_weth v +:+ " WETH")) \/
      (amount_weth_units <= weth_balance /\ usdc_balance < amount_usdc_units /\
       format_amount_from_decimals usdc_balance 6 = Ok formatted /\
       out = Ok ("Error: Insufficient USDC balance. You have " +:+ formatted
                 +:+ " USDC, but need " +:+ amount_usdc v +:+ " USDC"))) /\
  sent_transactions tr = [] /\ later = [].
Proof.
  intros Hv Hweth Husdc H Hreads Hbw Hbu Hshort.
  destruct (format_amount_from_decimals_returns weth_balance 18 Hbw ltac:(lia)) as (fw & Hfw).
  destruct (format_amount_from_decimals_returns usdc_balance 6 Hbu ltac:(lia)) as (fu & Hfu).
  pose proof ASSET_DECIMALS_weth as Hdw. pose proof ASSET_DECIMALS_usdc as Hdu.
  unfold create_liquidity in H.
  repeat (trace_step; try discriminate).
  all: unfold balance_reads in Hreads; cbn in Hreads; try discriminate Hreads.
  all: injection Hreads as -> -> Hlater.
  all: tidy.
  all: cbn [PyVal.lt_int PyVal.as_int format_amount_from_decimals_value] in *.
  all: tidy.
  all: repeat match goal with
              | H : true = (_ <? _) |- _ => symmetry in H; apply Z.ltb_lt in H
              | H : false = (_ <? _) |- _ => symmetry in H; apply Z.ltb_ge in H
              end.
  all: try lia.
  - split; [|split; reflexivity]. exists fw. left. auto.
  - split; [|split; reflexivity]. exists fu. right. auto.
Qed.

Lemma create_liquidity_insufficient_balance_witness :
  fst Example.liquidity_poor
  = Ok "Error: Insufficient WETH balance. You have 0.25 WETH, but need 0.5 WETH" /\
  sent_transactions (snd Example.liquidity_poor) = [].
Proof.
  pose proof (create_liquidity_insufficient_balance Example.env Example.request
                Example.liquidity_request
                (snd Example.liquidity_poor) (fst Example.liquidity_poor)
                500000000000000000 1000000000 250000000000000000 5000000000 []
                eq_refl
                ltac:(vm_compute; reflexivity)
                ltac:(vm_compute; reflexivity)
                (run_trace_pair Example.poor_wallet _ [] _
                   (eq_refl : run Example.poor_wallet
                                (create_liquidity Example.env Example.request) []
                              = Example.liquidity_poor))
                ltac:(vm_compute; reflexivity)
                ltac:(lia) ltac:(lia) ltac:(left; lia))
    as ((formatted & [(_ & Hf & Hout) | (Hle & _)]) & Hsent & _).
  - split; [|exact Hsent].
    rewrite Hout. f_equal. f_equal.
    assert (Hv : format_amount_from_decimals 250000000000000000 18 = Ok "0.25")
      by (vm_compute; reflexivity).
    rewrite Hv in Hf. injection Hf as <-. reflexivity.
  - lia.
Defined.


(** ** Plain and scientific notation *)

(** X21: a plain decimal string, a non-empty run [w] of at most 4300 digits
    alone or followed by a dot and a run of digits [f], is converted to
    [floor(value * 10^decimals)]: the fractional digits beyond [decimals]
    are cut, not rounded (for [w.f] the decimal count is between 1 and
    4300).  A string without the letter e that has more than one dot is
    refused with [ValueError("Invalid amount format: ...")]. *)
Theorem format_amount_with_decimals_truncates (w f : string) (decimals : nat) :
  all_digits w = true -> w <> "" -> (String.length w <= 4300)%nat ->
  all_digits f = true ->
  format_amount_with_decimals w decimals
  = Ok (Stated.truncated_units (Stated.plain_decimal_value w "") decimals) /\
  ((1 <= decimals <= 4300)%nat ->
   format_amount_with_decimals (w +:+ "." +:+ f) decimals
   = Ok (Stated.truncated_units (Stated.plain_decimal_value w f) decimals)) /\
  (forall s,
     contains "e" (lower s) = false -> (2 < length (split "." s))%nat ->
     format_amount_with_decimals s decimals
     = Raise (ValueError ("Invalid amount format: " +:+ s))).
Proof.
  intros Hw Hwne Hlen Hf. repeat apply conj.
  - rewrite truncated_units_plain, append_empty_r. cbn [String.length Z.of_nat].
    rewrite Z.pow_0_r, Z.div_1_r. apply format_amount_with_decimals_whole; assumption.
  - intros Hd. rewrite truncated_units_plain, plain_units_split.
    change (w +:+ "." +:+ f) with (w +:+ String "." f).
    apply format_amount_with_decimals_parts; try assumption.
    + apply all_digits_no_e. exact Hw.
    + apply all_digits_no_dot. exact Hw.
    + apply int_of_str_digits; assumption.
  - intros s He Hdots. apply format_amount_with_decimals_refuses; [exact He | left; exact Hdots].
Qed.

Lemma format_amount_with_decimals_truncates_witness :
  format_amount_with_decimals "12" 6 = Ok 12000000 /\
  format_amount_with_decimals "12.3456789" 6 = Ok 12345678 /\
  format_amount_with_decimals "1.2.3" 6 = Raise (ValueError "Invalid amount format: 1.2.3").
Proof.
  pose proof (format_amount_with_decimals_truncates "12" "3456789" 6
                eq_refl ltac:(discriminate) ltac:(cbn; lia) eq_refl)
    as (Hwhole & Hparts & Hrefused).
  repeat apply conj.
  - exact Hwhole.
  - exact (Hparts ltac:(lia)).
  - apply Hrefused; [reflexivity | vm_compute; lia].
Defined.

(** The units of [c / 10^lf * 10^xs], truncated, over the integers. *)
Lemma scientific_units_value c lf xs d :
  0 <= lf -> 0 <= d ->
  Stated.truncated_units
    (Stated.times_power_of_ten (Qmake c (Z.to_pos (10 ^ lf))) xs) (Z.to_nat d)
  = if 0 <=? xs - lf
    then c * 10 ^ d * 10 ^ (xs - lf)
    else c * 10 ^ d / 10 ^ (lf - xs).
Proof.
  intros Hlf Hd.
  assert (Hplf : 0 < 10 ^ lf) by (apply Z.pow_pos_nonneg; lia).
  unfold Stated.truncated_units, Stated.times_power_of_ten. rewrite Z2Nat.id by lia.
  destruct (0 <=? xs) eqn:Hxs.
  - apply Z.leb_le in Hxs.
    unfold Qfloor, Qmult, inject_Z. cbn [Qnum Qden].
    rewrite !Pos.mul_1_r, Z2Pos.id by lia.
    destruct (0 <=? xs - lf) eqn:Hs.
    + apply Z.leb_le in Hs.
      replace (10 ^ xs) with (10 ^ (xs - lf) * 10 ^ lf)
        by (rewrite <- Z.pow_add_r by lia; f_equal; lia).
      replace (c * (10 ^ (xs - lf) * 10 ^ lf) * 10 ^ d)
        with (c * 10 ^ d * 10 ^ (xs - lf) * 10 ^ lf) by ring.
      apply Z.div_mul. lia.
    + apply Z.leb_gt in Hs.
      assert (Hpx : 0 < 10 ^ xs) by (apply Z.pow_pos_nonneg; lia).
      replace (10 ^ lf) with (10 ^ (lf - xs) * 10 ^ xs)
        by (rewrite <- Z.pow_add_r by lia; f_equal; lia).
      replace (c * 10 ^ xs * 10 ^ d) with (c * 10 ^ d * 10 ^ xs) by ring.
      apply Z.div_mul_cancel_r; [|lia].
      apply Z.pow_nonzero; lia.
  - apply Z.leb_gt in Hxs.
    replace (0 <=? xs - lf) with false by (symmetry; apply Z.leb_gt; lia).
    assert (Hpx : 0 < 10 ^ (- xs)) by (apply Z.pow_pos_nonneg; lia).
    unfold Qfloor, Qdiv, Qmult, Qinv, inject_Z. cbn [Qnum Qden].
    destruct (10 ^ (- xs)) as [|p|p] eqn:Hp; try lia.
    cbn [Qnum Qden]. rewrite Z.mul_1_r, Pos.mul_1_r, Pos2Z.inj_mul, Z2Pos.id by lia.
    rewrite <- Hp, <- Z.pow_add_r by lia.
    replace (lf + - xs) with (lf - xs) by lia. reflexivity.
Qed.

(** X22: a number in scientific notation, [w e x], [w.f e x] or [.f e x],
    with a small or a capital e and an exponent with or without a minus, is
    converted to [floor(value * 10^decimals)], where the value is [w.f]
    times [10^x] (or divided by it, after a minus), as long as the digits of
    [w.f] followed by [decimals] zeros make a number of at most 28 digits
    and the exponent is moderate: on this range the 28-digit decimal
    arithmetic is exact. *)
Theorem format_amount_with_decimals_scientific (w f x : string)
    (dot upper negative : bool) (decimals : nat) :
  all_digits w = true -> all_digits f = true -> all_digits x = true -> x <> "" ->
  (if dot then w <> "" \/ f <> "" else w <> "" /\ f = "") ->
  digits_value (w +:+ f) * 10 ^ Z.of_nat decimals < 10 ^ 28 ->
  digits_value x + Z.of_nat (String.length f) <= 999000 ->
  format_amount_with_decimals (scientific w f x dot upper negative) decimals
  = Ok (Stated.truncated_units
          (Stated.times_power_of_ten (Stated.plain_decimal_value w f)
             (if negative then - digits_value x else digits_value x))
          decimals).
Proof.
  intros Hw Hf Hx Hxne Hshape Hprec Hexp.
  pose proof (digits_value_bounds x Hx) as [Hx0 _].
  rewrite (format_amount_with_decimals_scientific_units w f x dot upper negative decimals
             Hw Hf Hx Hxne Hshape Hprec)
    by (destruct negative; lia).
  cbv zeta. f_equal. unfold Stated.plain_decimal_value.
  rewrite <- (Nat2Z.id decimals) at 3.
  rewrite scientific_units_value by lia.
  replace (Z.of_nat (String.length f)
           - (if negative then - digits_value x else digits_value x))
    with (- ((if negative then - digits_value x else digits_value x)
             - Z.of_nat (String.length f))) by lia.
  reflexivity.
Qed.

Lemma format_amount_with_decimals_scientific_witness :
  format_amount_with_decimals "1.5e3" 6 = Ok 1500000000 /\
  format_amount_with_decimals "2.5E-1" 18 = Ok 250000000000000000 /\
  format_amount_with_decimals "15e-3" 6 = Ok 15000.
Proof.
  repeat apply conj.
  - exact (format_amount_with_decimals_scientific "1" "5" "3" true false false 6
             eq_refl eq_refl eq_refl ltac:(discriminate)
             ltac:(left; discriminate) ltac:(vm_compute; reflexivity)
             ltac:(vm_compute; discriminate)).
  - exact (format_amount_with_decimals_scientific "2" "5" "1" true true true 18
             eq_refl eq_refl eq_refl ltac:(discriminate)
             ltac:(left; discriminate) ltac:(vm_compute; reflexivity)
             ltac:(vm_compute; discriminate)).
  - exact (format_amount_with_decimals_scientific "15" "" "3" false false true 6
             eq_refl eq_refl eq_refl ltac:(discriminate)
             ltac:(split; [discriminate | reflexivity]) ltac:(vm_compute; reflexivity)
             ltac:(vm_compute; discriminate)).
Defined.
